(** * airquality-download: a shallow embedding of [download.py] and [load.py]

    The two scripts are effectful Python: they talk to a remote server, to
    the local file system and to a relational database, and they steer
    their control flow with exceptions.  The embedding keeps that shape:
    a computation is a function from a world to an outcome (a value or a
    raised exception) and a new world, and every observable step (a call
    of a fetch function, a file written, a message printed or logged) is
    appended to a trace kept in the world. *)

From Stdlib Require Import Ascii String.
From stdpp Require Import base option strings pretty list gmap sorting.

Open Scope string_scope.
Open Scope list_scope.

(** ** Exceptions and outcomes *)

(** The exception classes the two scripts tell apart in their [except]
    clauses; each carries [str(e)].  [OtherError] stands for every other
    subclass of [Exception] (connection errors, parser errors, ...). *)
Inductive exn :=
| HTTPError (msg : string)
| UnicodeDecodeError (msg : string)
| UniqueViolation (msg : string)
| ValueError (msg : string)
| KeyError (msg : string)
| OtherError (msg : string).

Definition exn_str (e : exn) : string :=
  match e with
  | HTTPError m | UnicodeDecodeError m | UniqueViolation m
  | ValueError m | KeyError m | OtherError m => m
  end.

Inductive result (A : Type) :=
| Ok (a : A)
| Raise (e : exn).
Arguments Ok {A} a.
Arguments Raise {A} e.

Definition is_Ok {A} (r : result A) : bool :=
  match r with Ok _ => true | Raise _ => false end.

(** A computation over a world [W]: it returns a value or raises, and
    leaves a new world either way. *)
Definition M (W A : Type) : Type := W -> result A * W.

Definition ret {W A} (a : A) : M W A := fun w => (Ok a, w).

Definition bind {W A B} (m : M W A) (k : A -> M W B) : M W B :=
  fun w => match m w with
           | (Ok a, w') => k a w'
           | (Raise e, w') => (Raise e, w')
           end.

Definition raise {W A} (e : exn) : M W A := fun w => (Raise e, w).

(** A pure step that can raise. *)
Definition lift {W A} (r : result A) : M W A := fun w => (r, w).

(** [try: m  except Exception as e: h e]. *)
Definition try_except {W A} (m : M W A) (h : exn -> M W A) : M W A :=
  fun w => match m w with
           | (Ok a, w') => (Ok a, w')
           | (Raise e, w') => h e w'
           end.

#[global] Instance M_ret {W} : MRet (M W) := @ret W.
#[global] Instance M_bind {W} : MBind (M W) := fun A B k m => bind m k.

(** ** Strings and paths *)

(** [s.split(sep)] for a one-character separator. *)
Fixpoint str_split (sep : ascii) (s : string) : list string :=
  match s with
  | EmptyString => [""]
  | String c s' =>
      if Ascii.eqb c sep then "" :: str_split sep s'
      else match str_split sep s' with
           | [] => [String c ""]
           | p :: ps => String c p :: ps
           end
  end.

(** [sep.join(parts)]. *)
Fixpoint str_join (sep : string) (parts : list string) : string :=
  match parts with
  | [] => ""
  | [p] => p
  | p :: ps => p +:+ sep +:+ str_join sep ps
  end.

(** [needle in s]. *)
Fixpoint contains (needle s : string) : bool :=
  String.prefix needle s ||
  match s with
  | EmptyString => false
  | String _ s' => contains needle s'
  end.

(** A [pathlib.Path] on a POSIX system: whether it is anchored at the
    root, and its components.  Parsing drops empty and ["."] components,
    as [pathlib] does. *)
Record Path := mkPath { absolute : bool; parts : list string }.

Definition is_component (p : string) : bool :=
  negb (String.eqb p "") && negb (String.eqb p ".").

Definition path_of (s : string) : Path :=
  {| absolute := String.prefix "/" s;
     parts := filter (fun p => is_component p = true) (str_split "/" s) |}.

(** [p / q]. *)
Definition joinpath (p q : Path) : Path :=
  if absolute q then q
  else {| absolute := absolute p; parts := parts p ++ parts q |}.

(** [p.name]. *)
Definition name (p : Path) : string := List.last (parts p) "".

(** [str(p)]. *)
Definition path_str (p : Path) : string :=
  if absolute p then "/" +:+ str_join "/" (parts p)
  else match parts p with
       | [] => "."
       | _ => str_join "/" (parts p)
       end.

(** ** [download.py] *)

Module Download.

(** What one run can observe, in order. *)
Inductive event :=
| Fetch
| Makedirs (dir : string)
| WriteFile (path : string)
| ReadFile (path : string)
| Print (msg : string).

#[global] Instance event_eq_dec : EqDecision event.
Proof. solve_decision. Defined.

(** How many times a fetch function was called. *)
Definition fetch_count (t : list event) : nat :=
  length (filter (fun ev => ev = Fetch) t).

Section Download.

(** [pandas] and the remote side are not part of the repository: a data
    frame is an abstract value, [to_csv] gives the text [DataFrame.to_csv]
    writes, [read_csv] what [pd.read_csv] parses from a text (it can
    raise), and [Net] is the state of the remote servers. *)
Context {Frame Net : Type}.
Variable to_csv : Frame -> string.
Variable read_csv : string -> result Frame.

(** An HTTP response: [status_code], [reason] and [content]. *)
Record Response := mkResponse
  { status_code : nat; reason : string; content : string }.

(** [session.get(url)]: it can raise (no connection) and it can change the
    remote state. *)
Variable session_get : string -> Net -> result Response * Net.

(** The file system is a finite map from a path to the text of the regular
    file stored there; directories are implicit. *)
Record World := mkWorld
  { files : gmap string string;
    net : Net;
    trace : list event }.

Definition emit (ev : event) : M World unit :=
  fun w => (Ok tt, {| files := files w; net := net w;
                      trace := trace w ++ [ev] |}).

(** A fetch function ([download_func]): a remote call that returns a data
    frame or raises.  It sees the remote state only. *)
Definition fetch : Type := Net -> result Frame * Net.

(** [download_func(session=s)], recorded in the trace.  (The session only
    carries the connection and is left out.) *)
Definition call_fetch (f : fetch) : M World Frame :=
  fun w => let (r, n) := f (net w) in
           (r, {| files := files w; net := n;
                  trace := trace w ++ [Fetch] |}).

(** [path.exists()]. *)
Definition exists_ (path : Path) (w : World) : bool :=
  bool_decide (is_Some (files w !! path_str path)).

(** [data.to_csv(path, index=False)]. *)
Definition write_csv (path : Path) (data : Frame) : M World unit :=
  fun w => (Ok tt, {| files := <[path_str path := to_csv data]> (files w);
                      net := net w;
                      trace := trace w ++ [WriteFile (path_str path)] |}).

(** [pd.read_csv(path)]. *)
Definition read_csv_file (path : Path) : M World Frame :=
  fun w => match files w !! path_str path with
           | Some text =>
               (read_csv text,
                {| files := files w; net := net w;
                   trace := trace w ++ [ReadFile (path_str path)] |})
           | None => (Raise (OtherError "No such file or directory"), w)
           end.

(** [path.parent]. *)
Definition parent (p : Path) : Path :=
  {| absolute := absolute p; parts := removelast (parts p) |}.

(** [maybe_download(fname, download_func, session=session)]. *)
Definition maybe_download (fname : Path) (download_func : fetch)
  : M World Frame :=
  fun w =>
    let path := fname in
    if negb (exists_ path w) then
      (data ← call_fetch download_func;
       emit (Makedirs (path_str (parent path)));;
       write_csv path data;;
       ret data) w
    else
      read_csv_file path w.

(** [response.raise_for_status()]. *)
Definition raise_for_status (url : string) (r : Response) : result unit :=
  if ((400 <=? status_code r) && (status_code r <? 500))%nat then
    Raise (HTTPError (pretty (status_code r) +:+ " Client Error: "
                        +:+ reason r +:+ " for url: " +:+ url))
  else if ((500 <=? status_code r) && (status_code r <? 600))%nat then
    Raise (HTTPError (pretty (status_code r) +:+ " Server Error: "
                        +:+ reason r +:+ " for url: " +:+ url))
  else Ok tt.

(** [download_data_file(url, session=session)]. *)
Definition download_data_file (url : string) : fetch :=
  fun n => match session_get url n with
           | (Ok response, n') =>
               match raise_for_status url response with
               | Ok _ => (read_csv (content response), n')
               | Raise e => (Raise e, n')
               end
           | (Raise e, n') => (Raise e, n')
           end.

(** [pollutant, country_code = parts]: the unpacking of a list into two
    names. *)
Definition unpack2 (l : list string) : result (string * string) :=
  match l with
  | [a; b] => Ok (a, b)
  | [] | [_] =>
      Raise (ValueError ("not enough values to unpack (expected 2, got "
                           +:+ pretty (length l) +:+ ")"))
  | _ => Raise (ValueError "too many values to unpack (expected 2)")
  end.

(** [Path(row['path']).name.split('.')[0].split('_')]. *)
Definition file_list_key (row_path : string) : list string :=
  str_split "_" (List.hd "" (str_split "." (name (path_of row_path)))).

(** The cache path of a measurement file. *)
Definition raw_path (data_root : Path) (pollutant country_code url : string)
  : Path :=
  joinpath
    (joinpath data_root
       (path_of ("raw/" +:+ pollutant +:+ "/" +:+ country_code)))
    (path_of (name (path_of url) +:+ ".xz")).

(** One row of the file lists: its [url] and the [path] of the cached file
    list it was read from. *)
Record Row := mkRow { row_url : string; row_path : string }.

(** The cache path an entry is stored under, when the name of its file
    list unpacks into a pollutant and a country code. *)
Definition row_target (data_root : Path) (row : Row) : result Path :=
  match unpack2 (file_list_key (row_path row)) with
  | Ok (pollutant, country_code) =>
      Ok (raw_path data_root pollutant country_code (row_url row))
  | Raise e => Raise e
  end.

(** The body of the [try] in the loop over the file lists in [main]. *)
Definition row_body (data_root : Path) (row : Row) : M World unit :=
  let url := row_url row in
  path ← lift (row_target data_root row);
  maybe_download path (download_data_file url);;
  mret tt.

(** The loop body with its two handlers.  The first handler reads the
    variable [path], which the body has assigned by the time a fetch can
    raise; were it not assigned, reading it would raise in turn. *)
Definition process_row (data_root : Path) (row : Row) : M World unit :=
  let url := row_url row in
  try_except
    (row_body data_root row)
    (fun e =>
       match e with
       | HTTPError m =>
           match row_target data_root row with
           | Ok path =>
               emit (Print ("error downloading " +:+ path_str path
                              +:+ " from " +:+ url +:+ ": " +:+ m))
           | Raise _ => raise (OtherError "name 'path' is not defined")
           end
       | _ =>
           emit (Print ("error processing " +:+ url +:+ ": "
                          +:+ exn_str e))
       end).

(** What [process_row] leaves after a body that ended in world [w1]. *)
Definition row_outcome (data_root : Path) (row : Row)
    (r : result unit) (w1 : World) : World :=
  match r with
  | Ok _ => w1
  | Raise (HTTPError m) =>
      {| files := files w1; net := net w1;
         trace := trace w1 ++
           [Print ("error downloading "
                     +:+ match row_target data_root row with
                         | Ok path => path_str path
                         | Raise _ => ""
                         end
                     +:+ " from " +:+ row_url row +:+ ": " +:+ m)] |}
  | Raise e =>
      {| files := files w1; net := net w1;
         trace := trace w1 ++
           [Print ("error processing " +:+ row_url row +:+ ": "
                     +:+ exn_str e)] |}
  end.

(** [for _, row in tqdm(list(files.iterrows())): ...]. *)
Fixpoint download_rows (data_root : Path) (rows : list Row) : M World unit :=
  match rows with
  | [] => ret tt
  | row :: rows' =>
      process_row data_root row;; download_rows data_root rows'
  end.

End Download.

Arguments World Net : clear implicits.
Arguments fetch Frame Net : clear implicits.

End Download.

(** ** [load.py] *)

(** *** The order of [sorted] on file names *)

(** Python compares strings by code point; [String.leb] compares them
    character by character in the same way. *)
Definition str_le (s1 s2 : string) : Prop := String.leb s1 s2 = true.

#[global] Instance str_le_dec s1 s2 : Decision (str_le s1 s2).
Proof. unfold str_le. apply _. Defined.

(** [sorted(fnames)], for file names given as strings (as [glob] gives
    them).  The order is total and antisymmetric, so the sorted list does
    not depend on the sorting algorithm. *)
Definition sorted (fnames : list string) : list string :=
  merge_sort str_le fnames.

(** *** [stringcase.snakecase] and the column names *)

(** Names are strings of ASCII characters, as the column names of the
    files of the European Environment Agency are.  On other characters
    the package does more than the definitions below: [str.lower()]
    lowers a first letter outside ASCII, and [\s] matches white space
    outside ASCII.  Every statement about names has [ascii_only] as its
    hypothesis. *)
Fixpoint ascii_only (s : string) : bool :=
  match s with
  | EmptyString => true
  | String c s' => (nat_of_ascii c <? 128)%nat && ascii_only s'
  end.

Definition is_upper (c : ascii) : bool :=
  (65 <=? nat_of_ascii c)%nat && (nat_of_ascii c <=? 90)%nat.

Definition lowercase (c : ascii) : ascii :=
  if is_upper c then ascii_of_nat (nat_of_ascii c + 32) else c.

(** The ASCII characters matched by the pattern [[\-\.\s]]. *)
Definition is_separator (c : ascii) : bool :=
  let n := nat_of_ascii c in
  (n =? 45)%nat || (n =? 46)%nat || (n =? 32)%nat
  || ((9 <=? n)%nat && (n <=? 13)%nat)
  || ((28 <=? n)%nat && (n <=? 31)%nat).

(** [re.sub(r"[\-\.\s]", '_', string)]. *)
Fixpoint underscore_separators (s : string) : string :=
  match s with
  | EmptyString => EmptyString
  | String c s' =>
      String (if is_separator c then "_"%char else c)
             (underscore_separators s')
  end.

(** [re.sub(r"[A-Z]", lambda m: '_' + lowercase(m.group(0)), string)]. *)
Fixpoint underscore_capitals (s : string) : string :=
  match s with
  | EmptyString => EmptyString
  | String c s' =>
      if is_upper c then
        String "_"%char (String (lowercase c) (underscore_capitals s'))
      else String c (underscore_capitals s')
  end.

(** [snakecase(string)] of the [stringcase] package, on a name of ASCII
    characters. *)
Definition snakecase (s : string) : string :=
  match underscore_separators s with
  | EmptyString => EmptyString
  | String c s' => String (lowercase c) (underscore_capitals s')
  end.

(** [n.replace(' ', '_')]. *)
Fixpoint replace_spaces (s : string) : string :=
  match s with
  | EmptyString => EmptyString
  | String c s' =>
      String (if Ascii.eqb c " "%char then "_"%char else c)
             (replace_spaces s')
  end.

(** [normalize_name(n)], on a name of ASCII characters. *)
Definition normalize_name (n : string) : string :=
  snakecase (replace_spaces n).

(** *** Data frames *)

(** A cell of a data frame or of a table.  The loader never computes with
    floats or timestamps, so both are kept as the text they print as. *)
Inductive value :=
| VNull
| VInt (z : Z)
| VFloat (repr : string)
| VStr (s : string)
| VTime (iso : string).

#[global] Instance value_eq_dec : EqDecision value.
Proof. solve_decision. Defined.

(** A [pandas.DataFrame] with the default integer index: the column names
    in order and the rows, each a list of cells in column order. *)
Record DataFrame := mkFrame
  { columns : list string; rows : list (list value) }.

(** Position of a column name. *)
Fixpoint index_of (c : string) (cols : list string) : option nat :=
  match cols with
  | [] => None
  | c' :: cols' =>
      if String.eqb c' c then Some 0%nat
      else S <$> index_of c cols'
  end.

(** The cell of [row] under column [c]. *)
Definition cell (cols : list string) (row : list value) (c : string)
  : value :=
  match index_of c cols with
  | Some i => nth i row VNull
  | None => VNull
  end.

(** [normalize_column_names(d)]. *)
Definition normalize_column_names (d : DataFrame) : DataFrame :=
  {| columns := map normalize_name (columns d); rows := rows d |}.

(** The dtype of a column, as far as [merge] tells dtypes apart. *)
Inductive dtype := Object | Int64 | Float64 | Datetime64.

Definition dtype_name (t : dtype) : string :=
  match t with
  | Object => "object"
  | Int64 => "int64"
  | Float64 => "float64"
  | Datetime64 => "datetime64[ns]"
  end.

Definition is_str (v : value) : bool :=
  match v with VStr _ => true | _ => false end.

Definition is_time (v : value) : bool :=
  match v with VTime _ => true | _ => false end.

Definition is_int (v : value) : bool :=
  match v with VInt _ => true | _ => false end.

Definition is_null (v : value) : bool :=
  match v with VNull => true | _ => false end.

(** Where a frame comes from: [pd.read_csv] or [pd.read_sql_query]. *)
Inductive origin := FromCsv | FromSql.

(** The dtype of a column with the cells [cells], which are of one kind,
    some of them missing: [object] for text and for a column without
    rows, [datetime64] for timestamps, [int64] for integers none of
    which is missing, and [float64] for floats and for integers with
    missing values.  A column of missing values only is [float64] when
    it was read from a file (they are [NaN]) and [object] when it was
    read from the database (they are [None]). *)
Definition infer_dtype (o : origin) (cells : list value) : dtype :=
  match cells with
  | [] => Object
  | _ =>
      if existsb is_str cells then Object
      else if existsb is_time cells then Datetime64
      else if forallb is_int cells then Int64
      else if forallb is_null cells then
        match o with FromCsv => Float64 | FromSql => Object end
      else Float64
  end.

(** The cells of the column [c]. *)
Definition column_cells (d : DataFrame) (c : string) : list value :=
  map (fun r => cell (columns d) r c) (rows d).

Definition column_dtype (o : origin) (d : DataFrame) (c : string)
  : dtype :=
  infer_dtype o (column_cells d c).

Definition no_rows (d : DataFrame) : bool :=
  match rows d with [] => true | _ => false end.

(** The check of the key columns in [merge]: when exactly one of the
    frames has no rows nothing is checked; otherwise a key column of text
    is refused against one of numbers or timestamps, and one of
    timestamps against one of numbers.  (Between two frames without rows
    pandas lets [object] pass against [int64].) *)
Definition merge_refused (l r : dtype) (lempty rempty : bool) : bool :=
  if xorb lempty rempty then false
  else
    match l, r with
    | Object, Object => false
    | Object, Int64 | Int64, Object => negb (lempty && rempty)
    | Object, _ | _, Object => true
    | Datetime64, Datetime64 => false
    | Datetime64, _ | _, Datetime64 => true
    | _, _ => false
    end.

(** [l.unique()]: the elements of [l] in the order in which they first
    occur. *)
Fixpoint unique {A} `{EqDecision A} (l : list A) : list A :=
  match l with
  | [] => []
  | x :: l' => x :: filter (fun y => y ≠ x) (unique l')
  end.

(** [left.merge(right, on=key)], the inner join of pandas, for key
    columns of the dtypes [ldtype] and [rdtype].  The key must be a
    column of both frames, and the dtypes must pass the check above.  A
    column name other than the key that occurs on both sides gets the
    suffix [_x] on the left and [_y] on the right.  The rows come in the
    order of pandas 1.x: grouped by key, the keys in the order in which
    they first occur on the left, and under one key the left rows in
    their order, each with the right rows of that key in their order;
    missing keys match each other.  The text of the error is that of
    pandas 1.x.  (Key cells are compared as they are,
    which is how pandas compares the cells of one dtype; it compares an
    [int64] column with a [float64] column as numbers, which no
    statement below uses.) *)
Definition merge_as (ldtype rdtype : dtype) (left right : DataFrame)
    (key : string) : result DataFrame :=
  match index_of key (columns left), index_of key (columns right) with
  | Some i, Some j =>
      if merge_refused ldtype rdtype (no_rows left) (no_rows right) then
        Raise (ValueError ("You are trying to merge on "
                             +:+ dtype_name ldtype +:+ " and "
                             +:+ dtype_name rdtype
                             +:+ " columns. If you wish to proceed you "
                             +:+ "should use pd.concat"))
      else
        let lname c :=
          if bool_decide (c ≠ key ∧ c ∈ columns right) then c +:+ "_x"
          else c in
        let rname c :=
          if bool_decide (c ∈ columns left) then c +:+ "_y" else c in
        Ok {| columns := map lname (columns left)
                         ++ map rname (delete j (columns right));
              rows :=
                (k ← unique (map (fun l => nth i l VNull) (rows left));
                 l ← filter (fun l => nth i l VNull = k) (rows left);
                 r ← filter (fun r => nth j r VNull = k) (rows right);
                 [l ++ delete j r]) |}
  | _, _ => Raise (KeyError ("'" +:+ key +:+ "'"))
  end.

(** [left.merge(right, on=key)] for a frame [left] as it was read from a
    file and a frame [right] as it was read from the database. *)
Definition merge (left right : DataFrame) (key : string)
  : result DataFrame :=
  merge_as (column_dtype FromCsv left key) (column_dtype FromSql right key)
    left right key.

(** The dtype of the column [c] of that merge: a merge keeps the dtype a
    column has in the frame it comes from. *)
Definition merged_dtype (left right : DataFrame) (c : string) : dtype :=
  if bool_decide (c ∈ columns left) then column_dtype FromCsv left c
  else column_dtype FromSql right c.

(** [repr(s)] of a Python string: in single quotes, or in double quotes
    when the string has a single quote and no double quote; the quote
    and the backslash escaped, and the ASCII control characters written
    as [\t], [\n], [\r] or [\xhh].  (Other characters are kept, as Python
    keeps every printable character.) *)
Definition hex_digit (n : nat) : ascii :=
  nth n (list_ascii_of_string "0123456789abcdef") "0"%char.

Definition py_escape (quote c : ascii) : string :=
  let n := nat_of_ascii c in
  if Ascii.eqb c quote || Ascii.eqb c "\"%char then String "\" (String c "")
  else if (n =? 9)%nat then "\t"
  else if (n =? 10)%nat then "\n"
  else if (n =? 13)%nat then "\r"
  else if (n <? 32)%nat || (n =? 127)%nat then
    String "\" (String "x" (String (hex_digit (n / 16))
                              (String (hex_digit (n mod 16)) "")))
  else String c "".

Definition py_repr (s : string) : string :=
  let chars := list_ascii_of_string s in
  let double := ascii_of_nat 34 in
  let quote :=
    if existsb (Ascii.eqb "'"%char) chars
       && negb (existsb (Ascii.eqb double) chars)
    then double else "'"%char in
  String quote
    (foldr (fun c rest => py_escape quote c +:+ rest)
           (String quote "") chars).

(** [repr(l)] of a list of strings. *)
Definition py_repr_list (l : list string) : string :=
  "[" +:+ str_join ", " (map py_repr l) +:+ "]".

(** The text of the [KeyError] of [d[cols]] in pandas 1.x, for the
    columns [dcols] of [d]: all the missing names at once.  (An index
    that pandas prints on one line; it breaks a long one.) *)
Definition not_in_index (cols dcols : list string) : string :=
  let missing := filter (fun c => c ∉ dcols) cols in
  if bool_decide (length missing = length cols) then
    "None of [Index(" +:+ py_repr_list cols
      +:+ ", dtype='object')] are in the [columns]"
  else py_repr_list (unique missing) +:+ " not in index".

(** [d[cols]]: the columns [cols], in that order.  [str(e)] of a
    [KeyError] is the [repr] of its text. *)
Definition select_columns (d : DataFrame) (cols : list string)
  : result DataFrame :=
  match filter (fun c => c ∉ columns d) cols with
  | _ :: _ =>
      Raise (KeyError (py_repr (not_in_index cols (columns d))))
  | [] =>
      Ok {| columns := cols;
            rows := map (fun r => map (cell (columns d) r) cols) (rows d) |}
  end.

(** [d[c]], evaluated for a debug message only. *)
Definition getitem (d : DataFrame) (c : string) : result unit :=
  if bool_decide (c ∈ columns d) then Ok tt
  else Raise (KeyError ("'" +:+ c +:+ "'")).

Module Load.

(** A table of the database: its columns, its rows, the column that is
    its primary key, when it has one, and its foreign keys, each a column
    with the table it references. *)
Record Table := mkTable
  { t_columns : list string;
    t_rows : list (list value);
    t_pkey : option string;
    t_fkeys : list (string * string) }.

(** Some other table holds a foreign key into the table [name]: the
    database then refuses [DROP TABLE name]. *)
Definition referenced (name : string) (db : gmap string Table) : Prop :=
  map_Exists (fun n t => n ≠ name ∧ name ∈ (t_fkeys t).*2) db.

#[global] Instance referenced_dec name db : Decision (referenced name db).
Proof. unfold referenced. apply _. Defined.

Inductive encoding := Utf8 | Utf16.

(** The three ways [load.py] calls [pd.read_csv]. *)
Inductive read_mode :=
| Stations
| Quantities
| Observations (enc : encoding).

Inductive event :=
| ReadCsv (fname : string) (mode : read_mode)
| ToSql (table : string)
| Execute (sql : string)
| PdToPsql (d : DataFrame)
| LogInfo (msg : string)
| LogWarning (msg : string)
| LogException (msg : string).

(** The database (a map from table names to tables) and the log.  Debug
    messages are left out of the log. *)
Record World := mkWorld
  { db : gmap string Table;
    log : list event }.

Definition emit (ev : event) : M World unit :=
  fun w => (Ok tt, {| db := db w; log := log w ++ [ev] |}).

Section Load.

(** [pd.read_csv] on a file of the local disk, which the loader only
    reads, in each of the three modes; and [pd_to_psql] of the [d6tstack]
    package, appending a frame to the table [observation]: it returns the
    new database, and the exception it raised if it raised one. *)
Variable read_csv : read_mode -> string -> result DataFrame.
Variable pd_to_psql :
  DataFrame -> gmap string Table -> gmap string Table * option exn.

Definition read_csv_file (mode : read_mode) (fname : string)
  : M World DataFrame :=
  emit (ReadCsv fname mode);; lift (read_csv mode fname).

(** [d.to_sql(name, db, if_exists='replace', index_label=index_label)]:
    a table of that name is dropped first, which the database refuses
    when another table references it (the text of the error stands for
    the longer one of the database driver); then the table is created,
    without keys, with the index of the frame as its first column.  What is left
    of the table when the write fails after the drop depends on pandas
    and on the database; the model leaves the database as it was, and no
    statement below relies on it. *)
Definition to_sql (d : DataFrame) (name index_label : string)
  : M World unit :=
  fun w =>
    if bool_decide (is_Some (db w !! name) ∧ referenced name (db w)) then
      (Raise (OtherError ("cannot drop table " +:+ name +:+ " because "
                            +:+ "other objects depend on it")), w)
    else if bool_decide (index_label ∈ columns d) then
      (Raise (ValueError ("duplicate name in index/columns: cannot insert "
                            +:+ index_label +:+ ", already exists")), w)
    else if bool_decide (NoDup (columns d)) then
      (Ok tt,
       {| db := <[name :=
                    {| t_columns := index_label :: columns d;
                       t_rows :=
                         imap (fun i r => VInt (Z.of_nat i) :: r) (rows d);
                       t_pkey := None;
                       t_fkeys := [] |}]> (db w);
          log := log w ++ [ToSql name] |})
    else
      (Raise (OtherError "column specified more than once"), w).

(** [ALTER TABLE name ADD PRIMARY KEY (col);]. *)
Definition add_primary_key (name col : string) : M World unit :=
  fun w =>
    let sql := "ALTER TABLE " +:+ name +:+ " ADD PRIMARY KEY ("
               +:+ col +:+ ");" in
    match db w !! name with
    | None => (Raise (OtherError "relation does not exist"), w)
    | Some t =>
        match index_of col (t_columns t), t_pkey t with
        | Some i, None =>
            let keys := map (fun r => nth i r VNull) (t_rows t) in
            if bool_decide (NoDup keys ∧ VNull ∉ keys) then
              (Ok tt,
               {| db := <[name := {| t_columns := t_columns t;
                                     t_rows := t_rows t;
                                     t_pkey := Some col;
                                     t_fkeys := t_fkeys t |}]> (db w);
                  log := log w ++ [Execute sql] |})
            else
              (Raise (OtherError "could not create unique index"), w)
        | None, _ => (Raise (OtherError "column does not exist"), w)
        | Some _, Some _ =>
            (Raise (OtherError "multiple primary keys are not allowed"), w)
        end
    end.

(** [load_metadata(fname, db_connection)]. *)
Definition load_metadata (fname : string) : M World unit :=
  d ← read_csv_file Stations fname;
  let d := normalize_column_names d in
  to_sql d "station" "station_id";;
  add_primary_key "station" "station_id";;
  emit (LogInfo ("Wrote stations from file " +:+ fname
                   +:+ " into table `station'.")).

(** [load_quantities(fname, db_connection)]. *)
Definition load_quantities (fname : string) : M World unit :=
  d ← read_csv_file Quantities fname;
  let d := normalize_column_names d in
  to_sql d "quantity" "quantity_id";;
  add_primary_key "quantity" "quantity_id";;
  emit (LogInfo ("Wrote pollutants from file " +:+ fname
                   +:+ " into table `quantity'.")).

(** [pd.read_sql_query('select cols from name;', db)]. *)
Definition read_sql_query (cols : list string) (name : string)
  : M World DataFrame :=
  fun w =>
    match db w !! name with
    | None => (Raise (OtherError "relation does not exist"), w)
    | Some t =>
        match list_find (fun c => c ∉ t_columns t) cols with
        | Some _ => (Raise (OtherError "column does not exist"), w)
        | None =>
            (Ok {| columns := cols;
                   rows := map (fun r => map (cell (t_columns t) r) cols)
                               (t_rows t) |}, w)
        end
    end.

(** [list(db_meta.tables['observation'].columns.keys())]. *)
Definition reflect_columns (name : string) : M World (list string) :=
  fun w =>
    match db w !! name with
    | None => (Raise (KeyError ("'" +:+ name +:+ "'")), w)
    | Some t => (Ok (t_columns t), w)
    end.

Definition write_cols : list string :=
  ["Concentration"; "DatetimeBegin"; "DatetimeEnd"; "Validity";
   "Verification"].

Definition extra_cols : list string :=
  ["AirQualityStation"; "AirPollutantCode"; "UnitOfMeasurement"].

(** The loop [for encoding in ('utf-8', 'utf-16')] with its [else]
    branch; [exc] is the last decoding error. *)
Fixpoint read_observations (fname : string) (encodings : list encoding)
    (exc : option exn) : M World DataFrame :=
  match encodings with
  | [] =>
      raise (OtherError ("Error reading " +:+ fname +:+ ": "
                           +:+ from_option exn_str "None" exc))
  | enc :: encodings' =>
      try_except
        (read_csv_file (Observations enc) fname)
        (fun e =>
           match e with
           | UnicodeDecodeError _ =>
               emit (LogException ("error reading " +:+ fname +:+ ": "));;
               read_observations fname encodings' (Some e)
           | _ => raise e
           end)
  end.

(** The join and the reordering of the columns.  The frame [d] is a
    frame as it was read from a file and the two dimension frames are
    frames as they were read from the database; the frame [d1] of the
    first merge has its pollutant codes in the dtype they have in
    [d]. *)
Definition join_dimensions (d station quantity : DataFrame)
    (observation_columns : list string) : result DataFrame :=
  match merge d station "air_quality_station" with
  | Raise e => Raise e
  | Ok d1 =>
      match merge_as (merged_dtype d station "air_pollutant_code")
                     (column_dtype FromSql quantity "air_pollutant_code")
                     d1 quantity "air_pollutant_code" with
      | Raise e => Raise e
      | Ok d2 => select_columns d2 observation_columns
      end
  end.

(** The body of the [try] up to the call of [pd_to_psql]. *)
Definition prepare (station quantity : DataFrame)
    (observation_columns : list string) (fname : string)
  : M World DataFrame :=
  d ← read_observations fname [Utf8; Utf16] None;
  let d := normalize_column_names d in
  d ← lift (join_dimensions d station quantity observation_columns);
  lift (getitem d "station_id");;
  lift (getitem d "quantity_id");;
  mret d.

(** [pd_to_psql(d, db_connection, 'observation', if_exists='append')]. *)
Definition bulk_append (d : DataFrame) : M World unit :=
  fun w =>
    let (db', r) := pd_to_psql d (db w) in
    (match r with None => Ok tt | Some e => Raise e end,
     {| db := db'; log := log w ++ [PdToPsql d] |}).

(** The body of the [try] in the loop over the files. *)
Definition file_body (station quantity : DataFrame)
    (observation_columns : list string) (fname : string) : M World unit :=
  d ← prepare station quantity observation_columns fname;
  bulk_append d.

(** The body of the loop over the files, with its two handlers. *)
Definition load_file (station quantity : DataFrame)
    (observation_columns : list string) (fname : string) : M World unit :=
  try_except
    (file_body station quantity observation_columns fname)
    (fun e =>
       match e with
       | UniqueViolation _ =>
           emit (LogWarning
                   ("one or more rows in file " +:+ fname
                      +:+ " are already in the database; "
                      +:+ "skipping the entire file."))
       | _ =>
           emit (LogException ("error occured for file " +:+ fname
                                 +:+ ": "));;
           raise e
       end).

Fixpoint load_files (station quantity : DataFrame)
    (observation_columns : list string) (fnames : list string)
  : M World unit :=
  match fnames with
  | [] => mret tt
  | fname :: fnames' =>
      load_file station quantity observation_columns fname;;
      load_files station quantity observation_columns fnames'
  end.

(** [load_observations(fnames, db_connection)]. *)
Definition load_observations (fnames : list string) : M World unit :=
  station ← read_sql_query ["station_id"; "air_quality_station"] "station";
  quantity ← read_sql_query
               ["quantity_id"; "air_pollutant_code"; "recommended_unit"]
               "quantity";
  observation_columns ← reflect_columns "observation";
  let fnames := sorted fnames in
  load_files station quantity observation_columns
    (snd <$> zip (seq 0 5) fnames).

End Load.

(** The files a run worked on, in order: each one starts with an attempt
    to read it as UTF-8. *)
Definition processed (l : list event) : list string :=
  omap (fun ev => match ev with
                  | ReadCsv fname (Observations Utf8) => Some fname
                  | _ => None
                  end) l.

(** The inner join in the words of the specification, for one row [r] of
    the frame [d] read from a file: one output row for every station row
    with the station code of [r] and every quantity row with the
    pollutant code of [r]; under each column of [cols], in that order, it
    has the cell of [r], of the station row or of the quantity row,
    whichever has that column. *)
Definition joined_rows (d station quantity : DataFrame)
    (cols : list string) (r : list value) : list (list value) :=
  s ← filter (fun s => cell (columns station) s "air_quality_station"
                       = cell (columns d) r "air_quality_station")
             (rows station);
  q ← filter (fun q => cell (columns quantity) q "air_pollutant_code"
                       = cell (columns d) r "air_pollutant_code")
             (rows quantity);
  [map (fun c =>
          if bool_decide (c ∈ columns d) then cell (columns d) r c
          else if bool_decide (c ∈ columns station)
               then cell (columns station) s c
               else cell (columns quantity) q c) cols].

(** A computation that adds no new file to the files worked on. *)
Definition silent {A} (m : M World A) : Prop :=
  forall w, exists evs,
    log (snd (m w)) = log w ++ evs /\ processed evs = [].

(** A computation that starts to work on [fname] and on no other file. *)
Definition opens {A} (fname : string) (m : M World A) : Prop :=
  forall w, exists evs,
    log (snd (m w)) = log w ++ evs /\ processed evs = [fname].

End Load.

(** ** The other stages of [download.py] *)

(** [c in s], for one character. *)
Fixpoint has_char (c : ascii) (s : string) : bool :=
  match s with
  | EmptyString => false
  | String c' s' => Ascii.eqb c' c || has_char c s'
  end.

(** The characters [str.strip] removes (those of [str.isspace], in
    ASCII). *)
Definition is_space (c : ascii) : bool :=
  let n := nat_of_ascii c in
  ((9 <=? n)%nat && (n <=? 13)%nat) || ((28 <=? n)%nat && (n <=? 32)%nat).

(** [s.lstrip()], [s.rstrip()] and [s.strip()]. *)
Fixpoint lstrip (s : string) : string :=
  match s with
  | EmptyString => EmptyString
  | String c s' => if is_space c then lstrip s' else s
  end.

Fixpoint rstrip (s : string) : string :=
  match s with
  | EmptyString => EmptyString
  | String c s' =>
      match rstrip s' with
      | EmptyString => if is_space c then EmptyString else String c ""
      | r => String c r
      end
  end.

Definition strip (s : string) : string := rstrip (lstrip s).

(** The line feed. *)
Definition newline : string := String (ascii_of_nat 10) "".

(** [''.join(l)]. *)
Definition concat_strings (l : list string) : string :=
  foldr String.append "" l.

(** [get_td_text], on the text fragments of the cell
    ([tr.find('td').find_all(text=True)]). *)
Definition get_td_text (fragments : list string) : string :=
  let s := concat_strings (map strip fragments) in
  if contains newline s then "" else s.

(** [d[k] = v] on a dict, kept as the list of its items in insertion
    order. *)
Fixpoint dict_set (k v : string) (d : list (string * string))
  : list (string * string) :=
  match d with
  | [] => [(k, v)]
  | (k', v') :: d' =>
      if String.eqb k' k then (k, v) :: d'
      else (k', v') :: dict_set k v d'
  end.

(** [d[k]]. *)
Fixpoint dict_get (k : string) (d : list (string * string))
  : option string :=
  match d with
  | [] => None
  | (k', v') :: d' => if String.eqb k' k then Some v' else dict_get k d'
  end.

(** A path in the form [path_of] gives: every component is free of [/]
    and is neither empty nor [.]. *)
Definition normal (p : Path) : Prop :=
  Forall (fun q => has_char "/" q = false /\ is_component q = true)
         (parts p).

Module Stages.

Import Download.

(** What one step of a pass may change: stored files stay, at most one
    fetch is made, and none when the path is already stored. *)
Record step_ok {Net : Type} (cached : bool) (w w' : World Net) : Prop :=
  mkStep
  { step_files : files w ⊆ files w';
    step_fetches :
      (fetch_count (trace w) <= fetch_count (trace w')
       <= S (fetch_count (trace w)))%nat;
    step_cached :
      cached = true ->
      files w' = files w /\ net w' = net w
      /\ fetch_count (trace w') = fetch_count (trace w) }.

Section Stages.

Context {Frame Net : Type}.
Variable to_csv : Frame -> string.
Variable read_csv : string -> result Frame.
Variable session_get : string -> Net -> result Response * Net.

(** The calls into pandas, BeautifulSoup and dask that the stages make:
    [pd.read_csv(..., sep='\t')] and [pd.read_csv(..., names=['url'])] on
    the body of a response; the rows of the table of a pollutant page,
    each with what [tr.find('th').string] and
    [tr.find('td').find_all(text=True)] give or raise; the distinct
    values of
    [meta['AirPollutantCode']]; [pd.DataFrame] on a list of dicts; the
    left merge of the two metadata frames; the set of
    [(Notation, Countrycode)] pairs of a frame in the order the set
    yields them; and the rows of all cached file lists under a root. *)
Variable read_tsv : string -> result Frame.
Variable read_url_list : string -> result Frame.
Variable table_rows :
  string -> result (list (result string * result (list string))).
Variable pollutant_urls : Frame -> result (list string).
Variable frame_of_records : list (list (string * string)) -> Frame.
Variable merge_left : Frame -> Frame -> result Frame.
Variable file_parameters : Frame -> result (list (string * string)).
Variable read_file_lists : Path -> gmap string string -> result (list Row).

(** [session.get(url)] followed by [response.raise_for_status()]. *)
Definition get_checked (url : string) (n : Net) : result Response * Net :=
  match session_get url n with
  | (Ok response, n') =>
      match raise_for_status url response with
      | Ok _ => (Ok response, n')
      | Raise e => (Raise e, n')
      end
  | (Raise e, n') => (Raise e, n')
  end.

Definition metadata_url : string :=
  "http://discomap.eea.europa.eu/map/fme/metadata/"
  +:+ "PanEuropean_metadata.csv".

(** [download_metadata(session=session)]. *)
Definition download_metadata : fetch Frame Net :=
  fun n => match get_checked metadata_url n with
           | (Ok response, n') => (read_tsv (content response), n')
           | (Raise e, n') => (Raise e, n')
           end.

(** The dict comprehension over the rows of a pollutant page. *)
Fixpoint page_record (trs : list (result string * result (list string)))
    (pmeta : list (string * string)) : result (list (string * string)) :=
  match trs with
  | [] => Ok pmeta
  | (Ok th, Ok td) :: trs' =>
      page_record trs' (dict_set (strip th) (get_td_text td) pmeta)
  | (Raise e, _) :: _ => Raise e
  | (Ok _, Raise e) :: _ => Raise e
  end.

(** The loop of [download_pollutant_metadata] over the pollutant pages. *)
Fixpoint pollutant_records (urls : list string)
    (pollutant_meta : list (list (string * string))) (n : Net)
  : result (list (list (string * string))) * Net :=
  match urls with
  | [] => (Ok pollutant_meta, n)
  | url :: urls' =>
      match get_checked url n with
      | (Raise e, n') => (Raise e, n')
      | (Ok response, n') =>
          match table_rows (content response) with
          | Raise e => (Raise e, n')
          | Ok trs =>
              match page_record trs [] with
              | Raise e => (Raise e, n')
              | Ok pmeta =>
                  pollutant_records urls'
                    (pollutant_meta
                       ++ [dict_set "AirPollutantCode" url pmeta]) n'
              end
          end
      end
  end.

(** [download_pollutant_metadata(meta, session=session)]. *)
Definition download_pollutant_metadata (meta : Frame) : fetch Frame Net :=
  fun n => match pollutant_urls meta with
           | Raise e => (Raise e, n)
           | Ok urls =>
               match pollutant_records urls [] n with
               | (Ok records, n') => (Ok (frame_of_records records), n')
               | (Raise e, n') => (Raise e, n')
               end
           end.

Definition file_list_url (pollutant country_code : string) : string :=
  "https://fme.discomap.eea.europa.eu/fmedatastreaming/"
  +:+ "AirQualityDownload/AQData_Extract.fmw?CountryCode=" +:+ country_code
  +:+ "&CityName=&Pollutant=" +:+ pollutant
  +:+ "&Year_from=2013&Year_to=2019&Station="
  +:+ "&Samplingpoint=&Source=E1a&Output=TEXT&UpdateDate=&TimeCoverage=Year".

(** [download_file_list(pollutant, country_code, session=session)]. *)
Definition download_file_list (pollutant country_code : string)
  : fetch Frame Net :=
  fun n => match get_checked (file_list_url pollutant country_code) n with
           | (Ok response, n') => (read_url_list (content response), n')
           | (Raise e, n') => (Raise e, n')
           end.

(** The cache path of a file list. *)
Definition file_list_path (data_root : Path)
    (pollutant country_code : string) : Path :=
  joinpath data_root
    (path_of ("file_lists/" +:+ pollutant +:+ "_" +:+ country_code
                +:+ ".csv.xz")).

(** The body of the loop over the file parameters in [main], with its
    handler: only an HTTP error is caught. *)
Definition fetch_file_list (data_root : Path) (param : string * string)
  : M (World Net) unit :=
  let (pollutant, country_code) := param in
  try_except
    (maybe_download to_csv read_csv
       (file_list_path data_root pollutant country_code)
       (download_file_list pollutant country_code);;
     mret tt)
    (fun e =>
       match e with
       | HTTPError m => emit (Print m)
       | _ => raise e
       end).

(** [for pollutant, country_code in tqdm(file_parameters): ...]. *)
Fixpoint fetch_file_lists (data_root : Path)
    (params : list (string * string)) : M (World Net) unit :=
  match params with
  | [] => mret tt
  | param :: params' =>
      fetch_file_list data_root param;;
      fetch_file_lists data_root params'
  end.

(** [main(argv)] of [download.py]. *)
Definition main (argv : list string) : M (World Net) nat :=
  let data_root := path_of (List.hd "data" argv) in
  emit (Print "Metadata...");;
  meta ← maybe_download to_csv read_csv
           (joinpath data_root (path_of "metadata.csv.xz"))
           download_metadata;
  emit (Print "Metadata for pollutants...");;
  pollutant_meta ← maybe_download to_csv read_csv
                     (joinpath data_root
                        (path_of "metadata_pollutants.csv.xz"))
                     (download_pollutant_metadata meta);
  meta ← lift (merge_left meta pollutant_meta);
  emit (Print "File lists...");;
  params ← lift (file_parameters meta);
  fetch_file_lists data_root params;;
  emit (Print "Measurement data...");;
  rows ← (fun w => (read_file_lists data_root (files w), w));
  download_rows to_csv read_csv session_get data_root rows;;
  emit (Print "Done.");;
  mret 0%nat.

End Stages.

End Stages.

(** ** [load_meta_cmd] of [load.py] *)

Module Commands.

Import Load.

Section Commands.

Variable read_csv : read_mode -> string -> result DataFrame.

(** The text of [create_table_observation.sql], when the file can be
    read, and what the database makes of it. *)
Variable create_table_sql : result string.
Variable execute :
  string -> gmap string Table -> result (gmap string Table).

(** [conn.execute(create_table_sql)]. *)
Definition execute_script (sql : string) : M World unit :=
  fun w => match execute sql (db w) with
           | Ok db' => (Ok tt, {| db := db'; log := log w ++ [Execute sql] |})
           | Raise e => (Raise e, w)
           end.

(** [load_meta_cmd(args)]. *)
Definition load_meta_cmd (stations pollutants : string) : M World nat :=
  load_metadata read_csv stations;;
  load_quantities read_csv pollutants;;
  sql ← lift create_table_sql;
  execute_script sql;;
  emit (LogInfo "Created empty table `observation'.");;
  mret 0%nat.

End Commands.

End Commands.

(** ** Measures on names and logs of [load.py] *)

(** A name in the form [normalize_name] aims at: no capital letter and
    none of the characters [snakecase] replaces. *)
Fixpoint canonical (s : string) : bool :=
  match s with
  | EmptyString => true
  | String c s' => negb (is_upper c) && negb (is_separator c) && canonical s'
  end.

(** A string with none of the characters [snakecase] replaces. *)
Fixpoint no_separator (s : string) : bool :=
  match s with
  | EmptyString => true
  | String c s' => negb (is_separator c) && no_separator s'
  end.

(** How many warnings a log has. *)
Fixpoint warnings (l : list Load.event) : nat :=
  match l with
  | [] => 0%nat
  | Load.LogWarning _ :: l' => S (warnings l')
  | _ :: l' => warnings l'
  end.

(** ** Concrete data for the examples *)

Module DownloadExample.

(** A remote side that counts its requests and knows two URLs. *)
Definition session_get (url : string) (n : nat)
  : result Download.Response * nat :=
  if String.eqb url "http://h/ok.csv" then
    (Ok (Download.mkResponse 200 "OK" "Concentration"), S n)
  else if String.eqb url "http://h/missing.csv" then
    (Ok (Download.mkResponse 404 "Not Found" ""), S n)
  else (Raise (OtherError "Connection refused"), S n).

(** Frames kept as their text. *)
Definition to_csv (d : string) : string := d.
Definition read_csv (text : string) : result string := Ok text.

(** A one-column frame as pandas stores it: a missing value ([None]) and
    an empty string are both written as a field without text, and a
    field without text is read back as a missing value. *)
Definition newline : string := String (ascii_of_nat 10) "".

Definition column_to_csv (d : list (option string)) : string :=
  str_join newline ("url" :: map (from_option id "") d).

Definition column_read_csv (text : string)
  : result (list (option string)) :=
  match str_split (ascii_of_nat 10) text with
  | [] => Raise (OtherError "No columns to parse from file")
  | _ :: fields =>
      Ok (map (fun f => if String.eqb f "" then None else Some f) fields)
  end.

Definition blank_fetch : Download.fetch (list (option string)) nat :=
  fun n => (Ok [Some "http://h/f.csv"; Some ""], S n).

Definition failing_fetch : Download.fetch string nat :=
  fun n => (Raise (HTTPError "503 Server Error"), S n).

Definition good_fetch : Download.fetch string nat :=
  fun n => (Ok "url", S n).

Definition empty_world : Download.World nat :=
  Download.mkWorld ∅ 0 [].

Definition data_root : Path := path_of "data".

Definition target : Path := path_of "data/metadata.csv.xz".

(** An entry whose server cannot be reached, and an entry of a file list
    whose pollutant has an underscore in its notation. *)
Definition unreachable_row : Download.Row :=
  Download.mkRow "http://h/down.csv" "data/file_lists/NO2_NO.csv.xz".

Definition underscore_row : Download.Row :=
  Download.mkRow "http://h/x.csv" "data/file_lists/NO_2_NO.csv.xz".

End DownloadExample.

Module LoadExample.

(** A station file with two stations and a pollutant file with one
    pollutant. *)
Definition stations : DataFrame :=
  {| columns := ["AirQualityStation"; "Altitude"];
     rows := [[VStr "STA-1"; VInt 3]; [VStr "STA-2"; VInt 40]] |}.

Definition shorter_stations : DataFrame :=
  {| columns := ["AirQualityStation"; "Altitude"];
     rows := [[VStr "STA-7"; VInt 12]] |}.

Definition quantities : DataFrame :=
  {| columns := ["Preferred label"; "AirPollutantCode"; "Recommended unit"];
     rows := [[VStr "NO2"; VStr "http://p/8"; VStr "ug/m3"]] |}.

(** An observations file: one row of a known station, one row of a
    station that is not in the station table.  The time of the rows is
    taken from the file name, so that files differ. *)
Definition observations (fname : string) : DataFrame :=
  {| columns :=
       ["AirQualityStation"; "AirPollutantCode"; "Concentration";
        "UnitOfMeasurement"; "DatetimeBegin"; "DatetimeEnd"; "Validity";
        "Verification"];
     rows :=
       [[VStr "STA-2"; VStr "http://p/8"; VFloat "1.5"; VStr "ug/m3";
         VTime fname; VTime fname; VInt 1; VInt 1];
        [VStr "STA-9"; VStr "http://p/8"; VFloat "2.5"; VStr "ug/m3";
         VTime fname; VTime fname; VInt 1; VInt 1]] |}.

(** The disk: [bad.csv] decodes in neither encoding, [utf16.csv] only as
    UTF-16, [gone.csv] does not exist, every other name is a UTF-8
    file. *)
Definition read_csv (mode : Load.read_mode) (fname : string)
  : result DataFrame :=
  match mode with
  | Load.Stations =>
      if String.eqb fname "stations2.csv" then Ok shorter_stations
      else Ok stations
  | Load.Quantities => Ok quantities
  | Load.Observations enc =>
      if String.eqb fname "bad.csv" then
        Raise (UnicodeDecodeError "invalid start byte")
      else if String.eqb fname "gone.csv" then
        Raise (OtherError "No such file or directory")
      else if String.eqb fname "utf16.csv" then
        match enc with
        | Load.Utf8 => Raise (UnicodeDecodeError "invalid start byte")
        | Load.Utf16 => Ok (observations fname)
        end
      else Ok (observations fname)
  end.

(** A bulk append that refuses a batch with a row the table already
    has. *)
Definition pd_to_psql (d : DataFrame) (db : gmap string Load.Table)
  : gmap string Load.Table * option exn :=
  match db !! "observation" with
  | None => (db, Some (OtherError "relation does not exist"))
  | Some t =>
      if bool_decide (Exists (fun r => r ∈ Load.t_rows t) (rows d)) then
        (db, Some (UniqueViolation "duplicate key value"))
      else
        (<["observation" :=
             {| Load.t_columns := Load.t_columns t;
                Load.t_rows := Load.t_rows t ++ rows d;
                Load.t_pkey := Load.t_pkey t;
                Load.t_fkeys := Load.t_fkeys t |}]> db, None)
  end.

Definition observation_columns : list string :=
  ["concentration"; "datetime_begin"; "datetime_end"; "validity";
   "verification"; "station_id"; "quantity_id"].

(** A database with an empty [observation] table that declares no
    foreign key, and the same after the two dimension tables were
    loaded. *)
Definition fresh_db : Load.World :=
  {| Load.db :=
       {["observation" := {| Load.t_columns := observation_columns;
                             Load.t_rows := [];
                             Load.t_pkey := None;
                             Load.t_fkeys := [] |}]};
     Load.log := [] |}.

(** The two dimension tables as [load_observations] reads them. *)
Definition station_dim : DataFrame :=
  {| columns := ["station_id"; "air_quality_station"];
     rows := [[VInt 0; VStr "STA-1"]; [VInt 1; VStr "STA-2"]] |}.

Definition quantity_dim : DataFrame :=
  {| columns := ["quantity_id"; "air_pollutant_code"; "recommended_unit"];
     rows := [[VInt 0; VStr "http://p/8"; VStr "ug/m3"]] |}.

Definition loaded_db : Load.World :=
  {| Load.db :=
       (snd ((Load.load_metadata read_csv "stations.csv";;
              Load.load_quantities read_csv "pollutants.csv") fresh_db)).(Load.db);
     Load.log := [] |}.

(** The frame made of an observations file of the disk. *)
Definition joined (fname : string) : DataFrame :=
  {| columns := observation_columns;
     rows := [[VFloat "1.5"; VTime fname; VTime fname; VInt 1; VInt 1;
               VInt 1; VInt 0]] |}.

Definition six_files : list string :=
  ["f3.csv"; "f1.csv"; "f6.csv"; "f2.csv"; "f5.csv"; "f4.csv"].

(** The database after [f1.csv] was loaded once. *)
Definition loaded_once : Load.World :=
  {| Load.db :=
       (snd (Load.load_observations read_csv pd_to_psql ["f1.csv"]
               loaded_db)).(Load.db);
     Load.log := [] |}.

End LoadExample.

Module StagesExample.

(** A remote side that knows the metadata table, the page of one
    pollutant and the file list of one pollutant; the page of a second
    pollutant and the file list of a second one are answered with an
    error status. *)
Definition session_get (url : string) (n : nat)
  : result Download.Response * nat :=
  if String.eqb url Stages.metadata_url then
    (Ok (Download.mkResponse 200 "OK" "meta"), S n)
  else if String.eqb url "http://p/8" then
    (Ok (Download.mkResponse 200 "OK" "page 8"), S n)
  else if String.eqb url "http://p/5" then
    (Ok (Download.mkResponse 503 "Service Unavailable" ""), S n)
  else if String.eqb url (Stages.file_list_url "NO2" "NO") then
    (Ok (Download.mkResponse 200 "OK" "http://h/ok.csv"), S n)
  else if String.eqb url (Stages.file_list_url "PM10" "NO") then
    (Ok (Download.mkResponse 500 "Internal Server Error" ""), S n)
  else DownloadExample.session_get url n.

(** Frames kept as their text. *)
Definition read_tsv (text : string) : result string := Ok text.
Definition read_url_list (text : string) : result string := Ok text.

(** The table of the page of the one pollutant: a header with blanks
    around it, a cell of two fragments, a cell with a line feed inside
    and a row that claims a code of its own. *)
Definition table_rows (content : string)
  : result (list (result string * result (list string))) :=
  if String.eqb content "page 8" then
    Ok [(Ok " Notation ", Ok ["NO2"]);
        (Ok "Label", Ok [" Nitrogen "; "dioxide"]);
        (Ok "Definition", Ok ["Nitrogen" +:+ newline +:+ "dioxide"]);
        (Ok "AirPollutantCode", Ok ["8"])]
  else Raise (OtherError "'NoneType' object has no attribute 'find'").

(** The record made of that page. *)
Definition page_8_record : list (string * string) :=
  [("Notation", "NO2"); ("Label", "Nitrogendioxide"); ("Definition", "");
   ("AirPollutantCode", "http://p/8")].

(** The metadata table [meta] names one pollutant, every other table
    two. *)
Definition pollutant_urls (meta : string) : result (list string) :=
  if String.eqb meta "meta" then Ok ["http://p/8"]
  else Ok ["http://p/8"; "http://p/5"].

Definition frame_of_records (records : list (list (string * string)))
  : string :=
  str_join newline
    (map (fun record =>
            str_join "," (map (fun kv => fst kv +:+ "=" +:+ snd kv) record))
         records).

Definition merge_left (meta pollutant_meta : string) : result string :=
  Ok (meta +:+ newline +:+ pollutant_meta).

Definition file_parameters (meta : string)
  : result (list (string * string)) :=
  Ok [("PM10", "NO"); ("NO2", "NO")].

(** The rows of the one file list, when it is stored. *)
Definition read_file_lists (root : Path) (files : gmap string string)
  : result (list Download.Row) :=
  let stored := path_str (Stages.file_list_path root "NO2" "NO") in
  match files !! stored with
  | Some url => Ok [Download.mkRow url stored]
  | None => Ok []
  end.

(** An entry whose server answers, and a cache that holds its file and a
    file of another kind. *)
Definition ok_row : Download.Row :=
  Download.mkRow "http://h/ok.csv" "data/file_lists/NO2_NO.csv.xz".

Definition missing_row : Download.Row :=
  Download.mkRow "http://h/missing.csv" "data/file_lists/NO2_NO.csv.xz".

Definition cached_world : Download.World nat :=
  Download.mkWorld
    (<["data/raw/NO2/NO/ok.csv.xz" := "Concentration"]>
       {["data/notes.txt" := "keep"]}) 0 [].

End StagesExample.

Module CommandExample.

(** Modelled from the spec: the table [observation] that the script
    [create_table_observation.sql] creates; the script is not among the
    sources.  The table has the columns of the specification, with
    [station_id] and [quantity_id] foreign keys into [station] and
    [quantity]. *)
Definition observation_table : Load.Table :=
  {| Load.t_columns := LoadExample.observation_columns;
     Load.t_rows := [];
     Load.t_pkey := None;
     Load.t_fkeys := [("station_id", "station");
                      ("quantity_id", "quantity")] |}.

(** The text of the script, and a database that runs this script once
    and refuses any other. *)
Definition create_table_sql : result string :=
  Ok "CREATE TABLE observation (...);".

Definition execute (sql : string) (db : gmap string Load.Table)
  : result (gmap string Load.Table) :=
  if String.eqb sql "CREATE TABLE observation (...);" then
    match db !! "observation" with
    | None => Ok (<["observation" := observation_table]> db)
    | Some _ => Raise (OtherError "relation observation already exists")
    end
  else Raise (OtherError "syntax error").

Definition empty_db : Load.World := {| Load.db := ∅; Load.log := [] |}.

(** The database after the command [meta] ran once on the empty
    database: [observation] references the two dimension tables. *)
Definition set_up_db : Load.World :=
  {| Load.db :=
       (snd (Commands.load_meta_cmd LoadExample.read_csv create_table_sql
               execute "stations.csv" "pollutants.csv" empty_db)).(Load.db);
     Load.log := [] |}.

(** Fact-table columns with one that no file has, and without the key of
    the pollutant. *)
Definition wider_columns : list string :=
  LoadExample.observation_columns ++ ["sampling_point"].

Definition narrower_columns : list string :=
  ["concentration"; "station_id"].

End CommandExample.

Module JoinExample.

(** An observations file in which every station code is missing, so that
    [pd.read_csv] reads the column as [float64]; and one with the rows
    of two stations in turn. *)
Definition no_codes : DataFrame :=
  {| columns :=
       ["AirQualityStation"; "AirPollutantCode"; "Concentration";
        "UnitOfMeasurement"; "DatetimeBegin"; "DatetimeEnd"; "Validity";
        "Verification"];
     rows :=
       [[VNull; VStr "http://p/8"; VFloat "1.5"; VStr "ug/m3";
         VTime "t1"; VTime "t2"; VInt 1; VInt 1]] |}.

Definition in_turn : DataFrame :=
  {| columns :=
       ["AirQualityStation"; "AirPollutantCode"; "Concentration";
        "UnitOfMeasurement"; "DatetimeBegin"; "DatetimeEnd"; "Validity";
        "Verification"];
     rows :=
       [[VStr "STA-1"; VStr "http://p/8"; VFloat "1.0"; VStr "ug/m3";
         VTime "t1"; VTime "t2"; VInt 1; VInt 1];
        [VStr "STA-2"; VStr "http://p/8"; VFloat "2.0"; VStr "ug/m3";
         VTime "t1"; VTime "t2"; VInt 1; VInt 1];
        [VStr "STA-1"; VStr "http://p/8"; VFloat "3.0"; VStr "ug/m3";
         VTime "t2"; VTime "t3"; VInt 1; VInt 1]] |}.

(** The disk of [LoadExample] with these two files. *)
Definition read_csv (mode : Load.read_mode) (fname : string)
  : result DataFrame :=
  match mode with
  | Load.Observations _ =>
      if String.eqb fname "nocodes.csv" then Ok no_codes
      else if String.eqb fname "inturn.csv" then Ok in_turn
      else LoadExample.read_csv mode fname
  | _ => LoadExample.read_csv mode fname
  end.

End JoinExample.

(** ** Properties of [download.py] *)

Lemma bind_Ok {W A B} (m : M W A) (k : A -> M W B) (w w' : W) a :
  m w = (Ok a, w') -> (m ≫= k) w = k a w'.
Proof. unfold mbind, M_bind, bind. intros ->. reflexivity. Qed.

Lemma bind_Raise {W A B} (m : M W A) (k : A -> M W B) (w w' : W) e :
  m w = (Raise e, w') -> (m ≫= k) w = (Raise e, w').
Proof. unfold mbind, M_bind, bind. intros ->. reflexivity. Qed.

Section DownloadFacts.

Import Download.

Context {Frame Net : Type}.
Variable to_csv : Frame -> string.
Variable read_csv : string -> result Frame.
Variable session_get : string -> Net -> result Response * Net.

#[local] Abbreviation maybe_download := (maybe_download to_csv read_csv).
#[local] Abbreviation process_row :=
  (process_row to_csv read_csv session_get).
#[local] Abbreviation row_body := (row_body to_csv read_csv session_get).
#[local] Abbreviation download_rows :=
  (download_rows to_csv read_csv session_get).

Lemma exists_false (path : Path) (w : World Net) :
  exists_ path w = false <-> files w !! path_str path = None.
Proof.
  unfold exists_. rewrite bool_decide_eq_false, <- eq_None_not_Some.
  reflexivity.
Qed.

Lemma exists_true (path : Path) (w : World Net) :
  exists_ path w = true <-> is_Some (files w !! path_str path).
Proof. unfold exists_. apply bool_decide_eq_true. Qed.

(** A miss: the fetch function is called, and its frame is stored only
    when it returns one. *)
Lemma maybe_download_miss (fname : Path) (f : fetch Frame Net) (w : World Net) :
  exists_ fname w = false ->
  maybe_download fname f w =
    match f (net w) with
    | (Ok data, n) =>
        (Ok data,
         {| files := <[path_str fname := to_csv data]> (files w);
            net := n;
            trace := trace w ++ [Fetch; Makedirs (path_str (parent fname));
                                 WriteFile (path_str fname)] |})
    | (Raise e, n) =>
        (Raise e, {| files := files w; net := n;
                     trace := trace w ++ [Fetch] |})
    end.
Proof.
  intros Hmiss. unfold maybe_download. rewrite Hmiss. simpl.
  unfold mbind, M_bind, bind, call_fetch.
  destruct (f (net w)) as [[data|e] n]; simpl; [|reflexivity].
  rewrite <- !app_assoc. reflexivity.
Qed.

(** A hit: the file is read back and the fetch function is not called. *)
Lemma maybe_download_hit (fname : Path) (f : fetch Frame Net) (w : World Net) text :
  files w !! path_str fname = Some text ->
  maybe_download fname f w =
    (read_csv text,
     {| files := files w; net := net w;
        trace := trace w ++ [ReadFile (path_str fname)] |}).
Proof.
  intros Hhit. unfold maybe_download.
  assert (exists_ fname w = true) as ->
    by (apply exists_true; rewrite Hhit; eauto).
  simpl. unfold read_csv_file. rewrite Hhit. reflexivity.
Qed.

Lemma fetch_count_stored (dir path : string) :
  fetch_count [Fetch; Makedirs dir; WriteFile path] = 1%nat.
Proof. reflexivity. Qed.

Lemma fetch_count_read (path : string) : fetch_count [ReadFile path] = 0%nat.
Proof. reflexivity. Qed.

Lemma fetch_count_fetch : fetch_count [Fetch] = 1%nat.
Proof. reflexivity. Qed.

Lemma fetch_count_app (t1 t2 : list event) :
  fetch_count (t1 ++ t2) = (fetch_count t1 + fetch_count t2)%nat.
Proof. unfold fetch_count. rewrite filter_app, length_app. reflexivity. Qed.

Lemma unpack2_raises (l : list string) e :
  unpack2 l = Raise e -> exists m, e = ValueError m.
Proof.
  destruct l as [|a [|b [|c l]]]; simpl; intros H; inversion H; eauto.
Qed.

Lemma unpack2_length (l : list string) :
  length l <> 2%nat -> exists m, unpack2 l = Raise (ValueError m).
Proof.
  destruct l as [|a [|b [|c l]]]; simpl; intros H; eauto.
  contradiction.
Qed.

(** The rest of the loop does not depend on how a row ended, as long as
    its body handed back control. *)
Lemma download_rows_cons data_root row rows (w w' : World Net) :
  process_row data_root row w = (Ok tt, w') ->
  download_rows data_root (row :: rows) w = download_rows data_root rows w'.
Proof.
  intros H. simpl. unfold mbind, M_bind, bind. rewrite H. reflexivity.
Qed.

(** C7: when the fetch function raises, [maybe_download] raises the same
    exception and leaves the files as they were, so nothing is stored at
    the destination path; the next call for that path calls the fetch
    function again. *)
Theorem maybe_download_fetch_raises
    (fname : Path) (f g : fetch Frame Net) (w : World Net) e n :
  exists_ fname w = false ->
  f (net w) = (Raise e, n) ->
  let w' := {| files := files w; net := n; trace := trace w ++ [Fetch] |} in
  maybe_download fname f w = (Raise e, w')
  /\ exists_ fname w' = false
  /\ fetch_count (trace (snd (maybe_download fname g w')))
     = S (fetch_count (trace w')).
Proof.
  intros Hmiss Hf w'. split; [|split].
  - rewrite maybe_download_miss by exact Hmiss. rewrite Hf. reflexivity.
  - exact Hmiss.
  - rewrite maybe_download_miss by exact Hmiss.
    destruct (g (net w')) as [[data|e'] n']; simpl;
      rewrite fetch_count_app, ?fetch_count_stored, ?fetch_count_fetch; lia.
Qed.

(** C2 (amended): when the first call returns a frame, a second call for
    the same destination path does not call its fetch function and leaves
    the files and the remote side as they are; it returns what
    [read_csv] parses from the file at the path, which is the file that
    was there before the first call or else the text the first call wrote.
    So it returns the frame of the first call whenever parsing the text
    written for a frame gives that frame back. *)
Theorem maybe_download_second_call
    (fname : Path) (f g : fetch Frame Net) (w w1 : World Net) data :
  maybe_download fname f w = (Ok data, w1) ->
  exists text,
    files w1 !! path_str fname = Some text
    /\ maybe_download fname g w1 =
         (read_csv text,
          {| files := files w1; net := net w1;
             trace := trace w1 ++ [ReadFile (path_str fname)] |})
    /\ fetch_count (trace (snd (maybe_download fname g w1)))
       = fetch_count (trace w1)
    /\ (fetch_count (trace w1) <= S (fetch_count (trace w)))%nat
    /\ (files w !! path_str fname = Some text /\ read_csv text = Ok data
        \/ exists_ fname w = false /\ text = to_csv data)
    /\ (read_csv (to_csv data) = Ok data ->
        fst (maybe_download fname g w1) = Ok data).
Proof.
  intros H1.
  destruct (exists_ fname w) eqn:Hex.
  - apply exists_true in Hex as [text Htext].
    rewrite (maybe_download_hit _ _ _ _ Htext) in H1.
    injection H1 as Hread <-. simpl.
    exists text. rewrite (maybe_download_hit _ g _ text) by exact Htext.
    simpl.
    rewrite !fetch_count_app, ?fetch_count_stored, ?fetch_count_read.
    repeat split; auto; lia.
  - rewrite maybe_download_miss in H1 by exact Hex.
    destruct (f (net w)) as [[d|e] n]; [|discriminate].
    injection H1 as -> <-. simpl.
    exists (to_csv data).
    assert (<[path_str fname := to_csv data]> (files w) !! path_str fname
            = Some (to_csv data)) as Hlook by apply lookup_insert_eq.
    rewrite (maybe_download_hit _ g _ (to_csv data)) by exact Hlook.
    simpl.
    rewrite !fetch_count_app, ?fetch_count_stored, ?fetch_count_read.
    repeat split; auto; lia.
Qed.

Lemma row_body_HTTPError data_root row (w w1 : World Net) m :
  row_body data_root row w = (Raise (HTTPError m), w1) ->
  exists path, row_target data_root row = Ok path.
Proof.
  unfold Download.row_body, mbind, M_bind, bind, lift.
  unfold row_target.
  destruct (unpack2 (file_list_key (row_path row))) as [[p c]|e] eqn:Hu.
  - eauto.
  - intros H. injection H as H _. apply unpack2_raises in Hu as [m' ->].
    discriminate.
Qed.

(** C9 (amended): the loop body never raises.  Every exception raised
    while one entry is processed is caught and printed, an HTTP error
    with the target cache path and the URL of the entry, any other
    exception with the URL only, and the loop goes on with the remaining
    entries. *)
Theorem process_row_catches
    (data_root : Path) (row : Row) (rows : list Row) (w : World Net) :
  let (r, w1) := row_body data_root row w in
  process_row data_root row w = (Ok tt, row_outcome data_root row r w1)
  /\ download_rows data_root (row :: rows) w
     = download_rows data_root rows (row_outcome data_root row r w1)
  /\ (forall m, r = Raise (HTTPError m) ->
      exists path, row_target data_root row = Ok path).
Proof.
  destruct (row_body data_root row w) as [r w1] eqn:Hbody.
  assert (process_row data_root row w
          = (Ok tt, row_outcome data_root row r w1)) as Hrow.
  { unfold Download.process_row, try_except. rewrite Hbody.
    destruct r as [[]|e]; [reflexivity|].
    destruct e; try reflexivity.
    destruct (row_body_HTTPError _ _ _ _ _ Hbody) as [path Hpath].
    simpl. rewrite Hpath. reflexivity. }
  split; [exact Hrow|split].
  - apply download_rows_cons, Hrow.
  - intros m ->. eapply row_body_HTTPError, Hbody.
Qed.

(** C10: when the stem of the file-list path does not split into exactly
    two parts at [_], the unpacking raises a [ValueError]; the entry is
    reported by the generic handler and skipped, with no fetch and no
    file written, and the loop goes on with the remaining entries. *)
Theorem process_row_bad_key
    (data_root : Path) (row : Row) (rows : list Row) (w : World Net) :
  length (file_list_key (row_path row)) <> 2%nat ->
  exists msg,
    unpack2 (file_list_key (row_path row)) = Raise (ValueError msg)
    /\ let w' := {| files := files w; net := net w;
                    trace := trace w ++
                      [Print ("error processing " +:+ row_url row +:+ ": "
                                +:+ msg)] |} in
       process_row data_root row w = (Ok tt, w')
       /\ download_rows data_root (row :: rows) w
          = download_rows data_root rows w'.
Proof.
  intros Hlen. destruct (unpack2_length _ Hlen) as [msg Hmsg].
  exists msg. split; [exact Hmsg|]. intros w'.
  assert (process_row data_root row w = (Ok tt, w')) as Hrow.
  { unfold Download.process_row, try_except, Download.row_body.
    unfold mbind, M_bind, bind, lift, row_target. rewrite Hmsg.
    reflexivity. }
  split; [exact Hrow|]. apply download_rows_cons, Hrow.
Qed.

End DownloadFacts.

(** ** Properties of [load.py] *)

(** *** The order of the file names *)

Lemma ascii_compare_refl (a : ascii) : Ascii.compare a a = Eq.
Proof. unfold Ascii.compare. apply N.compare_refl. Qed.

Lemma ascii_compare_Lt_trans (a b c : ascii) :
  Ascii.compare a b = Lt -> Ascii.compare b c = Lt -> Ascii.compare a c = Lt.
Proof.
  unfold Ascii.compare. rewrite !N.compare_lt_iff. apply N.lt_trans.
Qed.

#[global] Instance str_le_trans : Transitive str_le.
Proof.
  unfold Transitive, str_le, String.leb.
  intros s1. induction s1 as [|a s1 IH]; intros [|b s2] [|c s3];
    simpl; try done.
  destruct (Ascii.compare a b) eqn:Hab; [| |done];
    destruct (Ascii.compare b c) eqn:Hbc; try done.
  - apply Ascii.compare_eq_iff in Hab as ->.
    apply Ascii.compare_eq_iff in Hbc as ->.
    rewrite ascii_compare_refl. apply IH.
  - apply Ascii.compare_eq_iff in Hab as ->. rewrite Hbc. done.
  - apply Ascii.compare_eq_iff in Hbc as <-. rewrite Hab. done.
  - rewrite (ascii_compare_Lt_trans _ _ _ Hab Hbc). done.
Qed.

#[global] Instance str_le_total : Total str_le.
Proof. intros s1 s2. apply String.leb_total. Qed.

#[global] Instance str_le_antisymm : AntiSymm (=) str_le.
Proof. intros s1 s2. apply String.leb_antisym. Qed.

(** [sorted] depends on the names given, not on their order. *)
Lemma sorted_Permutation (l1 l2 : list string) :
  l1 ≡ₚ l2 -> sorted l1 = sorted l2.
Proof.
  intros Hperm. unfold sorted.
  apply (Sorted_unique str_le); try apply Sorted_merge_sort; try apply _.
  rewrite !merge_sort_Permutation. exact Hperm.
Qed.

Lemma zip_range_take {A} (l : list A) :
  (zip (seq 0 5) l).*2 = take 5 l.
Proof. do 5 (destruct l as [|? l]; [reflexivity|]). reflexivity. Qed.

(** *** The loop over the files *)

Section LoadFacts.

Import Load.

Variable read_csv : read_mode -> string -> result DataFrame.
Variable pd_to_psql :
  DataFrame -> gmap string Table -> gmap string Table * option exn.

#[local] Abbreviation read_observations := (read_observations read_csv).
#[local] Abbreviation prepare := (prepare read_csv).
#[local] Abbreviation file_body := (file_body read_csv pd_to_psql).
#[local] Abbreviation load_file := (load_file read_csv pd_to_psql).
#[local] Abbreviation load_files := (load_files read_csv pd_to_psql).
#[local] Abbreviation load_observations :=
  (load_observations read_csv pd_to_psql).

(** The world [w] with [evs] added to its log. *)
#[local] Abbreviation logged w evs :=
  {| db := db w; log := log w ++ evs |}.

Lemma logged_logged (w : World) evs1 evs2 :
  logged (logged w evs1) evs2 = logged w (evs1 ++ evs2).
Proof. simpl. rewrite <- app_assoc. reflexivity. Qed.

Lemma load_files_cons_ok st q cols fname rest (w w' : World) :
  load_file st q cols fname w = (Ok tt, w') ->
  load_files st q cols (fname :: rest) w = load_files st q cols rest w'.
Proof.
  intros H. simpl. unfold mbind, M_bind, bind. rewrite H. reflexivity.
Qed.

Lemma load_files_cons_raise st q cols fname rest (w w' : World) e :
  load_file st q cols fname w = (Raise e, w') ->
  load_files st q cols (fname :: rest) w = (Raise e, w').
Proof.
  intros H. simpl. unfold mbind, M_bind, bind. rewrite H. reflexivity.
Qed.

(** What the two handlers make of the outcome of the body. *)
Lemma load_file_outcome st q cols fname (w : World) :
  load_file st q cols fname w =
    match file_body st q cols fname w with
    | (Ok _, w1) => (Ok tt, w1)
    | (Raise (UniqueViolation m), w1) =>
        (Ok tt,
         logged w1
           [LogWarning ("one or more rows in file " +:+ fname
                          +:+ " are already in the database; "
                          +:+ "skipping the entire file.")])
    | (Raise e, w1) =>
        (Raise e,
         logged w1 [LogException ("error occured for file " +:+ fname
                                    +:+ ": ")])
    end.
Proof.
  unfold Load.load_file, try_except.
  destruct (file_body st q cols fname w) as [[[]|e] w1];
    [reflexivity|]. destruct e; reflexivity.
Qed.

(** The reading of one file, by the outcome of the two decodings. *)
Lemma read_observations_utf8 fname exc (w : World) :
  read_observations fname [Utf8; Utf16] exc w =
    match read_csv (Observations Utf8) fname with
    | Ok d => (Ok d, logged w [ReadCsv fname (Observations Utf8)])
    | Raise (UnicodeDecodeError m8) =>
        match read_csv (Observations Utf16) fname with
        | Ok d =>
            (Ok d,
             logged w [ReadCsv fname (Observations Utf8);
                       LogException ("error reading " +:+ fname +:+ ": ");
                       ReadCsv fname (Observations Utf16)])
        | Raise (UnicodeDecodeError m16) =>
            (Raise (OtherError ("Error reading " +:+ fname +:+ ": "
                                  +:+ m16)),
             logged w [ReadCsv fname (Observations Utf8);
                       LogException ("error reading " +:+ fname +:+ ": ");
                       ReadCsv fname (Observations Utf16);
                       LogException ("error reading " +:+ fname +:+ ": ")])
        | Raise e =>
            (Raise e,
             logged w [ReadCsv fname (Observations Utf8);
                       LogException ("error reading " +:+ fname +:+ ": ");
                       ReadCsv fname (Observations Utf16)])
        end
    | Raise e => (Raise e, logged w [ReadCsv fname (Observations Utf8)])
    end.
Proof.
  simpl. unfold try_except, Load.read_csv_file, mbind, M_bind, bind.
  unfold emit, lift, raise. simpl.
  destruct (read_csv (Observations Utf8) fname) as [d|e]; [reflexivity|].
  destruct e; try reflexivity. simpl.
  destruct (read_csv (Observations Utf16) fname) as [d|e];
    simpl; rewrite <- ?app_assoc; [reflexivity|].
  destruct e; simpl; rewrite <- ?app_assoc; reflexivity.
Qed.

(** *** Which files a run works on *)

Lemma processed_app (l1 l2 : list event) :
  processed (l1 ++ l2) = processed l1 ++ processed l2.
Proof. apply omap_app. Qed.

Lemma silent_lift {A} (r : result A) : silent (lift r).
Proof. intros w. exists []. simpl. rewrite app_nil_r. done. Qed.

Lemma silent_raise {A} e : silent (raise (A:=A) e).
Proof. intros w. exists []. simpl. rewrite app_nil_r. done. Qed.

Lemma silent_ret {A} (a : A) : silent (mret a).
Proof. intros w. exists []. simpl. rewrite app_nil_r. done. Qed.

Lemma silent_emit ev : processed [ev] = [] -> silent (emit ev).
Proof. intros H w. exists [ev]. done. Qed.

Lemma silent_bind {A B} (m : M World A) (k : A -> M World B) :
  silent m -> (forall a, silent (k a)) -> silent (m ≫= k).
Proof.
  intros Hm Hk w. unfold mbind, M_bind, bind.
  destruct (Hm w) as (evs1 & Hlog1 & Hp1).
  destruct (m w) as [[a|e] w1]; simpl in *.
  - destruct (Hk a w1) as (evs2 & Hlog2 & Hp2).
    exists (evs1 ++ evs2). rewrite Hlog2, Hlog1, <- app_assoc.
    rewrite processed_app, Hp1, Hp2. done.
  - exists evs1. done.
Qed.

Lemma silent_try {A} (m : M World A) (h : exn -> M World A) :
  silent m -> (forall e, silent (h e)) -> silent (try_except m h).
Proof.
  intros Hm Hh w. unfold try_except.
  destruct (Hm w) as (evs1 & Hlog1 & Hp1).
  destruct (m w) as [[a|e] w1]; simpl in *.
  - exists evs1. done.
  - destruct (Hh e w1) as (evs2 & Hlog2 & Hp2).
    exists (evs1 ++ evs2). rewrite Hlog2, Hlog1, <- app_assoc.
    rewrite processed_app, Hp1, Hp2. done.
Qed.

Lemma opens_bind {A B} fname (m : M World A) (k : A -> M World B) :
  opens fname m -> (forall a, silent (k a)) -> opens fname (m ≫= k).
Proof.
  intros Hm Hk w. unfold mbind, M_bind, bind.
  destruct (Hm w) as (evs1 & Hlog1 & Hp1).
  destruct (m w) as [[a|e] w1]; simpl in *.
  - destruct (Hk a w1) as (evs2 & Hlog2 & Hp2).
    exists (evs1 ++ evs2). rewrite Hlog2, Hlog1, <- app_assoc.
    rewrite processed_app, Hp1, Hp2. done.
  - exists evs1. done.
Qed.

Lemma opens_try {A} fname (m : M World A) (h : exn -> M World A) :
  opens fname m -> (forall e, silent (h e)) -> opens fname (try_except m h).
Proof.
  intros Hm Hh w. unfold try_except.
  destruct (Hm w) as (evs1 & Hlog1 & Hp1).
  destruct (m w) as [[a|e] w1]; simpl in *.
  - exists evs1. done.
  - destruct (Hh e w1) as (evs2 & Hlog2 & Hp2).
    exists (evs1 ++ evs2). rewrite Hlog2, Hlog1, <- app_assoc.
    rewrite processed_app, Hp1, Hp2. done.
Qed.

Lemma silent_bulk_append d : silent (bulk_append pd_to_psql d).
Proof.
  intros w. unfold bulk_append. destruct (pd_to_psql d (db w)) as [db' r].
  exists [PdToPsql d]. done.
Qed.

Lemma opens_read_observations fname exc :
  opens fname (read_observations fname [Utf8; Utf16] exc).
Proof.
  intros w. rewrite read_observations_utf8.
  destruct (read_csv (Observations Utf8) fname) as [d|e];
    [eexists; split; [reflexivity|done]|].
  destruct e; try (eexists; split; [reflexivity|done]).
  destruct (read_csv (Observations Utf16) fname) as [d|e];
    [eexists; split; [reflexivity|done]|].
  destruct e; eexists; (split; [reflexivity|done]).
Qed.

Lemma opens_load_file st q cols fname :
  opens fname (load_file st q cols fname).
Proof.
  unfold Load.load_file. apply opens_try.
  - unfold Load.file_body, Load.prepare.
    apply opens_bind; [|intros d; apply silent_bulk_append].
    apply opens_bind; [apply opens_read_observations|]. intros d.
    apply silent_bind; [apply silent_lift|]. intros d'.
    apply silent_bind; [apply silent_lift|]. intros _.
    apply silent_bind; [apply silent_lift|]. intros _.
    apply silent_ret.
  - intros e. destruct e;
      try (apply silent_bind;
           [apply silent_emit; done|intros _; apply silent_raise]).
    apply silent_emit. done.
Qed.

(** The loop works on the files of its list in order, and on all of them
    unless it is stopped by an exception. *)
Lemma load_files_processed st q cols fnames (w : World) :
  exists k evs,
    log (snd (load_files st q cols fnames w)) = log w ++ evs
    /\ processed evs = take k fnames
    /\ (is_Ok (fst (load_files st q cols fnames w)) = true ->
        k = length fnames).
Proof.
  revert w. induction fnames as [|fname rest IH]; intros w.
  - exists 0%nat, []. simpl. rewrite app_nil_r. done.
  - destruct (opens_load_file st q cols fname w) as (evs1 & Hlog1 & Hp1).
    destruct (load_file st q cols fname w) as [[[]|e] w1] eqn:Hfile.
    + rewrite (load_files_cons_ok _ _ _ _ _ _ _ Hfile).
      destruct (IH w1) as (k & evs2 & Hlog2 & Hp2 & Hk).
      exists (S k), (evs1 ++ evs2). simpl in Hlog1.
      rewrite Hlog2, Hlog1, <- app_assoc, processed_app, Hp1, Hp2.
      split; [done|]. split; [done|]. intros Hok. simpl. f_equal. auto.
    + rewrite (load_files_cons_raise _ _ _ _ _ _ _ _ Hfile).
      exists 1%nat, evs1. simpl in *. rewrite Hlog1, Hp1.
      split; [done|]. split; [by rewrite take_0|]. discriminate.
Qed.

Lemma silent_read_sql_query cols name (w : World) :
  snd (read_sql_query cols name w) = w.
Proof. unfold read_sql_query. repeat case_match; reflexivity. Qed.

Lemma silent_reflect_columns name (w : World) :
  snd (reflect_columns name w) = w.
Proof. unfold reflect_columns. repeat case_match; reflexivity. Qed.

(** [load_observations] is the loop over the first five sorted names,
    once the two dimension tables and the columns of [observation] were
    read. *)
Lemma load_observations_unfold fnames (w : World) :
  load_observations fnames w =
    match read_sql_query ["station_id"; "air_quality_station"] "station" w
    with
    | (Raise e, _) => (Raise e, w)
    | (Ok st, _) =>
        match read_sql_query
                ["quantity_id"; "air_pollutant_code"; "recommended_unit"]
                "quantity" w with
        | (Raise e, _) => (Raise e, w)
        | (Ok q, _) =>
            match reflect_columns "observation" w with
            | (Raise e, _) => (Raise e, w)
            | (Ok cols, _) => load_files st q cols (take 5 (sorted fnames)) w
            end
        end
    end.
Proof.
  unfold Load.load_observations, mbind, M_bind, bind.
  pose proof (silent_read_sql_query
                ["station_id"; "air_quality_station"] "station" w) as H1.
  destruct (read_sql_query _ "station" w) as [[st|e] w1];
    simpl in H1; subst w1; [|reflexivity].
  pose proof (silent_read_sql_query
                ["quantity_id"; "air_pollutant_code"; "recommended_unit"]
                "quantity" w) as H2.
  destruct (read_sql_query _ "quantity" w) as [[q|e] w2];
    simpl in H2; subst w2; [|reflexivity].
  pose proof (silent_reflect_columns "observation" w) as H3.
  destruct (reflect_columns "observation" w) as [[cols|e] w3];
    simpl in H3; subst w3; [|reflexivity].
  rewrite zip_range_take. reflexivity.
Qed.

(** No run works on more than the first five of the sorted names. *)
Lemma load_observations_processed fnames (w : World) :
  exists k,
    (k <= 5)%nat
    /\ processed (log (snd (load_observations fnames w)))
       = processed (log w) ++ take k (sorted fnames).
Proof.
  rewrite load_observations_unfold.
  destruct (read_sql_query _ "station" w) as [[st|e] w1];
    [|exists 0%nat; simpl; rewrite take_0, app_nil_r; split; [lia|done]].
  destruct (read_sql_query _ "quantity" w) as [[q|e] w2];
    [|exists 0%nat; simpl; rewrite take_0, app_nil_r; split; [lia|done]].
  destruct (reflect_columns "observation" w) as [[cols|e] w3];
    [|exists 0%nat; simpl; rewrite take_0, app_nil_r; split; [lia|done]].
  destruct (load_files_processed st q cols (take 5 (sorted fnames)) w)
    as (k & evs & Hlog & Hp & _).
  exists (k `min` 5)%nat. split; [lia|].
  rewrite Hlog, processed_app, Hp, take_take. done.
Qed.

Lemma file_body_ok_prepare st q cols fname (w w0 : World) d :
  prepare st q cols fname w = (Ok d, w0) ->
  file_body st q cols fname w =
    (match snd (pd_to_psql d (db w0)) with
     | None => Ok tt
     | Some e => Raise e
     end,
     {| db := fst (pd_to_psql d (db w0)); log := log w0 ++ [PdToPsql d] |}).
Proof.
  intros H. unfold Load.file_body, mbind, M_bind, bind. rewrite H.
  unfold bulk_append. destruct (pd_to_psql d (db w0)); reflexivity.
Qed.

(** C3: when the bulk append of the frame prepared from a file raises a
    uniqueness violation, the file is given up after that one call, a
    warning is logged and the loop goes on with the next file; when the
    body of the loop raises any other exception, it is logged and raised
    again, and the loop ends there. *)
Theorem load_file_handlers st q cols fname rest (w : World) :
  (forall d w0 db' m,
      prepare st q cols fname w = (Ok d, w0) ->
      pd_to_psql d (db w0) = (db', Some (UniqueViolation m)) ->
      load_files st q cols (fname :: rest) w =
        load_files st q cols rest
          {| db := db';
             log := log w0 ++
               [PdToPsql d;
                LogWarning ("one or more rows in file " +:+ fname
                              +:+ " are already in the database; "
                              +:+ "skipping the entire file.")] |})
  /\ (forall e w1,
         file_body st q cols fname w = (Raise e, w1) ->
         (forall m, e <> UniqueViolation m) ->
         load_files st q cols (fname :: rest) w =
           (Raise e,
            logged w1 [LogException ("error occured for file " +:+ fname
                                       +:+ ": ")])).
Proof.
  split.
  - intros d w0 db' m Hprep Hpsql.
    apply load_files_cons_ok. rewrite load_file_outcome.
    rewrite (file_body_ok_prepare _ _ _ _ _ _ _ Hprep), Hpsql. simpl.
    rewrite <- app_assoc. reflexivity.
  - intros e w1 Hbody Hne.
    apply load_files_cons_raise. rewrite load_file_outcome, Hbody.
    destruct e; try reflexivity. destruct (Hne msg). reflexivity.
Qed.

(** C4: a file that does not decode as UTF-8 is read again as UTF-16.
    When that works the frame read as UTF-16 is the one that is joined
    and appended, so the file loads; when that fails to decode too, an
    exception is raised that ends the whole loop, the remaining files
    untouched. *)
Theorem read_falls_back_to_utf16 st q cols fname rest (w : World) m8 :
  read_csv (Observations Utf8) fname = Raise (UnicodeDecodeError m8) ->
  (forall d,
      read_csv (Observations Utf16) fname = Ok d ->
      read_observations fname [Utf8; Utf16] None w =
        (Ok d,
         logged w [ReadCsv fname (Observations Utf8);
                   LogException ("error reading " +:+ fname +:+ ": ");
                   ReadCsv fname (Observations Utf16)])
      /\ forall d' db',
          join_dimensions (normalize_column_names d) st q cols = Ok d' ->
          "station_id" ∈ columns d' ->
          "quantity_id" ∈ columns d' ->
          pd_to_psql d' (db w) = (db', None) ->
          load_file st q cols fname w =
            (Ok tt,
             {| db := db';
                log := log w ++
                  [ReadCsv fname (Observations Utf8);
                   LogException ("error reading " +:+ fname +:+ ": ");
                   ReadCsv fname (Observations Utf16);
                   PdToPsql d'] |}))
  /\ (forall m16,
         read_csv (Observations Utf16) fname
         = Raise (UnicodeDecodeError m16) ->
         load_files st q cols (fname :: rest) w =
           (Raise (OtherError ("Error reading " +:+ fname +:+ ": "
                                 +:+ m16)),
            logged w
              [ReadCsv fname (Observations Utf8);
               LogException ("error reading " +:+ fname +:+ ": ");
               ReadCsv fname (Observations Utf16);
               LogException ("error reading " +:+ fname +:+ ": ");
               LogException ("error occured for file " +:+ fname
                               +:+ ": ")])).
Proof.
  intros H8. split.
  - intros d H16.
    assert (read_observations fname [Utf8; Utf16] None w =
              (Ok d,
               logged w [ReadCsv fname (Observations Utf8);
                         LogException ("error reading " +:+ fname +:+ ": ");
                         ReadCsv fname (Observations Utf16)])) as Hread
      by (rewrite read_observations_utf8, H8, H16; reflexivity).
    split; [exact Hread|].
    intros d' db' Hjoin Hst Hq Hpsql.
    rewrite load_file_outcome.
    erewrite file_body_ok_prepare.
    2:{ unfold Load.prepare, mbind, M_bind, bind. rewrite Hread.
        unfold lift, getitem. rewrite Hjoin.
        rewrite !bool_decide_eq_true_2 by assumption. reflexivity. }
    simpl. rewrite Hpsql. simpl. rewrite <- app_assoc. reflexivity.
  - intros m16 H16. apply load_files_cons_raise.
    rewrite load_file_outcome.
    unfold Load.file_body, Load.prepare, mbind, M_bind, bind.
    rewrite read_observations_utf8, H8, H16. simpl.
    rewrite <- app_assoc. reflexivity.
Qed.

(** C8 (amended): the files a run works on are an initial part of the
    sorted list of the names it was given (the run can stop before the
    end of the list), and the whole run is the same for every order in
    which the same names are given. *)
Theorem load_observations_sorted_prefix fnames (w : World) :
  (exists k, processed (log (snd (load_observations fnames w)))
             = processed (log w) ++ take k (sorted fnames))
  /\ Sorted str_le (sorted fnames)
  /\ sorted fnames ≡ₚ fnames
  /\ (forall fnames', fnames' ≡ₚ fnames ->
        load_observations fnames' w = load_observations fnames w).
Proof.
  split; [|split; [|split]].
  - destruct (load_observations_processed fnames w) as (k & _ & Hk).
    eauto.
  - apply Sorted_merge_sort. apply _.
  - apply merge_sort_Permutation.
  - intros fnames' Hperm. rewrite !load_observations_unfold.
    rewrite (sorted_Permutation _ _ Hperm). reflexivity.
Qed.

Lemma read_csv_file_eq mode fname (w : World) :
  Load.read_csv_file read_csv mode fname w =
    (read_csv mode fname, logged w [ReadCsv fname mode]).
Proof. reflexivity. Qed.

(** The key column of a freshly written table: no null, no duplicate. *)
Lemma fresh_keys_lookup (l : list (list value)) i x :
  ((fun r => nth 0 r VNull) <$>
     imap (fun i r => VInt (Z.of_nat i) :: r) l) !! i = Some x ->
  x = VInt (Z.of_nat i).
Proof.
  rewrite list_lookup_fmap, list_lookup_imap.
  destruct (l !! i); simpl; congruence.
Qed.

Lemma fresh_keys_ok (l : list (list value)) :
  let keys := (fun r => nth 0 r VNull) <$>
                imap (fun i r => VInt (Z.of_nat i) :: r) l in
  NoDup keys /\ VNull ∉ keys.
Proof.
  intros keys. split.
  - apply NoDup_alt. intros i j x Hi Hj.
    apply fresh_keys_lookup in Hi, Hj. subst x.
    injection Hj as Hj. lia.
  - intros Hin. apply list_elem_of_lookup in Hin as [i Hi].
    apply fresh_keys_lookup in Hi. discriminate.
Qed.

(** Which tables are referenced after a table is written. *)
Lemma referenced_insert name k (t : Table) (m : gmap string Table) :
  referenced name (<[k := t]> m) ->
  (k <> name /\ name ∈ (t_fkeys t).*2) \/ referenced name m.
Proof.
  intros (n & t' & Hlook & Hn & Hin).
  apply lookup_insert_Some in Hlook as [[<- <-]|[Hne Hlook]]; [by left|].
  right. by exists n, t'.
Qed.

(** A computation that adds no foreign key to the database. *)
#[local] Abbreviation adds_no_reference m :=
  (forall (w : World) name,
      referenced name (db (snd ((m : M World _) w))) ->
      referenced name (db w)).

Lemma adds_no_reference_bind {A B} (m : M World A) (k : A -> M World B) :
  adds_no_reference m -> (forall a, adds_no_reference (k a)) ->
  adds_no_reference (m ≫= k).
Proof.
  intros Hm Hk w name. unfold mbind, M_bind, bind.
  specialize (Hm w name). destruct (m w) as [[a|e] w1]; simpl in *; [|done].
  intros H. by apply Hm, (Hk a).
Qed.

Lemma adds_no_reference_to_sql d name label :
  adds_no_reference (to_sql d name label).
Proof.
  intros w nm. unfold to_sql.
  repeat case_bool_decide; simpl; try done.
  intros [[_ Hin]|Href]%referenced_insert; [|done].
  by apply elem_of_nil in Hin.
Qed.

Lemma adds_no_reference_add_primary_key name col :
  adds_no_reference (add_primary_key name col).
Proof.
  intros w nm. unfold add_primary_key.
  destruct (db w !! name) as [t|] eqn:Ht; [|done].
  destruct (index_of col (t_columns t)), (t_pkey t); simpl; try done.
  case_bool_decide; simpl; [|done].
  intros [[Hne Hin]|Href]%referenced_insert; [|done].
  by exists name, t.
Qed.

Lemma adds_no_reference_load_metadata fname :
  adds_no_reference (load_metadata read_csv fname).
Proof.
  unfold load_metadata.
  apply adds_no_reference_bind; [done|]. intros d.
  apply adds_no_reference_bind; [apply adds_no_reference_to_sql|].
  intros _.
  apply adds_no_reference_bind; [apply adds_no_reference_add_primary_key|].
  by intros _.
Qed.

Lemma adds_no_reference_load_quantities fname :
  adds_no_reference (load_quantities read_csv fname).
Proof.
  unfold load_quantities.
  apply adds_no_reference_bind; [done|]. intros d.
  apply adds_no_reference_bind; [apply adds_no_reference_to_sql|].
  intros _.
  apply adds_no_reference_bind; [apply adds_no_reference_add_primary_key|].
  by intros _.
Qed.

(** Writing a frame as a table that no other table references, and
    declaring its index the key. *)
Lemma to_sql_add_primary_key
    (d : DataFrame) name label (k : M World unit) (w : World) :
  ~ referenced name (db w) ->
  label ∉ columns d ->
  NoDup (columns d) ->
  (to_sql d name label;; add_primary_key name label;; k) w =
    k {| db := <[name :=
                 {| t_columns := label :: columns d;
                    t_rows :=
                      imap (fun i r => VInt (Z.of_nat i) :: r) (rows d);
                    t_pkey := Some label;
                    t_fkeys := [] |}]> (db w);
         log := log w ++
           [ToSql name;
            Execute ("ALTER TABLE " +:+ name +:+ " ADD PRIMARY KEY ("
                       +:+ label +:+ ");")] |}.
Proof.
  intros Hfree Hlabel Hnodup. unfold mbind, M_bind, bind, to_sql.
  rewrite bool_decide_eq_false_2 by (by intros [_ ?]).
  rewrite bool_decide_eq_false_2 by exact Hlabel.
  rewrite bool_decide_eq_true_2 by exact Hnodup.
  unfold add_primary_key. simpl. rewrite lookup_insert_eq. simpl.
  rewrite String.eqb_refl.
  rewrite bool_decide_eq_true_2 by apply fresh_keys_ok.
  rewrite insert_insert_eq, <- app_assoc. reflexivity.
Qed.

(** Writing a frame as a table that exists and that another table
    references. *)
Lemma to_sql_referenced (d : DataFrame) name label (w : World) :
  is_Some (db w !! name) -> referenced name (db w) ->
  to_sql d name label w =
    (Raise (OtherError ("cannot drop table " +:+ name +:+ " because "
                          +:+ "other objects depend on it")), w).
Proof.
  intros Hsome Href. unfold to_sql.
  by rewrite bool_decide_eq_true_2.
Qed.

(** C6 (amended): as long as no other table references [station],
    whatever else the database holds (in particular after an earlier
    load of another file), loading a station file leaves in [station]
    exactly the rows of that file, in order, each with its row number as
    [station_id] in front; the table is written first and [station_id]
    is declared its primary key afterwards.  The same holds for
    [load_quantities], [quantity] and [quantity_id].  When the table
    exists and another table references it, the load raises after
    reading the file and leaves the database as it is. *)
Theorem load_dimension_replaces
    (stations1 stations2 pollutants1 pollutants2 : string) (w : World)
    (ds dq : DataFrame) :
  read_csv Stations stations2 = Ok ds ->
  read_csv Quantities pollutants2 = Ok dq ->
  "station_id" ∉ map normalize_name (columns ds) ->
  "quantity_id" ∉ map normalize_name (columns dq) ->
  NoDup (map normalize_name (columns ds)) ->
  NoDup (map normalize_name (columns dq)) ->
  (~ referenced "station" (db w) ->
   let w1 := snd (load_metadata read_csv stations1 w) in
   exists w2,
     load_metadata read_csv stations2 w1 = (Ok tt, w2)
     /\ db w2 !! "station" =
         Some {| t_columns :=
                   "station_id" :: map normalize_name (columns ds);
                 t_rows :=
                   imap (fun i r => VInt (Z.of_nat i) :: r) (rows ds);
                 t_pkey := Some "station_id";
                 t_fkeys := [] |}
     /\ log w2 = log w1 ++
         [ReadCsv stations2 Stations; ToSql "station";
          Execute "ALTER TABLE station ADD PRIMARY KEY (station_id);";
          LogInfo ("Wrote stations from file " +:+ stations2
                     +:+ " into table `station'.")])
  /\ (~ referenced "quantity" (db w) ->
      let w1 := snd (load_quantities read_csv pollutants1 w) in
      exists w2,
        load_quantities read_csv pollutants2 w1 = (Ok tt, w2)
        /\ db w2 !! "quantity" =
            Some {| t_columns :=
                      "quantity_id" :: map normalize_name (columns dq);
                    t_rows :=
                      imap (fun i r => VInt (Z.of_nat i) :: r) (rows dq);
                    t_pkey := Some "quantity_id";
                    t_fkeys := [] |}
        /\ log w2 = log w1 ++
            [ReadCsv pollutants2 Quantities; ToSql "quantity";
             Execute "ALTER TABLE quantity ADD PRIMARY KEY (quantity_id);";
             LogInfo ("Wrote pollutants from file " +:+ pollutants2
                        +:+ " into table `quantity'.")])
  /\ (is_Some (db w !! "station") -> referenced "station" (db w) ->
      exists msg,
        load_metadata read_csv stations2 w =
          (Raise (OtherError msg),
           {| db := db w; log := log w ++ [ReadCsv stations2 Stations] |}))
  /\ (is_Some (db w !! "quantity") -> referenced "quantity" (db w) ->
      exists msg,
        load_quantities read_csv pollutants2 w =
          (Raise (OtherError msg),
           {| db := db w;
              log := log w ++ [ReadCsv pollutants2 Quantities] |})).
Proof.
  intros Hreads Hreadq Hlabels Hlabelq Hnodups Hnodupq.
  split; [|split; [|split]].
  - intros Hfree w1.
    assert (~ referenced "station" (db w1)) as Hfree1
      by (intros H; apply Hfree;
          exact (adds_no_reference_load_metadata stations1 w _ H)).
    eexists. split; [|split].
    + unfold load_metadata.
      erewrite bind_Ok by (rewrite read_csv_file_eq, Hreads; reflexivity).
      cbv zeta.
      rewrite to_sql_add_primary_key by assumption. reflexivity.
    + simpl. apply lookup_insert_eq.
    + simpl. rewrite <- !app_assoc. reflexivity.
  - intros Hfree w1.
    assert (~ referenced "quantity" (db w1)) as Hfree1
      by (intros H; apply Hfree;
          exact (adds_no_reference_load_quantities pollutants1 w _ H)).
    eexists. split; [|split].
    + unfold load_quantities.
      erewrite bind_Ok by (rewrite read_csv_file_eq, Hreadq; reflexivity).
      cbv zeta.
      rewrite to_sql_add_primary_key by assumption. reflexivity.
    + simpl. apply lookup_insert_eq.
    + simpl. rewrite <- !app_assoc. reflexivity.
  - intros Hsome Href. eexists. unfold load_metadata.
    erewrite bind_Ok by (rewrite read_csv_file_eq, Hreads; reflexivity).
    cbv zeta. erewrite bind_Raise; [reflexivity|].
    by apply to_sql_referenced.
  - intros Hsome Href. eexists. unfold load_quantities.
    erewrite bind_Ok by (rewrite read_csv_file_eq, Hreadq; reflexivity).
    cbv zeta. erewrite bind_Raise; [reflexivity|].
    by apply to_sql_referenced.
Qed.

End LoadFacts.

(** *** The join *)

(** Closes a goal about concrete data that is decidable. *)
Ltac decide_now := by apply (bool_decide_unpack _).

Section JoinFacts.

Import Load.

Lemma index_of_lookup c cols i :
  index_of c cols = Some i -> cols !! i = Some c.
Proof.
  revert i. induction cols as [|c' cols IH]; intros i; simpl; [done|].
  destruct (String.eqb_spec c' c) as [->|Hne].
  - intros [= <-]. done.
  - destruct (index_of c cols) as [i'|]; simpl; [|done].
    intros [= <-]. simpl. auto.
Qed.

Lemma index_of_lt c cols i :
  index_of c cols = Some i -> (i < length cols)%nat.
Proof. intros H. eapply lookup_lt_Some, index_of_lookup, H. Qed.

Lemma index_of_None c cols : index_of c cols = None <-> c ∉ cols.
Proof.
  induction cols as [|c' cols IH]; simpl.
  - split; [intros _; apply not_elem_of_nil|done].
  - rewrite not_elem_of_cons. destruct (String.eqb_spec c' c) as [->|Hne].
    + split; [done|]. intros [? _]. done.
    + destruct (index_of c cols); simpl.
      * split; [done|]. intros [_ H]. apply IH in H. done.
      * split; [|done]. intros _. split; [congruence|]. by apply IH.
Qed.

Lemma index_of_elem_of c cols : c ∈ cols -> is_Some (index_of c cols).
Proof.
  intros Hin. destruct (index_of c cols) eqn:H; [eauto|].
  apply index_of_None in H. done.
Qed.

Lemma index_of_app_l c cols1 cols2 :
  c ∈ cols1 -> index_of c (cols1 ++ cols2) = index_of c cols1.
Proof.
  induction cols1 as [|c' cols1 IH]; simpl.
  - intros H. by apply elem_of_nil in H.
  - destruct (String.eqb_spec c' c) as [->|Hne]; [done|].
    intros [?|Hin]%elem_of_cons; [congruence|]. by rewrite IH.
Qed.

Lemma index_of_app_r c cols1 cols2 :
  c ∉ cols1 ->
  index_of c (cols1 ++ cols2) = (fun i => length cols1 + i)%nat
                                  <$> index_of c cols2.
Proof.
  induction cols1 as [|c' cols1 IH]; simpl.
  - intros _. by destruct (index_of c cols2).
  - intros [Hne Hin]%not_elem_of_cons.
    destruct (String.eqb_spec c' c) as [->|_]; [done|].
    rewrite IH by done. by destruct (index_of c cols2).
Qed.

Lemma cell_key cols r key i :
  index_of key cols = Some i -> nth i r VNull = cell cols r key.
Proof. unfold cell. by intros ->. Qed.

Lemma cell_app_l cols1 cols2 (r1 r2 : list value) c :
  c ∈ cols1 -> length r1 = length cols1 ->
  cell (cols1 ++ cols2) (r1 ++ r2) c = cell cols1 r1 c.
Proof.
  intros Hin Hlen. unfold cell. rewrite index_of_app_l by done.
  destruct (index_of c cols1) as [i|] eqn:Hi; [|done].
  apply index_of_lt in Hi. apply app_nth1. lia.
Qed.

Lemma cell_app_r cols1 cols2 (r1 r2 : list value) c :
  c ∉ cols1 -> length r1 = length cols1 ->
  cell (cols1 ++ cols2) (r1 ++ r2) c = cell cols2 r2 c.
Proof.
  intros Hin Hlen. unfold cell. rewrite index_of_app_r by done.
  destruct (index_of c cols2) as [i|]; simpl; [|done].
  rewrite app_nth2 by lia. f_equal. lia.
Qed.

Lemma cell_delete cols (r : list value) key j c :
  index_of key cols = Some j -> c <> key ->
  cell (delete j cols) (delete j r) c = cell cols r c.
Proof.
  unfold cell. revert r j.
  induction cols as [|c' cols IH]; intros r j; simpl; [done|].
  destruct (String.eqb_spec c' key) as [->|Hne].
  - intros [= <-] Hc. simpl.
    destruct (String.eqb_spec key c) as [->|_]; [done|].
    destruct (index_of c cols) as [i|]; simpl; [|done].
    destruct r; [by destruct i|done].
  - destruct (index_of key cols) as [j'|] eqn:Hj; simpl; [|done].
    intros [= <-] Hc. simpl.
    destruct (String.eqb_spec c' c) as [->|_].
    + by destruct r.
    + specialize (IH (tail r) j' eq_refl Hc).
      destruct r as [|x r]; simpl in *.
      * destruct (index_of c (delete j' cols)) as [i|],
                 (index_of c cols) as [i'|]; simpl; try done.
      * destruct (index_of c (delete j' cols)) as [i|],
                 (index_of c cols) as [i'|]; simpl; done.
Qed.

Lemma cell_map cols (f : string -> value) c :
  c ∈ cols -> cell cols (map f cols) c = f c.
Proof.
  intros Hin. unfold cell.
  destruct (index_of_elem_of _ _ Hin) as [i Hi]. rewrite Hi.
  apply nth_lookup_Some. rewrite list_lookup_fmap.
  by rewrite (index_of_lookup _ _ _ Hi).
Qed.

Lemma elem_of_delete_other (cols : list string) key j c :
  index_of key cols = Some j -> c ∈ cols -> c <> key -> c ∈ delete j cols.
Proof.
  intros Hj Hin Hne. apply index_of_lookup in Hj.
  apply list_elem_of_lookup in Hin as [i Hi].
  assert (i <> j) as Hij by (intros ->; congruence).
  apply list_elem_of_lookup.
  destruct (decide (i < j)%nat).
  - exists i. by rewrite list_lookup_delete_lt.
  - exists (pred i). rewrite list_lookup_delete_ge by lia.
    replace (S (pred i)) with i by lia. done.
Qed.

Lemma not_elem_of_delete_key (cols : list string) key j :
  NoDup cols -> index_of key cols = Some j -> key ∉ delete j cols.
Proof.
  intros Hnd Hj Hin. apply index_of_lookup in Hj.
  apply list_elem_of_lookup in Hin as [i Hi].
  destruct (decide (i < j)%nat).
  - rewrite list_lookup_delete_lt in Hi by done.
    pose proof (NoDup_lookup _ _ _ _ Hnd Hi Hj). lia.
  - rewrite list_lookup_delete_ge in Hi by lia.
    pose proof (NoDup_lookup _ _ _ _ Hnd Hi Hj). lia.
Qed.

Lemma map_bind {A B C} (F : B -> C) (f : A -> list B) (l : list A) :
  map F (l ≫= f) = l ≫= (fun x => map F (f x)).
Proof.
  induction l as [|x l IH]; [done|].
  rewrite !bind_cons, map_app, IH. done.
Qed.

Lemma bind_bind {A B C} (f : A -> list B) (g : B -> list C) (l : list A) :
  (l ≫= f) ≫= g = l ≫= (fun x => f x ≫= g).
Proof.
  induction l as [|x l IH]; [done|].
  rewrite !bind_cons, bind_app, IH. done.
Qed.

Lemma filter_none {A} (P : A -> Prop) `{!forall x, Decision (P x)}
    (l : list A) :
  (forall x, x ∈ l -> ~ P x) -> filter P l = [].
Proof.
  intros Hno. destruct (filter P l) as [|x l'] eqn:Hf; [done|].
  assert (x ∈ filter P l) as [HP Hin]%list_elem_of_filter
    by (rewrite Hf; left).
  destruct (Hno x Hin HP).
Qed.

(** [unique] keeps every element, once. *)
Lemma unique_elem_of {A} `{EqDecision A} (l : list A) x :
  x ∈ unique l <-> x ∈ l.
Proof.
  induction l as [|y l IH]; simpl; [done|].
  rewrite !elem_of_cons, list_elem_of_filter, IH.
  destruct (decide (x = y)); tauto.
Qed.

Lemma unique_NoDup {A} `{EqDecision A} (l : list A) : NoDup (unique l).
Proof.
  induction l as [|y l IH]; simpl; [constructor|].
  constructor; [|by apply NoDup_filter].
  rewrite list_elem_of_filter. by intros [? _].
Qed.

(** Grouping a list by a key rearranges it. *)
Lemma bind_none {A B} (l : list A) : (l ≫= fun _ => @nil B) = [].
Proof. induction l as [|x l IH]; [done|]. by rewrite bind_cons, IH. Qed.

Lemma bind_app_Permutation {A B} (f g : A -> list B) (l : list A) :
  (l ≫= fun x => f x ++ g x) ≡ₚ (l ≫= f) ++ (l ≫= g).
Proof.
  induction l as [|x l IH]; [done|].
  rewrite !bind_cons, IH, <- !app_assoc. apply Permutation_app_head.
  rewrite !app_assoc. apply Permutation_app_tail, Permutation_app_comm.
Qed.

Lemma bind_one {A B} `{EqDecision A} (ks : list A) a (x : B) :
  NoDup ks -> a ∈ ks ->
  (ks ≫= fun k => if decide (a = k) then [x] else []) = [x].
Proof.
  induction 1 as [|k ks Hk Hnd IH]; [by intros ?%elem_of_nil|].
  rewrite bind_cons. intros [->|Hin]%elem_of_cons.
  - rewrite decide_True by done.
    rewrite (Forall_bind_ext _ (fun _ => [])), bind_none; [done|].
    apply Forall_forall. intros k' Hk'. rewrite decide_False; [done|].
    by intros ->.
  - rewrite decide_False by (by intros ->). by apply IH.
Qed.

Lemma group_Permutation {A} (key : A -> value) (ks : list value)
    (l : list A) :
  NoDup ks -> (forall x, x ∈ l -> key x ∈ ks) ->
  (ks ≫= fun k => filter (fun x => key x = k) l) ≡ₚ l.
Proof.
  intros Hnd. induction l as [|x l IH]; intros Hks.
  - by rewrite (bind_none ks
                  : (ks ≫= fun k => filter (fun x => key x = k) []) = []).
  - rewrite (Forall_bind_ext _
               (fun k => (if decide (key x = k) then [x] else [])
                         ++ filter (fun x => key x = k) l)).
    2:{ apply Forall_forall. intros k _. rewrite filter_cons.
        by destruct (decide (key x = k)). }
    rewrite bind_app_Permutation, bind_one; [|done|apply Hks; left].
    simpl. constructor. apply IH. intros y Hy. apply Hks. by right.
Qed.

(** The rows of [merge], in the order of the left frame. *)
Lemma merge_rows_Permutation (L R : list (list value)) i j :
  (k ← unique (map (fun l => nth i l VNull) L);
   l ← filter (fun l => nth i l VNull = k) L;
   r ← filter (fun r => nth j r VNull = k) R;
   [l ++ delete j r])
  ≡ₚ (l ← L;
      r ← filter (fun r => nth j r VNull = nth i l VNull) R;
      [l ++ delete j r]).
Proof.
  set (g := fun l : list value =>
              r ← filter (fun r => nth j r VNull = nth i l VNull) R;
              [l ++ delete j r]).
  rewrite (Forall_bind_ext _
             (fun k => filter (fun l => nth i l VNull = k) L ≫= g)).
  2:{ apply Forall_forall. intros k _. apply Forall_bind_ext.
      apply Forall_forall. intros l [<- _]%list_elem_of_filter. done. }
  rewrite <- bind_bind.
  rewrite (group_Permutation (fun l => nth i l VNull)); [done| |].
  - apply unique_NoDup.
  - intros l Hl. apply unique_elem_of, list_elem_of_fmap. by exists l.
Qed.

(** [merge_as] when the two frames share no column but the key: no
    column is renamed. *)
Lemma merge_as_disjoint ldtype rdtype (left right : DataFrame) key i j :
  index_of key (columns left) = Some i ->
  index_of key (columns right) = Some j ->
  NoDup (columns right) ->
  (forall c, c ∈ columns right -> c <> key -> c ∉ columns left) ->
  merge_refused ldtype rdtype (no_rows left) (no_rows right) = false ->
  exists rs,
    merge_as ldtype rdtype left right key =
      Ok {| columns := columns left ++ delete j (columns right);
            rows := rs |}
    /\ rs ≡ₚ (l ← rows left;
              r ← filter (fun r => cell (columns right) r key
                                   = cell (columns left) l key)
                         (rows right);
              [l ++ delete j r]).
Proof.
  intros Hi Hj Hnd Hdisj Hok. unfold merge_as, cell.
  rewrite Hi, Hj, Hok. eexists. split; [|apply merge_rows_Permutation].
  do 2 f_equal. f_equal.
  - rewrite <- (map_id (columns left)) at 2. apply map_ext_in.
    intros c Hc. rewrite bool_decide_eq_false_2; [done|].
    intros [Hne Hin]. apply (Hdisj c Hin Hne).
    by apply list_elem_of_In.
  - rewrite <- (map_id (delete j (columns right))) at 2. apply map_ext_in.
    intros c Hc%list_elem_of_In. rewrite bool_decide_eq_false_2; [done|].
    apply Hdisj; [by eapply list_elem_of_delete_inv|].
    intros ->. by eapply not_elem_of_delete_key.
Qed.

Section join.

Variables d station quantity : DataFrame.
Variable cols : list string.

Hypothesis station_key_d : "air_quality_station" ∈ columns d.
Hypothesis station_key : "air_quality_station" ∈ columns station.
Hypothesis quantity_key_d : "air_pollutant_code" ∈ columns d.
Hypothesis quantity_key : "air_pollutant_code" ∈ columns quantity.
Hypothesis station_NoDup : NoDup (columns station).
Hypothesis quantity_NoDup : NoDup (columns quantity).
Hypothesis station_disjoint :
  forall c, c ∈ columns station -> c <> "air_quality_station" ->
            c ∉ columns d.
Hypothesis quantity_disjoint :
  forall c, c ∈ columns quantity -> c <> "air_pollutant_code" ->
            (c ∉ columns d) /\ (c ∉ columns station).
Hypothesis d_rows :
  Forall (fun r => length r = length (columns d)) (rows d).
Hypothesis station_rows :
  Forall (fun r => length r = length (columns station)) (rows station).
Hypothesis cols_known :
  forall c, c ∈ cols ->
            c ∈ columns d \/ c ∈ columns station \/ c ∈ columns quantity.
Hypothesis station_accepted :
  merge_refused (column_dtype FromCsv d "air_quality_station")
    (column_dtype FromSql station "air_quality_station")
    (no_rows d) (no_rows station) = false.
Hypothesis quantity_accepted :
  forall lempty,
    merge_refused (column_dtype FromCsv d "air_pollutant_code")
      (column_dtype FromSql quantity "air_pollutant_code")
      lempty (no_rows quantity) = false.

(** The two joins in the order of the file, with the columns selected,
    are the join of the specification. *)
Lemma joined_rows_left_order j1 j2 :
  index_of "air_quality_station" (columns station) = Some j1 ->
  index_of "air_pollutant_code" (columns quantity) = Some j2 ->
  map (fun r =>
         map (cell ((columns d ++ delete j1 (columns station))
                      ++ delete j2 (columns quantity)) r) cols)
      ((l ← rows d;
        r ← filter (fun r => cell (columns station) r "air_quality_station"
                             = cell (columns d) l "air_quality_station")
                   (rows station);
        [l ++ delete j1 r])
         ≫= fun l =>
              r ← filter
                    (fun r =>
                       cell (columns quantity) r "air_pollutant_code"
                       = cell (columns d ++ delete j1 (columns station)) l
                           "air_pollutant_code")
                    (rows quantity);
              [l ++ delete j2 r])
  = (r ← rows d; joined_rows d station quantity cols r).
Proof.
  intros Hj1 Hj2.
  rewrite bind_bind, map_bind. apply Forall_bind_ext.
  eapply Forall_impl; [exact d_rows|]. intros l Hl. simpl.
  rewrite bind_bind, map_bind. unfold joined_rows.
  apply Forall_bind_ext. apply Forall_forall. intros s Hs.
  apply list_elem_of_filter in Hs as [_ Hs].
  pose proof (proj1 (Forall_forall _ _) station_rows s Hs) as Hlen.
  simpl in Hlen.
  rewrite bind_singleton, map_bind.
  rewrite (cell_app_l (columns d)) by done.
  apply Forall_bind_ext, Forall_forall. intros q _. simpl. f_equal.
  apply map_ext. intros c.
  assert (length (l ++ delete j1 s)
          = length (columns d ++ delete j1 (columns station))) as Hlen1.
  { pose proof (index_of_lt _ _ _ Hj1).
    rewrite !length_app, !length_delete, Hl, Hlen;
      [done|apply lookup_lt_is_Some; lia..]. }
  destruct (decide (c ∈ columns d)) as [Hd|Hd].
  - rewrite bool_decide_eq_true_2 by done.
    rewrite cell_app_l; [|rewrite elem_of_app; by left|done].
    by rewrite cell_app_l.
  - rewrite (bool_decide_eq_false_2 _ Hd).
    assert (c <> "air_quality_station") as Hne1 by congruence.
    assert (c <> "air_pollutant_code") as Hne2 by congruence.
    destruct (decide (c ∈ columns station)) as [Hs'|Hs'].
    + rewrite bool_decide_eq_true_2 by done.
      rewrite cell_app_l;
        [|rewrite elem_of_app; right; by eapply elem_of_delete_other|done].
      rewrite cell_app_r by done. by eapply cell_delete.
    + rewrite (bool_decide_eq_false_2 _ Hs').
      rewrite cell_app_r; [by eapply cell_delete| |done].
      rewrite elem_of_app.
      intros [?|?%list_elem_of_delete_inv]; done.
Qed.

(** The join of the code is the join of the specification, up to the
    order of the rows. *)
Lemma join_dimensions_joined_rows :
  exists out,
    join_dimensions d station quantity cols = Ok out
    /\ columns out = cols
    /\ rows out ≡ₚ (r ← rows d; joined_rows d station quantity cols r).
Proof.
  destruct (index_of_elem_of _ _ station_key_d) as [i1 Hi1].
  destruct (index_of_elem_of _ _ station_key) as [j1 Hj1].
  destruct (index_of_elem_of _ _ quantity_key_d) as [i2 Hi2].
  destruct (index_of_elem_of _ _ quantity_key) as [j2 Hj2].
  unfold join_dimensions, merge.
  destruct (merge_as_disjoint _ _ d station _ i1 j1 Hi1 Hj1 station_NoDup
              station_disjoint station_accepted) as (rs1 & -> & Hrs1).
  unfold merged_dtype. rewrite bool_decide_eq_true_2 by done.
  destruct (merge_as_disjoint
              (column_dtype FromCsv d "air_pollutant_code")
              (column_dtype FromSql quantity "air_pollutant_code")
              {| columns := columns d ++ delete j1 (columns station);
                 rows := rs1 |}
              quantity "air_pollutant_code" i2 j2)
    as (rs2 & -> & Hrs2); simpl; try done.
  { by rewrite index_of_app_l. }
  { intros c Hc Hne. destruct (quantity_disjoint c Hc Hne) as [Hd Hs].
    rewrite elem_of_app. intros [?|?%list_elem_of_delete_inv]; done. }
  unfold select_columns. simpl.
  assert (forall c, c ∈ cols ->
            c ∈ (columns d ++ delete j1 (columns station))
                ++ delete j2 (columns quantity)) as Hknown.
  { intros c Hc. rewrite !elem_of_app.
    destruct (decide (c ∈ columns d)) as [|Hnd]; [by auto|].
    destruct (cols_known c Hc) as [?|[Hs|Hq]]; [done| |].
    - left. right. eapply elem_of_delete_other; [done..|]. congruence.
    - right. eapply elem_of_delete_other; [done..|]. congruence. }
  rewrite filter_none by (intros c Hc Hnot; by apply Hnot, Hknown).
  eexists. split; [reflexivity|]. split; [reflexivity|]. simpl.
  rewrite <- (joined_rows_left_order j1 j2 Hj1 Hj2).
  apply Permutation_map. rewrite Hrs2. simpl. by rewrite Hrs1.
Qed.

End join.

(** What a matching pair of dimension rows contributes. *)
Lemma joined_rows_match d station quantity cols r s q :
  s ∈ rows station -> q ∈ rows quantity ->
  cell (columns station) s "air_quality_station"
  = cell (columns d) r "air_quality_station" ->
  cell (columns quantity) q "air_pollutant_code"
  = cell (columns d) r "air_pollutant_code" ->
  map (fun c =>
         if bool_decide (c ∈ columns d) then cell (columns d) r c
         else if bool_decide (c ∈ columns station)
              then cell (columns station) s c
              else cell (columns quantity) q c) cols
  ∈ joined_rows d station quantity cols r.
Proof.
  intros Hs Hq Hsk Hqk. unfold joined_rows.
  apply list_elem_of_bind. exists s. split; [|by apply list_elem_of_filter].
  apply list_elem_of_bind. exists q. split; [|by apply list_elem_of_filter].
  apply list_elem_of_singleton. done.
Qed.

Lemma joined_rows_no_station d station quantity cols r :
  (forall s, s ∈ rows station ->
             cell (columns station) s "air_quality_station"
             <> cell (columns d) r "air_quality_station") ->
  joined_rows d station quantity cols r = [].
Proof.
  intros Hno. unfold joined_rows.
  rewrite (filter_none _ (rows station)); [done|].
  intros s Hs. by apply Hno.
Qed.

Lemma joined_rows_no_quantity d station quantity cols r :
  (forall q, q ∈ rows quantity ->
             cell (columns quantity) q "air_pollutant_code"
             <> cell (columns d) r "air_pollutant_code") ->
  joined_rows d station quantity cols r = [].
Proof.
  intros Hno. unfold joined_rows.
  rewrite (filter_none _ (rows quantity)).
  - induction (filter _ (rows station)) as [|s l IH]; [done|].
    rewrite bind_cons, IH. done.
  - intros q Hq. by apply Hno.
Qed.

(** The names of the columns of an observations file, normalized. *)
Lemma normalized_columns :
  map normalize_name (write_cols ++ extra_cols) =
    ["concentration"; "datetime_begin"; "datetime_end"; "validity";
     "verification"; "air_quality_station"; "air_pollutant_code";
     "unit_of_measurement"].
Proof. reflexivity. Qed.

Lemma text_accepted lempty rempty :
  merge_refused Object Object lempty rempty = false.
Proof. by destruct lempty, rempty. Qed.

(** C5 (amended): for a frame [d0] read from an observations file and
    the two dimension tables as [load_observations] reads them, when the
    station codes and the pollutant codes of the file and of the tables
    are text, the join succeeds; its frame has the columns [cols] of the
    fact table, in that order, and its rows are, in some order, those of
    the inner join on the station code and on the pollutant code.  A row
    with no station or no quantity of its code adds nothing; a row with a
    station and a quantity of its codes adds a row that has its own cells
    and the [station_id] and [quantity_id] of that station and quantity.
    This frame is what is handed to the bulk append.  When the station
    codes of the file are numbers, or all missing, and the table has a
    station code that is text, nothing is joined: the merge raises
    [ValueError], which is logged and raised again, and the loop ends at
    that file. *)
Theorem join_dimensions_inner_join
    (d0 station quantity : DataFrame) (cols : list string) :
  columns d0 ≡ₚ write_cols ++ extra_cols ->
  columns station = ["station_id"; "air_quality_station"] ->
  columns quantity
  = ["quantity_id"; "air_pollutant_code"; "recommended_unit"] ->
  Forall (fun r => length r = 8%nat) (rows d0) ->
  Forall (fun r => length r = 2%nat) (rows station) ->
  cols ⊆ map normalize_name (write_cols ++ extra_cols)
         ++ ["station_id"; "quantity_id"; "recommended_unit"] ->
  let d := normalize_column_names d0 in
  (column_dtype FromCsv d "air_quality_station" = Object ->
   column_dtype FromSql station "air_quality_station" = Object ->
   column_dtype FromCsv d "air_pollutant_code" = Object ->
   column_dtype FromSql quantity "air_pollutant_code" = Object ->
   exists out,
     join_dimensions d station quantity cols = Ok out
     /\ columns out = cols
     /\ rows out ≡ₚ (r ← rows d; joined_rows d station quantity cols r)
     /\ (forall r,
           (forall s, s ∈ rows station ->
                      cell (columns station) s "air_quality_station"
                      <> cell (columns d) r "air_quality_station") ->
           joined_rows d station quantity cols r = [])
     /\ (forall r,
           (forall q, q ∈ rows quantity ->
                      cell (columns quantity) q "air_pollutant_code"
                      <> cell (columns d) r "air_pollutant_code") ->
           joined_rows d station quantity cols r = [])
     /\ (forall r s q,
           r ∈ rows d -> s ∈ rows station -> q ∈ rows quantity ->
           cell (columns station) s "air_quality_station"
           = cell (columns d) r "air_quality_station" ->
           cell (columns quantity) q "air_pollutant_code"
           = cell (columns d) r "air_pollutant_code" ->
           exists o,
             o ∈ rows out
             /\ ("station_id" ∈ cols ->
                 cell cols o "station_id"
                 = cell (columns station) s "station_id")
             /\ ("quantity_id" ∈ cols ->
                 cell cols o "quantity_id"
                 = cell (columns quantity) q "quantity_id")
             /\ (forall c, c ∈ cols -> c ∈ columns d ->
                           cell cols o c = cell (columns d) r c))
     /\ (forall read_csv fname (w : World),
           read_csv (Observations Utf8) fname = Ok d0 ->
           "station_id" ∈ cols -> "quantity_id" ∈ cols ->
           prepare read_csv station quantity cols fname w =
             (Ok out,
              {| db := db w;
                 log := log w ++ [ReadCsv fname (Observations Utf8)] |})))
  /\ (column_dtype FromCsv d "air_quality_station" = Float64
      \/ column_dtype FromCsv d "air_quality_station" = Int64 ->
      existsb is_str (column_cells station "air_quality_station") = true ->
      exists msg,
        join_dimensions d station quantity cols = Raise (ValueError msg)
        /\ (forall read_csv pd_to_psql fname rest (w : World),
              read_csv (Observations Utf8) fname = Ok d0 ->
              load_files read_csv pd_to_psql station quantity cols
                (fname :: rest) w =
                (Raise (ValueError msg),
                 {| db := db w;
                    log := log w ++
                      [ReadCsv fname (Observations Utf8);
                       LogException ("error occured for file " +:+ fname
                                       +:+ ": ")] |}))).
Proof.
  intros Hperm Hst Hq Hrows Hsrows Hcols d.
  assert (columns d ≡ₚ map normalize_name (write_cols ++ extra_cols))
    as Hd by (simpl; by rewrite Hperm).
  rewrite normalized_columns in Hd, Hcols.
  assert (forall c, c ∈ columns d <->
            c ∈ ["concentration"; "datetime_begin"; "datetime_end";
                 "validity"; "verification"; "air_quality_station";
                 "air_pollutant_code"; "unit_of_measurement"]) as Hmem
    by (intros c; by rewrite Hd).
  split.
  - intros Hd1 Hs1 Hd2 Hq2.
    assert (exists out,
               join_dimensions d station quantity cols = Ok out
               /\ columns out = cols
               /\ rows out
                  ≡ₚ (r ← rows d; joined_rows d station quantity cols r))
      as (out & Hjoin & Hout & Hperm').
    { apply join_dimensions_joined_rows.
      - apply Hmem. decide_now.
      - rewrite Hst. decide_now.
      - apply Hmem. decide_now.
      - rewrite Hq. decide_now.
      - rewrite Hst. decide_now.
      - rewrite Hq. decide_now.
      - intros c. rewrite Hst, Hmem, !elem_of_cons, elem_of_nil.
        intros [->|[->|[]]] Hne; [|done]. decide_now.
      - intros c. rewrite Hst, Hq, Hmem, !elem_of_cons, elem_of_nil.
        intros [->|[->|[->|[]]]] Hne; [|done|];
          split; decide_now.
      - eapply Forall_impl; [exact Hrows|]. intros r ->.
        by rewrite Hd.
      - eapply Forall_impl; [exact Hsrows|]. intros r ->. by rewrite Hst.
      - intros c Hc. apply Hcols in Hc. rewrite Hst, Hq, Hmem.
        apply elem_of_app in Hc as [Hc|Hc]; [by left|].
        rewrite !elem_of_cons, elem_of_nil in Hc.
        destruct Hc as [->|[->|[->|[]]]];
          right; [left|right|right]; decide_now.
      - rewrite Hd1, Hs1. apply text_accepted.
      - intros lempty. rewrite Hd2, Hq2. apply text_accepted. }
    exists out. split; [exact Hjoin|]. split; [exact Hout|].
    split; [exact Hperm'|].
    split; [apply joined_rows_no_station|].
    split; [apply joined_rows_no_quantity|].
    split.
    + intros r s q Hr Hs Hqr Hsk Hqk.
      eexists. split; [|split; [|split]].
      * rewrite Hperm'. apply list_elem_of_bind. exists r.
        split; [|done]. by apply joined_rows_match.
      * intros Hin. rewrite cell_map by done.
        rewrite bool_decide_eq_false_2
          by (rewrite Hmem; decide_now).
        rewrite bool_decide_eq_true_2
          by (rewrite Hst; decide_now).
        done.
      * intros Hin. rewrite cell_map by done.
        rewrite bool_decide_eq_false_2
          by (rewrite Hmem; decide_now).
        rewrite bool_decide_eq_false_2
          by (rewrite Hst; decide_now).
        done.
      * intros c Hin Hc. rewrite cell_map by done.
        by rewrite bool_decide_eq_true_2.
    + intros read_csv fname w Hread Hsid Hqid.
      unfold Load.prepare.
      erewrite bind_Ok
        by (rewrite read_observations_utf8, Hread; reflexivity).
      cbv zeta. fold d. unfold mbind, M_bind, bind, lift, getitem.
      rewrite Hjoin, Hout. simpl.
      rewrite !bool_decide_eq_true_2 by done. reflexivity.
  - intros Hnumbers Htext.
    assert (merge_refused (column_dtype FromCsv d "air_quality_station")
              (column_dtype FromSql station "air_quality_station")
              (no_rows d) (no_rows station) = true) as Hrefused.
    { assert (no_rows d = false) as ->.
      { unfold column_dtype, column_cells, no_rows in *.
        destruct (rows d); [by destruct Hnumbers|done]. }
      assert (no_rows station = false) as ->.
      { unfold column_cells, no_rows in *. by destruct (rows station). }
      assert (column_dtype FromSql station "air_quality_station" = Object)
        as ->.
      { unfold column_dtype, infer_dtype. rewrite Htext.
        by destruct (column_cells station "air_quality_station"). }
      by destruct Hnumbers as [-> | ->]. }
    assert (exists msg,
               join_dimensions d station quantity cols
               = Raise (ValueError msg)) as [msg Hjoin].
    { destruct (index_of_elem_of "air_quality_station" (columns d))
        as [i Hi]; [apply Hmem; decide_now|].
      unfold join_dimensions, merge, merge_as.
      rewrite Hi, Hst, Hrefused. eexists. reflexivity. }
    exists msg. split; [exact Hjoin|].
    intros read_csv pd_to_psql fname rest w Hread.
    apply load_files_cons_raise. rewrite load_file_outcome.
    unfold Load.file_body, Load.prepare.
    erewrite bind_Raise;
      [|erewrite bind_Ok
          by (rewrite read_observations_utf8, Hread; reflexivity);
        cbv zeta; fold d; unfold mbind, M_bind, bind, lift;
        rewrite Hjoin; reflexivity].
    simpl. rewrite <- app_assoc. reflexivity.
Qed.

End JoinFacts.

(** ** The statements above on concrete runs *)

Section Examples.

Import Download Load.

#[local] Abbreviation dl_maybe_download :=
  (maybe_download DownloadExample.to_csv DownloadExample.read_csv).
#[local] Abbreviation dl_process_row :=
  (process_row DownloadExample.to_csv DownloadExample.read_csv
     DownloadExample.session_get).
#[local] Abbreviation dl_row_body :=
  (row_body DownloadExample.to_csv DownloadExample.read_csv
     DownloadExample.session_get).
#[local] Abbreviation ld_load_observations :=
  (load_observations LoadExample.read_csv LoadExample.pd_to_psql).
#[local] Abbreviation ld_load_files :=
  (load_files LoadExample.read_csv LoadExample.pd_to_psql
     LoadExample.station_dim LoadExample.quantity_dim
     LoadExample.observation_columns).

(** C7 on a fetch that fails with an HTTP error. *)
Lemma maybe_download_fetch_raises_witness :
  exists_ DownloadExample.target DownloadExample.empty_world = false
  /\ DownloadExample.failing_fetch 0%nat
     = (Raise (HTTPError "503 Server Error"), 1%nat)
  /\ dl_maybe_download DownloadExample.target DownloadExample.failing_fetch
       DownloadExample.empty_world
     = (Raise (HTTPError "503 Server Error"),
        {| Download.files := ∅; net := 1%nat; trace := [Fetch] |}).
Proof.
  split; [reflexivity|]. split; [reflexivity|].
  apply (proj1 (maybe_download_fetch_raises
                  DownloadExample.to_csv DownloadExample.read_csv
                  DownloadExample.target DownloadExample.failing_fetch
                  DownloadExample.good_fetch DownloadExample.empty_world
                  (HTTPError "503 Server Error") 1%nat
                  eq_refl eq_refl)).
Defined.

(** C2 as stated fails on a fetch function that raises: nothing is
    stored, and the second call calls the fetch function a second time.
    It also fails on a fetched frame that the CSV file does not give
    back: the first call returns the frame with its empty string, the
    second call the frame read from the file, with a missing value. *)
Lemma maybe_download_failing_fetch_twice :
  (let w1 := snd (dl_maybe_download DownloadExample.target
                    DownloadExample.failing_fetch
                    DownloadExample.empty_world) in
   let w2 := snd (dl_maybe_download DownloadExample.target
                    DownloadExample.failing_fetch w1) in
   fetch_count (trace w2) = 2%nat /\ ~ (fetch_count (trace w2) <= 1)%nat)
  /\ (let first :=
         maybe_download DownloadExample.column_to_csv
           DownloadExample.column_read_csv DownloadExample.target
           DownloadExample.blank_fetch DownloadExample.empty_world in
       let second :=
         maybe_download DownloadExample.column_to_csv
           DownloadExample.column_read_csv DownloadExample.target
           DownloadExample.blank_fetch (snd first) in
       fst first = Ok [Some "http://h/f.csv"; Some ""]
       /\ fst second = Ok [Some "http://h/f.csv"; None]
       /\ fst second <> fst first).
Proof.
  vm_compute. repeat split; try reflexivity; [lia|discriminate].
Qed.

(** C2 (amended) on a fetch that succeeds. *)
Lemma maybe_download_second_call_witness :
  let w1 := snd (dl_maybe_download DownloadExample.target
                   DownloadExample.good_fetch
                   DownloadExample.empty_world) in
  dl_maybe_download DownloadExample.target DownloadExample.good_fetch
    DownloadExample.empty_world = (Ok "url", w1)
  /\ fst (dl_maybe_download DownloadExample.target
            DownloadExample.failing_fetch w1) = Ok "url"
  /\ fetch_count (trace (snd (dl_maybe_download DownloadExample.target
                                DownloadExample.failing_fetch w1)))
     = fetch_count (trace w1).
Proof.
  intros w1.
  assert (dl_maybe_download DownloadExample.target
            DownloadExample.good_fetch DownloadExample.empty_world
          = (Ok "url", w1)) as Hfirst by reflexivity.
  split; [exact Hfirst|].
  destruct (maybe_download_second_call
              DownloadExample.to_csv DownloadExample.read_csv
              DownloadExample.target DownloadExample.good_fetch
              DownloadExample.failing_fetch DownloadExample.empty_world
              w1 "url" Hfirst)
    as (text & _ & _ & Hcount & _ & _ & Hsame).
  split; [exact (Hsame eq_refl)|exact Hcount].
Defined.

(** C9 as stated fails on an exception that is not an HTTP error: the
    message that is printed has the URL of the entry but not its target
    cache path. *)
Lemma process_row_other_error_omits_path :
  let run := dl_process_row DownloadExample.data_root
               DownloadExample.unreachable_row
               DownloadExample.empty_world in
  let message := "error processing http://h/down.csv: Connection refused" in
  fst (dl_row_body DownloadExample.data_root
         DownloadExample.unreachable_row DownloadExample.empty_world)
  = Raise (OtherError "Connection refused")
  /\ row_target DownloadExample.data_root DownloadExample.unreachable_row
     = Ok (path_of "data/raw/NO2/NO/down.csv.xz")
  /\ path_str (path_of "data/raw/NO2/NO/down.csv.xz")
     = "data/raw/NO2/NO/down.csv.xz"
  /\ trace (snd run) = [Fetch; Print message]
  /\ contains "http://h/down.csv" message = true
  /\ contains "data/raw/NO2/NO/down.csv.xz" message = false.
Proof. vm_compute. repeat split; reflexivity. Qed.

(** C9 (amended) on an entry whose server answers 404. *)
Lemma process_row_catches_witness :
  dl_process_row DownloadExample.data_root
    (mkRow "http://h/missing.csv" "data/file_lists/NO2_NO.csv.xz")
    DownloadExample.empty_world
  = (Ok tt,
     {| Download.files := ∅; net := 1%nat;
        trace :=
          [Fetch;
           Print ("error downloading data/raw/NO2/NO/missing.csv.xz from "
                    +:+ "http://h/missing.csv: 404 Client Error: "
                    +:+ "Not Found for url: http://h/missing.csv")] |}).
Proof.
  exact (proj1 (process_row_catches
                  DownloadExample.to_csv DownloadExample.read_csv
                  DownloadExample.session_get DownloadExample.data_root
                  (mkRow "http://h/missing.csv"
                     "data/file_lists/NO2_NO.csv.xz")
                  [] DownloadExample.empty_world)).
Defined.

(** C10 on a file list whose name has two underscores. *)
Lemma process_row_bad_key_witness :
  length (file_list_key (row_path DownloadExample.underscore_row))
  <> 2%nat
  /\ dl_process_row DownloadExample.data_root
       DownloadExample.underscore_row DownloadExample.empty_world
     = (Ok tt,
        {| Download.files := ∅; net := 0%nat;
           trace :=
             [Print ("error processing http://h/x.csv: "
                       +:+ "too many values to unpack (expected 2)")] |}).
Proof.
  assert (length (file_list_key (row_path DownloadExample.underscore_row))
          <> 2%nat) as Hlen by (vm_compute; lia).
  split; [exact Hlen|].
  destruct (process_row_bad_key
              DownloadExample.to_csv DownloadExample.read_csv
              DownloadExample.session_get DownloadExample.data_root
              DownloadExample.underscore_row []
              DownloadExample.empty_world Hlen)
    as (msg & Hmsg & Hrow & _).
  injection Hmsg as <-. exact Hrow.
Defined.

(** C1 fails on six files that all load: the sixth of the sorted names
    is never read, and [observation] gets the rows of five files. *)
Theorem load_observations_six_files :
  let run := ld_load_observations LoadExample.six_files
               LoadExample.loaded_db in
  fst run = Ok tt
  /\ sorted LoadExample.six_files
     = ["f1.csv"; "f2.csv"; "f3.csv"; "f4.csv"; "f5.csv"; "f6.csv"]
  /\ processed (log (snd run))
     = ["f1.csv"; "f2.csv"; "f3.csv"; "f4.csv"; "f5.csv"]
  /\ (ReadCsv "f6.csv" (Observations Utf8) ∉ log (snd run))
  /\ (t_rows <$> db (snd run) !! "observation")
     = Some
         [[VFloat "1.5"; VTime "f1.csv"; VTime "f1.csv"; VInt 1; VInt 1;
           VInt 1; VInt 0];
          [VFloat "1.5"; VTime "f2.csv"; VTime "f2.csv"; VInt 1; VInt 1;
           VInt 1; VInt 0];
          [VFloat "1.5"; VTime "f3.csv"; VTime "f3.csv"; VInt 1; VInt 1;
           VInt 1; VInt 0];
          [VFloat "1.5"; VTime "f4.csv"; VTime "f4.csv"; VInt 1; VInt 1;
           VInt 1; VInt 0];
          [VFloat "1.5"; VTime "f5.csv"; VTime "f5.csv"; VInt 1; VInt 1;
           VInt 1; VInt 0]].
Proof.
  vm_compute. repeat split; try reflexivity.
  intros H.
  repeat (apply elem_of_cons in H as [H|H]; [discriminate|]).
  by apply elem_of_nil in H.
Qed.

(** C3 on a file that is loaded a second time, and on a file that is not
    on the disk. *)
Lemma load_file_handlers_witness :
  ld_load_files ["f1.csv"; "f2.csv"] LoadExample.loaded_once
  = ld_load_files ["f2.csv"]
      {| db := db LoadExample.loaded_once;
         log :=
           [ReadCsv "f1.csv" (Observations Utf8);
            PdToPsql (LoadExample.joined "f1.csv");
            LogWarning ("one or more rows in file f1.csv are already in "
                          +:+ "the database; skipping the entire file.")] |}
  /\ ld_load_files ["gone.csv"; "f2.csv"] LoadExample.loaded_once
     = (Raise (OtherError "No such file or directory"),
        {| db := db LoadExample.loaded_once;
           log :=
             [ReadCsv "gone.csv" (Observations Utf8);
              LogException "error occured for file gone.csv: "] |}).
Proof.
  split.
  - apply (proj1 (load_file_handlers
                    LoadExample.read_csv LoadExample.pd_to_psql
                    LoadExample.station_dim LoadExample.quantity_dim
                    LoadExample.observation_columns
                    "f1.csv" ["f2.csv"] LoadExample.loaded_once)
             (LoadExample.joined "f1.csv")
             {| db := db LoadExample.loaded_once;
                log := [ReadCsv "f1.csv" (Observations Utf8)] |}
             (db LoadExample.loaded_once) "duplicate key value");
      vm_compute; reflexivity.
  - apply (proj2 (load_file_handlers
                    LoadExample.read_csv LoadExample.pd_to_psql
                    LoadExample.station_dim LoadExample.quantity_dim
                    LoadExample.observation_columns
                    "gone.csv" ["f2.csv"] LoadExample.loaded_once)
             (OtherError "No such file or directory")
             {| db := db LoadExample.loaded_once;
                log := [ReadCsv "gone.csv" (Observations Utf8)] |});
      [vm_compute; reflexivity|discriminate].
Defined.

(** C4 on a file that decodes as UTF-16 only, and on a file that decodes
    in neither encoding. *)
Lemma read_falls_back_to_utf16_witness :
  LoadExample.read_csv (Observations Utf8) "utf16.csv"
  = Raise (UnicodeDecodeError "invalid start byte")
  /\ load_file LoadExample.read_csv LoadExample.pd_to_psql
       LoadExample.station_dim LoadExample.quantity_dim
       LoadExample.observation_columns "utf16.csv" LoadExample.loaded_once
     = (Ok tt,
        {| db := fst (LoadExample.pd_to_psql
                        (LoadExample.joined "utf16.csv")
                        (db LoadExample.loaded_once));
           log :=
             [ReadCsv "utf16.csv" (Observations Utf8);
              LogException "error reading utf16.csv: ";
              ReadCsv "utf16.csv" (Observations Utf16);
              PdToPsql (LoadExample.joined "utf16.csv")] |})
  /\ ld_load_files ["bad.csv"; "f2.csv"] LoadExample.loaded_once
     = (Raise (OtherError "Error reading bad.csv: invalid start byte"),
        {| db := db LoadExample.loaded_once;
           log :=
             [ReadCsv "bad.csv" (Observations Utf8);
              LogException "error reading bad.csv: ";
              ReadCsv "bad.csv" (Observations Utf16);
              LogException "error reading bad.csv: ";
              LogException "error occured for file bad.csv: "] |}).
Proof.
  split; [reflexivity|]. split.
  - apply (proj2 (proj1 (read_falls_back_to_utf16
                           LoadExample.read_csv LoadExample.pd_to_psql
                           LoadExample.station_dim LoadExample.quantity_dim
                           LoadExample.observation_columns
                           "utf16.csv" [] LoadExample.loaded_once
                           "invalid start byte" eq_refl)
                    (LoadExample.observations "utf16.csv") eq_refl)
             (LoadExample.joined "utf16.csv"));
      try (vm_compute; reflexivity); decide_now.
  - apply (proj2 (read_falls_back_to_utf16
                    LoadExample.read_csv LoadExample.pd_to_psql
                    LoadExample.station_dim LoadExample.quantity_dim
                    LoadExample.observation_columns
                    "bad.csv" ["f2.csv"] LoadExample.loaded_once
                    "invalid start byte" eq_refl)
             "invalid start byte" eq_refl).
Defined.

(** C5 as stated fails on a file in which every station code is
    missing: the column is read as [float64], pandas refuses to join it
    with the text of [station], and instead of a load without rows the
    run ends with a [ValueError], the next file untouched. *)
Lemma join_refuses_missing_codes :
  let d := normalize_column_names JoinExample.no_codes in
  let run := load_files JoinExample.read_csv LoadExample.pd_to_psql
               LoadExample.station_dim LoadExample.quantity_dim
               LoadExample.observation_columns ["nocodes.csv"; "f2.csv"]
               LoadExample.loaded_db in
  column_dtype FromCsv d "air_quality_station" = Float64
  /\ column_dtype FromSql LoadExample.station_dim "air_quality_station"
     = Object
  /\ (exists msg,
        join_dimensions d LoadExample.station_dim LoadExample.quantity_dim
          LoadExample.observation_columns = Raise (ValueError msg)
        /\ fst run = Raise (ValueError msg))
  /\ join_dimensions d LoadExample.station_dim LoadExample.quantity_dim
       LoadExample.observation_columns
     <> Ok {| columns := LoadExample.observation_columns; rows := [] |}
  /\ log (snd run)
     = [ReadCsv "nocodes.csv" (Observations Utf8);
        LogException "error occured for file nocodes.csv: "]
  /\ db (snd run) = db LoadExample.loaded_db.
Proof.
  vm_compute. repeat split; try reflexivity; [|discriminate].
  eexists. split; reflexivity.
Qed.

(** C5 (amended) on an observations file with one row of a known station
    and one row of an unknown station; on a file with the rows of two
    stations in turn, which come out grouped by station; and on the file
    without station codes. *)
Lemma join_dimensions_inner_join_witness :
  columns (LoadExample.observations "f1.csv") ≡ₚ write_cols ++ extra_cols
  /\ LoadExample.observation_columns
     ⊆ map normalize_name (write_cols ++ extra_cols)
       ++ ["station_id"; "quantity_id"; "recommended_unit"]
  /\ (exists out,
        join_dimensions
          (normalize_column_names (LoadExample.observations "f1.csv"))
          LoadExample.station_dim LoadExample.quantity_dim
          LoadExample.observation_columns = Ok out
        /\ columns out = LoadExample.observation_columns
        /\ rows out ≡ₚ rows (LoadExample.joined "f1.csv"))
  /\ (exists out,
        join_dimensions (normalize_column_names JoinExample.in_turn)
          LoadExample.station_dim LoadExample.quantity_dim
          LoadExample.observation_columns = Ok out
        /\ rows out
           = [[VFloat "1.0"; VTime "t1"; VTime "t2"; VInt 1; VInt 1;
               VInt 0; VInt 0];
              [VFloat "3.0"; VTime "t2"; VTime "t3"; VInt 1; VInt 1;
               VInt 0; VInt 0];
              [VFloat "2.0"; VTime "t1"; VTime "t2"; VInt 1; VInt 1;
               VInt 1; VInt 0]]
        /\ rows out
           ≡ₚ [[VFloat "1.0"; VTime "t1"; VTime "t2"; VInt 1; VInt 1;
                VInt 0; VInt 0];
               [VFloat "2.0"; VTime "t1"; VTime "t2"; VInt 1; VInt 1;
                VInt 1; VInt 0];
               [VFloat "3.0"; VTime "t2"; VTime "t3"; VInt 1; VInt 1;
                VInt 0; VInt 0]])
  /\ (exists msg,
        join_dimensions (normalize_column_names JoinExample.no_codes)
          LoadExample.station_dim LoadExample.quantity_dim
          LoadExample.observation_columns
        = Raise (ValueError msg)
        /\ load_files JoinExample.read_csv LoadExample.pd_to_psql
             LoadExample.station_dim LoadExample.quantity_dim
             LoadExample.observation_columns ["nocodes.csv"; "f2.csv"]
             LoadExample.loaded_db
           = (Raise (ValueError msg),
              {| db := db LoadExample.loaded_db;
                 log := log LoadExample.loaded_db ++
                   [ReadCsv "nocodes.csv" (Observations Utf8);
                    LogException ("error occured for file "
                                    +:+ "nocodes.csv" +:+ ": ")] |})).
Proof.
  assert (columns (LoadExample.observations "f1.csv")
          ≡ₚ write_cols ++ extra_cols) as Hperm by decide_now.
  assert (LoadExample.observation_columns
          ⊆ map normalize_name (write_cols ++ extra_cols)
            ++ ["station_id"; "quantity_id"; "recommended_unit"]) as Hsub.
  { intros c Hc. vm_compute in Hc.
    repeat (apply elem_of_cons in Hc as [->|Hc]; [decide_now|]).
    by apply elem_of_nil in Hc. }
  split; [exact Hperm|]. split; [exact Hsub|]. split; [|split].
  - destruct (proj1 (join_dimensions_inner_join
                       (LoadExample.observations "f1.csv")
                       LoadExample.station_dim LoadExample.quantity_dim
                       LoadExample.observation_columns
                       Hperm eq_refl eq_refl
                       ltac:(repeat constructor) ltac:(repeat constructor)
                       Hsub))
      as (out & Hjoin & Hcols & Hrows & _); [vm_compute; reflexivity..|].
    exists out. split; [exact Hjoin|]. split; [exact Hcols|].
    rewrite Hrows. vm_compute. reflexivity.
  - destruct (proj1 (join_dimensions_inner_join
                       JoinExample.in_turn
                       LoadExample.station_dim LoadExample.quantity_dim
                       LoadExample.observation_columns
                       Hperm eq_refl eq_refl
                       ltac:(repeat constructor) ltac:(repeat constructor)
                       Hsub))
      as (out & Hjoin & _ & Hrows & _); [vm_compute; reflexivity..|].
    exists out. split; [exact Hjoin|].
    assert (rows out
            = [[VFloat "1.0"; VTime "t1"; VTime "t2"; VInt 1; VInt 1;
                VInt 0; VInt 0];
               [VFloat "3.0"; VTime "t2"; VTime "t3"; VInt 1; VInt 1;
                VInt 0; VInt 0];
               [VFloat "2.0"; VTime "t1"; VTime "t2"; VInt 1; VInt 1;
                VInt 1; VInt 0]]) as Hout.
    { assert (Ok out
              = join_dimensions (normalize_column_names JoinExample.in_turn)
                  LoadExample.station_dim LoadExample.quantity_dim
                  LoadExample.observation_columns) as Heq by done.
      vm_compute in Heq. by injection Heq as ->. }
    split; [exact Hout|]. rewrite Hrows. vm_compute. reflexivity.
  - destruct (proj2 (join_dimensions_inner_join
                       JoinExample.no_codes
                       LoadExample.station_dim LoadExample.quantity_dim
                       LoadExample.observation_columns
                       Hperm eq_refl eq_refl
                       ltac:(repeat constructor)
                       ltac:(repeat constructor) Hsub)
               ltac:(left; vm_compute; reflexivity)
               ltac:(vm_compute; reflexivity))
      as (msg & Hjoin & Hrun).
    exists msg. split; [exact Hjoin|].
    apply (Hrun JoinExample.read_csv LoadExample.pd_to_psql
             "nocodes.csv" ["f2.csv"] LoadExample.loaded_db eq_refl).
Defined.

(** C6 as stated fails once [observation] references [station]: after
    the command [meta] has run, a second load of a station file raises,
    and [station] keeps the two rows of the first file instead of the
    one row of the second. *)
Lemma load_metadata_refused_after_setup :
  let w := CommandExample.set_up_db in
  let run := load_metadata LoadExample.read_csv "stations2.csv" w in
  referenced "station" (db w)
  /\ LoadExample.read_csv Stations "stations2.csv"
     = Ok LoadExample.shorter_stations
  /\ (t_rows <$> db w !! "station")
     = Some [[VInt 0; VStr "STA-1"; VInt 3]; [VInt 1; VStr "STA-2"; VInt 40]]
  /\ (exists msg, fst run = Raise (OtherError msg))
  /\ (t_rows <$> db (snd run) !! "station")
     = Some [[VInt 0; VStr "STA-1"; VInt 3]; [VInt 1; VStr "STA-2"; VInt 40]]
  /\ (t_rows <$> db (snd run) !! "station")
     <> Some [[VInt 0; VStr "STA-7"; VInt 12]].
Proof.
  split; [apply (bool_decide_unpack _); vm_compute; reflexivity|].
  vm_compute. repeat split; try reflexivity; [by eexists|discriminate].
Qed.

(** C6 (amended) on a station file with two stations followed by a
    station file with one, in a database whose [observation] declares no
    foreign key; and on the second file in a database whose
    [observation] references [station]. *)
Lemma load_dimension_replaces_witness :
  LoadExample.read_csv Stations "stations2.csv"
  = Ok LoadExample.shorter_stations
  /\ LoadExample.read_csv Quantities "pollutants.csv"
     = Ok LoadExample.quantities
  /\ (exists w2,
        load_metadata LoadExample.read_csv "stations2.csv"
          (snd (load_metadata LoadExample.read_csv "stations.csv"
                  LoadExample.fresh_db)) = (Ok tt, w2)
        /\ db w2 !! "station" =
            Some {| t_columns := ["station_id"; "air_quality_station";
                                  "altitude"];
                    t_rows := [[VInt 0; VStr "STA-7"; VInt 12]];
                    t_pkey := Some "station_id";
                    t_fkeys := [] |})
  /\ (exists msg,
        load_metadata LoadExample.read_csv "stations2.csv"
          CommandExample.set_up_db
        = (Raise (OtherError msg),
           {| db := db CommandExample.set_up_db;
              log := log CommandExample.set_up_db
                     ++ [ReadCsv "stations2.csv" Stations] |})).
Proof.
  split; [reflexivity|]. split; [reflexivity|].
  split.
  - destruct (proj1 (load_dimension_replaces
                       LoadExample.read_csv
                       "stations.csv" "stations2.csv"
                       "pollutants.csv" "pollutants.csv"
                       LoadExample.fresh_db
                       LoadExample.shorter_stations LoadExample.quantities
                       eq_refl eq_refl
                       ltac:(decide_now) ltac:(decide_now)
                       ltac:(decide_now) ltac:(decide_now)))
      as (w2 & Hrun & Hdb & _).
    { apply (bool_decide_unpack _). vm_compute. reflexivity. }
    exists w2. split; [exact Hrun|exact Hdb].
  - apply (proj1 (proj2 (proj2 (load_dimension_replaces
                       LoadExample.read_csv
                       "stations.csv" "stations2.csv"
                       "pollutants.csv" "pollutants.csv"
                       CommandExample.set_up_db
                       LoadExample.shorter_stations LoadExample.quantities
                       eq_refl eq_refl
                       ltac:(decide_now) ltac:(decide_now)
                       ltac:(decide_now) ltac:(decide_now)))));
      apply (bool_decide_unpack _); vm_compute; reflexivity.
Defined.

(** C8 as stated fails on a run that is stopped by a file that cannot be
    decoded: the file after it in the sorted list is not worked on. *)
Lemma load_observations_stops_at_undecodable :
  let run := ld_load_observations ["c.csv"; "bad.csv"]
               LoadExample.loaded_db in
  sorted ["c.csv"; "bad.csv"] = ["bad.csv"; "c.csv"]
  /\ processed (log (snd run)) = ["bad.csv"]
  /\ processed (log (snd run)) <> sorted ["c.csv"; "bad.csv"].
Proof. vm_compute. repeat split; try reflexivity. discriminate. Qed.

(** C8 (amended) on six files given in two different orders. *)
Lemma load_observations_sorted_prefix_witness :
  (exists k,
      processed (log (snd (ld_load_observations LoadExample.six_files
                             LoadExample.loaded_db)))
      = processed (log LoadExample.loaded_db)
        ++ take k (sorted LoadExample.six_files))
  /\ ld_load_observations (reverse LoadExample.six_files)
       LoadExample.loaded_db
     = ld_load_observations LoadExample.six_files LoadExample.loaded_db.
Proof.
  destruct (load_observations_sorted_prefix
              LoadExample.read_csv LoadExample.pd_to_psql
              LoadExample.six_files LoadExample.loaded_db)
    as (Hk & _ & _ & Hperm).
  split; [exact Hk|]. apply Hperm. decide_now.
Defined.

End Examples.

(** ** Further properties of [download.py] *)

(** *** Splitting and joining strings *)

Section StringFacts.

Lemma str_app_nil (s : string) : "" +:+ s = s.
Proof. reflexivity. Qed.

Lemma str_app_cons c (a b : string) :
  String c a +:+ b = String c (a +:+ b).
Proof. reflexivity. Qed.

Lemma str_app_assoc (a b c : string) :
  (a +:+ b) +:+ c = a +:+ (b +:+ c).
Proof.
  induction a as [|x a IH]; [done|]. rewrite !str_app_cons. by f_equal.
Qed.

Lemma has_char_app c (a b : string) :
  has_char c (a +:+ b) = has_char c a || has_char c b.
Proof.
  induction a as [|x a IH]; [done|]. rewrite str_app_cons. simpl.
  by rewrite IH, orb_assoc.
Qed.

Lemma str_split_not_nil sep s : str_split sep s <> [].
Proof.
  destruct s as [|c s]; simpl; [done|].
  destruct (Ascii.eqb c sep); [done|].
  by destruct (str_split sep s).
Qed.

(** A string without the separator is its own single part. *)
Lemma str_split_no_sep sep s :
  has_char sep s = false -> str_split sep s = [s].
Proof.
  induction s as [|c s IH]; simpl; [done|].
  intros [Hc Hs]%orb_false_elim. rewrite Hc, IH by done. done.
Qed.

(** [(a + sep + b).split(sep) == a.split(sep) + b.split(sep)]. *)
Lemma str_split_app sep (a b : string) :
  str_split sep (a +:+ String sep b) = str_split sep a ++ str_split sep b.
Proof.
  induction a as [|c a IH].
  - rewrite str_app_nil. simpl. by rewrite Ascii.eqb_refl.
  - rewrite str_app_cons. simpl.
    destruct (Ascii.eqb c sep); [by rewrite IH|].
    rewrite IH. pose proof (str_split_not_nil sep a).
    by destruct (str_split sep a).
Qed.

(** No part has the separator, nor any character the string lacks. *)
Lemma str_split_parts sep s p :
  p ∈ str_split sep s ->
  has_char sep p = false
  /\ forall c, has_char c s = false -> has_char c p = false.
Proof.
  revert p. induction s as [|x s IH]; simpl; intros p.
  - intros ->%list_elem_of_singleton. done.
  - destruct (Ascii.eqb x sep) eqn:Hx.
    + intros [->|Hp]%elem_of_cons; [split; [done|]; by intros|].
      destruct (IH p Hp) as [H1 H2]. split; [done|].
      intros c [_ Hc]%orb_false_elim. auto.
    + pose proof (str_split_not_nil sep s).
      destruct (str_split sep s) as [|q qs]; [done|].
      intros [->|Hp]%elem_of_cons.
      * destruct (IH q) as [H1 H2]; [left|]. simpl. rewrite Hx, H1.
        split; [done|]. intros c [Hc1 Hc2]%orb_false_elim.
        by rewrite Hc1, H2.
      * destruct (IH p) as [H1 H2]; [by right|]. split; [done|].
        intros c [_ Hc]%orb_false_elim. auto.
Qed.

(** A string with the character [c] falls into the part before its first
    occurrence and the rest. *)
Lemma has_char_first c s :
  has_char c s = true ->
  exists a b, s = a +:+ String c b /\ has_char c a = false.
Proof.
  induction s as [|x s IH]; simpl; [done|].
  destruct (Ascii.eqb_spec x c) as [->|Hne]; simpl.
  - intros _. by exists "", s.
  - intros (a & b & -> & Ha)%IH. exists (String x a), b.
    rewrite str_app_cons. simpl.
    split; [done|]. rewrite Ha. by destruct (Ascii.eqb_spec x c).
Qed.

Lemma has_char_prefix c s :
  has_char c s = false -> String.prefix (String c "") s = false.
Proof.
  destruct s as [|x s]; simpl; [done|].
  intros [Hx _]%orb_false_elim.
  destruct (ascii_dec c x) as [->|]; [|done].
  by rewrite Ascii.eqb_refl in Hx.
Qed.

(** [sep.join(parts).split(sep) == parts] when no part has the
    separator. *)
Lemma str_split_join sep (l : list string) :
  l <> [] ->
  Forall (fun p => has_char sep p = false) l ->
  str_split sep (str_join (String sep "") l) = l.
Proof.
  induction l as [|p l IH]; [done|]. intros _ Hl.
  apply Forall_cons in Hl as [Hp Hl].
  destruct l as [|q l].
  - by apply str_split_no_sep.
  - change (str_join (String sep "") (p :: q :: l))
      with (p +:+ String sep "" +:+ str_join (String sep "") (q :: l)).
    rewrite str_app_cons, str_app_nil.
    rewrite str_split_app, str_split_no_sep by done.
    simpl. f_equal. by apply IH.
Qed.

End StringFacts.

(** *** Paths of the cache *)

Section PathFacts.

Import Download Stages.

Lemma last_default_or_elem {A} (l : list A) d :
  List.last l d = d \/ List.last l d ∈ l.
Proof.
  induction l as [|x l IH]; [by left|].
  destruct l as [|y l]; [right; left|].
  change (List.last (x :: y :: l) d) with (List.last (y :: l) d).
  destruct IH as [IH|IH]; [by left|right; by right].
Qed.

Lemma filter_ext_in {A} (P Q : A -> Prop)
    `{!forall x, Decision (P x), !forall x, Decision (Q x)} (l : list A) :
  (forall x, x ∈ l -> P x <-> Q x) -> filter P l = filter Q l.
Proof.
  induction l as [|x l IH]; intros Hext; [done|].
  assert (filter P l = filter Q l) as Hl
    by (apply IH; intros y Hy; apply Hext; by right).
  assert (P x <-> Q x) as Hx by (apply Hext; left).
  destruct (decide (P x)) as [HP|HP].
  - rewrite !filter_cons_True by tauto. by f_equal.
  - rewrite !filter_cons_False by tauto. done.
Qed.

Lemma filter_all {A} (P : A -> Prop) `{!forall x, Decision (P x)}
    (l : list A) :
  Forall P l -> filter P l = l.
Proof.
  induction 1 as [|x l Hx Hl IH]; [done|].
  rewrite filter_cons_True by done. by f_equal.
Qed.

Lemma path_of_normal s : normal (path_of s).
Proof.
  apply Forall_forall. intros q [Hq Hin]%list_elem_of_filter.
  split; [|done]. exact (proj1 (str_split_parts _ _ _ Hin)).
Qed.

Lemma name_no_slash s : has_char "/" (name (path_of s)) = false.
Proof.
  unfold name. destruct (last_default_or_elem (parts (path_of s)) "")
    as [->|Hin]; [done|].
  by apply (proj1 (Forall_forall _ _) (path_of_normal s)) in Hin as [? _].
Qed.

(** [Path(str(p)) == p] for the components. *)
Lemma path_of_path_str (p : Path) :
  normal p -> parts p <> [] -> parts (path_of (path_str p)) = parts p.
Proof.
  intros Hp Hne. unfold path_of, path_str. simpl.
  assert (str_split "/" (str_join "/" (parts p)) = parts p) as Hsplit.
  { apply (str_split_join "/"); [done|].
    eapply Forall_impl; [exact Hp|]. by intros q [? _]. }
  assert (filter (fun q => is_component q = true) (parts p) = parts p)
    as Hfilter.
  { apply filter_all. eapply Forall_impl; [exact Hp|]. by intros q [_ ?]. }
  destruct (absolute p).
  - change ("/" +:+ ?x) with ("" +:+ String "/" x).
    rewrite str_split_app, Hsplit. simpl.
    rewrite filter_cons_False by done. exact Hfilter.
  - destruct (parts p) as [|q l] eqn:Hparts; [done|].
    rewrite Hsplit. exact Hfilter.
Qed.

Lemma is_component_no_dot q :
  has_char "." q = false -> is_component q = negb (String.eqb q "").
Proof.
  intros Hq. unfold is_component.
  destruct (String.eqb_spec q ".") as [->|]; [done|].
  by rewrite andb_true_r.
Qed.

(** The parts of the key of a file list have no [/], no [.] and no
    [_]. *)
Lemma file_list_key_chars s p :
  p ∈ file_list_key s ->
  has_char "/" p = false /\ has_char "." p = false
  /\ has_char "_" p = false.
Proof.
  unfold file_list_key. intros Hp.
  set (n := name (path_of s)) in *.
  assert (List.hd "" (str_split "." n) ∈ str_split "." n) as Hhd.
  { pose proof (str_split_not_nil "." n).
    destruct (str_split "." n); [done|left]. }
  destruct (str_split_parts _ _ _ Hhd) as [Hdot Hother].
  destruct (str_split_parts _ _ _ Hp) as [Hus Hother'].
  split; [|by auto].
  apply Hother', Hother, name_no_slash.
Qed.

(** The name of the cached file list of a pollutant and a country. *)
Lemma file_list_name root p c :
  has_char "/" p = false -> has_char "/" c = false ->
  name (path_of (path_str (file_list_path (path_of root) p c)))
  = p +:+ "_" +:+ c +:+ ".csv.xz".
Proof.
  intros Hp Hc. set (x := p +:+ "_" +:+ c +:+ ".csv.xz").
  assert (has_char "/" x = false) as Hx
    by (unfold x; by rewrite !has_char_app, Hp, Hc).
  assert (is_component x = true) as Hcomp.
  { assert (has_char "_" x = true) as Hus.
    { unfold x. rewrite !has_char_app.
      change (has_char "_" "_") with true. by rewrite orb_true_r. }
    unfold is_component.
    destruct (String.eqb_spec x "") as [E|_]; [by rewrite E in Hus|].
    destruct (String.eqb_spec x ".") as [E|_]; [by rewrite E in Hus|].
    done. }
  assert (path_of ("file_lists/" +:+ x)
          = {| absolute := false; parts := ["file_lists"; x] |}) as Hpath.
  { unfold path_of.
    change ("file_lists/" +:+ x) with ("file_lists" +:+ String "/" x).
    rewrite str_split_app, (str_split_no_sep "/" x) by done.
    change (str_split "/" "file_lists") with ["file_lists"].
    change (String.prefix "/" ("file_lists" +:+ String "/" x)) with false.
    cbn [app]. f_equal.
    rewrite !filter_cons_True by done. done. }
  unfold file_list_path. fold x. rewrite Hpath. unfold joinpath. simpl.
  unfold name. rewrite path_of_path_str.
  - transitivity
      (List.last ((parts (path_of root) ++ ["file_lists"]) ++ [x]) "");
      [by rewrite <- app_assoc|apply last_last].
  - unfold normal. simpl. apply Forall_app. split; [apply path_of_normal|].
    repeat constructor; done.
  - simpl. by intros [_ ?]%app_eq_nil.
Qed.

End PathFacts.

(** *** The pass over the file lists' rows *)

Section DownloadMore.

Import Download Stages.

Context {Frame Net : Type}.
Variable to_csv : Frame -> string.
Variable read_csv : string -> result Frame.
Variable session_get : string -> Net -> result Response * Net.

#[local] Abbreviation maybe_download := (maybe_download to_csv read_csv).
#[local] Abbreviation process_row :=
  (process_row to_csv read_csv session_get).
#[local] Abbreviation row_body := (row_body to_csv read_csv session_get).
#[local] Abbreviation download_rows :=
  (download_rows to_csv read_csv session_get).
#[local] Abbreviation download_data_file :=
  (download_data_file read_csv session_get).

Lemma fetch_count_print m : fetch_count [Print m] = 0%nat.
Proof. reflexivity. Qed.

Lemma maybe_download_step fname (f : fetch Frame Net) (w : World Net) :
  step_ok (exists_ fname w) w (snd (maybe_download fname f w)).
Proof.
  destruct (exists_ fname w) eqn:Hex.
  - apply exists_true in Hex as [text Htext].
    rewrite (maybe_download_hit _ _ _ _ _ _ Htext). simpl.
    split; simpl; rewrite ?fetch_count_app, ?fetch_count_read;
      [done|lia|intros _; repeat split; lia].
  - rewrite maybe_download_miss by done.
    apply exists_false in Hex.
    destruct (f (net w)) as [[data|e] n]; simpl;
      (split; simpl;
       rewrite ?fetch_count_app, ?fetch_count_stored, ?fetch_count_fetch;
       [|lia|done]); [by apply insert_subseteq|done].
Qed.

(** The loop body always hands back control. *)
Lemma process_row_outcome data_root row (w : World Net) :
  process_row data_root row w =
    (Ok tt,
     row_outcome data_root row (fst (row_body data_root row w))
       (snd (row_body data_root row w))).
Proof.
  destruct (row_body data_root row w) as [r w1] eqn:Hbody.
  unfold Download.process_row, try_except. rewrite Hbody. simpl.
  destruct r as [[]|e]; [reflexivity|].
  destruct e; try reflexivity.
  destruct (row_body_HTTPError _ _ _ _ _ _ _ _ Hbody) as [path Hpath].
  simpl. rewrite Hpath. reflexivity.
Qed.

Lemma row_body_eq data_root row (w : World Net) :
  row_body data_root row w =
    match row_target data_root row with
    | Raise e => (Raise e, w)
    | Ok path =>
        match maybe_download path (download_data_file (row_url row)) w with
        | (Ok _, w') => (Ok tt, w')
        | (Raise e, w') => (Raise e, w')
        end
    end.
Proof.
  unfold Download.row_body, mbind, M_bind, bind, lift.
  destruct (row_target data_root row) as [path|e]; [|reflexivity].
  by destruct (maybe_download _ _ w) as [[d|e] w'].
Qed.

Lemma process_row_step data_root row (w : World Net) :
  step_ok
    (match row_target data_root row with
     | Ok path => exists_ path w
     | Raise _ => true
     end)
    w (snd (process_row data_root row w)).
Proof.
  rewrite process_row_outcome, row_body_eq. simpl.
  destruct (row_target data_root row) as [path|e] eqn:Htarget.
  - pose proof (maybe_download_step path
                  (download_data_file (row_url row)) w) as [Hf Hn Hc].
    destruct (maybe_download _ _ w) as [[d|e] w']; simpl in *;
      [by split|].
    destruct e; simpl;
      (split; simpl; rewrite ?fetch_count_app, ?fetch_count_print;
       [done|lia|intros Hex; destruct (Hc Hex) as (? & ? & ?);
                 repeat split; [done..|lia]]).
  - destruct e; simpl;
      (split; simpl; rewrite ?fetch_count_app, ?fetch_count_print;
       [done|lia|intros _; repeat split; lia]).
Qed.

Lemma download_rows_step data_root row rows (w : World Net) :
  download_rows data_root (row :: rows) w =
    download_rows data_root rows (snd (process_row data_root row w)).
Proof.
  simpl. unfold mbind, M_bind, bind.
  rewrite process_row_outcome. reflexivity.
Qed.

(** X1: the pass over the rows of the file lists never raises, whatever
    the rows, the cache and the remote side are. *)
Theorem download_rows_never_raises data_root rows (w : World Net) :
  fst (download_rows data_root rows w) = Ok tt.
Proof.
  revert w. induction rows as [|row rows IH]; intros w; [done|].
  rewrite download_rows_step. apply IH.
Qed.

(** X2: the pass never removes or changes a file that is in the cache:
    every stored path keeps its text. *)
Theorem download_rows_keeps_files data_root rows (w : World Net) path text :
  files w !! path = Some text ->
  files (snd (download_rows data_root rows w)) !! path = Some text.
Proof.
  revert w. induction rows as [|row rows IH]; intros w Hpath; [done|].
  rewrite download_rows_step. apply IH.
  eapply lookup_weaken; [exact Hpath|].
  apply (step_files _ _ _ (process_row_step data_root row w)).
Qed.

(** X3: a pass over rows whose cache paths are all stored makes no fetch
    and leaves the cache and the remote side as they are. *)
Theorem download_rows_cached data_root rows (w : World Net) :
  (forall row path,
      row ∈ rows -> row_target data_root row = Ok path ->
      exists_ path w = true) ->
  let w' := snd (download_rows data_root rows w) in
  files w' = files w /\ net w' = net w
  /\ fetch_count (trace w') = fetch_count (trace w).
Proof.
  revert w. induction rows as [|row rows IH]; intros w Hcached; [done|].
  rewrite download_rows_step.
  destruct (step_cached _ _ _ (process_row_step data_root row w))
    as (Hf & Hn & Hc).
  { destruct (row_target data_root row) as [path|e] eqn:Ht; [|done].
    apply (Hcached row); [left|exact Ht]. }
  destruct (IH (snd (process_row data_root row w))) as (Hf' & Hn' & Hc').
  { intros row' path Hin Ht. unfold exists_. rewrite Hf.
    apply (Hcached row'); [by right|exact Ht]. }
  cbv zeta. rewrite Hf', Hn', Hc'. done.
Qed.

(** X4: a pass makes at most one fetch for each row. *)
Theorem download_rows_fetch_bound data_root rows (w : World Net) :
  (fetch_count (trace (snd (download_rows data_root rows w)))
   <= fetch_count (trace w) + length rows)%nat.
Proof.
  revert w. induction rows as [|row rows IH]; intros w; [simpl; lia|].
  rewrite download_rows_step.
  pose proof (step_fetches _ _ _ (process_row_step data_root row w)).
  specialize (IH (snd (process_row data_root row w))). simpl. lia.
Qed.

(** X5: the cache path of an entry lies under [raw] in the data root:
    it is the root, then [raw], then the pollutant and the country of
    the file list (an empty one left out), then the last component of
    the URL with [.xz] added.  None of the added components has a [/]
    or is [..]. *)
Theorem row_target_layout data_root row path :
  row_target data_root row = Ok path ->
  exists pollutant country_code,
    file_list_key (row_path row) = [pollutant; country_code]
    /\ absolute path = absolute data_root
    /\ let added :=
         "raw" :: filter (fun p => p <> "") [pollutant; country_code]
         ++ [name (path_of (row_url row)) +:+ ".xz"] in
       parts path = parts data_root ++ added
       /\ Forall (fun p => has_char "/" p = false /\ p <> "..") added.
Proof using.
  unfold row_target. intros Htarget.
  destruct (file_list_key (row_path row)) as [|p [|c [|? ?]]] eqn:Hkey;
    try discriminate.
  injection Htarget as <-. exists p, c. split; [done|].
  destruct (file_list_key_chars (row_path row) p) as (Hp1 & Hp2 & _);
    [rewrite Hkey; left|].
  destruct (file_list_key_chars (row_path row) c) as (Hc1 & Hc2 & _);
    [rewrite Hkey; right; left|].
  set (n := name (path_of (row_url row))).
  assert (has_char "/" (n +:+ ".xz") = false) as Hn
    by (rewrite has_char_app; unfold n; by rewrite name_no_slash).
  assert (n +:+ ".xz" <> "" /\ n +:+ ".xz" <> "." /\ n +:+ ".xz" <> "..")
    as (Hn0 & Hn1 & Hn2).
  { destruct n as [|? [|? [|? ?]]]; repeat split; discriminate. }
  assert (path_of ("raw/" +:+ p +:+ "/" +:+ c)
          = {| absolute := false;
               parts := "raw" :: filter (fun p => p <> "") [p; c] |})
    as Hmid.
  { unfold path_of.
    change ("raw/" +:+ p +:+ "/" +:+ c)
      with ("raw" +:+ String "/" (p +:+ String "/" c)).
    rewrite !str_split_app, !str_split_no_sep by done.
    change (str_split "/" "raw") with ["raw"].
    change (String.prefix "/" ("raw" +:+ String "/" (p +:+ String "/" c)))
      with false.
    cbn [app]. f_equal. rewrite filter_cons_True by done. f_equal.
    apply filter_ext_in. intros q Hq.
    assert (has_char "." q = false) as Hdot.
    { apply elem_of_cons in Hq as [->|Hq]; [done|].
      by apply list_elem_of_singleton in Hq as ->. }
    rewrite (is_component_no_dot q Hdot).
    destruct (String.eqb_spec q ""); simpl; split; intros; congruence. }
  assert (path_of (n +:+ ".xz")
          = {| absolute := false; parts := [n +:+ ".xz"] |}) as Hlast.
  { unfold path_of. rewrite str_split_no_sep by done.
    rewrite (has_char_prefix "/") by done. f_equal.
    rewrite filter_cons_True; [done|]. unfold is_component.
    destruct (String.eqb_spec (n +:+ ".xz") ""); [done|].
    by destruct (String.eqb_spec (n +:+ ".xz") "."). }
  unfold raw_path. fold n. rewrite Hmid, Hlast. unfold joinpath. simpl.
  split; [done|]. split; [by rewrite <- app_assoc|].
  apply Forall_cons. split; [done|]. apply Forall_app. split.
  - apply Forall_forall. intros q [_ Hq]%list_elem_of_filter.
    apply elem_of_cons in Hq as [->|Hq];
      [|apply list_elem_of_singleton in Hq as ->];
      (split; [done|]; intros E; by rewrite E in *).
  - by repeat constructor.
Qed.

(** X6: the name of a cached file list gives back the pollutant and the
    country it was stored for, when neither has a [/], a [.] or a [_];
    the entries of that file list are then stored under
    [raw/pollutant/country]. *)
Theorem file_list_key_round_trip root pollutant country_code url :
  has_char "/" pollutant = false -> has_char "." pollutant = false ->
  has_char "_" pollutant = false ->
  has_char "/" country_code = false -> has_char "." country_code = false ->
  has_char "_" country_code = false ->
  let stored :=
    path_str (file_list_path (path_of root) pollutant country_code) in
  file_list_key stored = [pollutant; country_code]
  /\ row_target (path_of root) (mkRow url stored)
     = Ok (raw_path (path_of root) pollutant country_code url).
Proof.
  intros Hp1 Hp2 Hp3 Hc1 Hc2 Hc3 stored.
  assert (file_list_key stored = [pollutant; country_code]) as Hkey.
  { unfold file_list_key, stored. rewrite file_list_name by done.
    replace (pollutant +:+ "_" +:+ country_code +:+ ".csv.xz")
      with ((pollutant +:+ String "_" country_code) +:+ String "." "csv.xz")
      by (rewrite !str_app_assoc; reflexivity).
    rewrite (str_split_app "."), (str_split_no_sep ".")
      by (by rewrite has_char_app, Hp2; simpl; rewrite Hc2).
    cbn [app List.hd].
    by rewrite (str_split_app "_"), !(str_split_no_sep "_"). }
  split; [exact Hkey|]. unfold row_target. simpl. by rewrite Hkey.
Qed.

Lemma process_row_unpack_raises data_root row (w : World Net) e :
  unpack2 (file_list_key (row_path row)) = Raise e ->
  process_row data_root row w =
    (Ok tt,
     {| files := files w; net := net w;
        trace := trace w ++
          [Print ("error processing " +:+ row_url row +:+ ": "
                    +:+ exn_str e)] |}).
Proof.
  intros Hu. destruct (unpack2_raises _ _ Hu) as [m ->].
  rewrite process_row_outcome, row_body_eq. unfold row_target.
  rewrite Hu. reflexivity.
Qed.

(** X7: the file list of a pollutant whose notation has a [.] (and no
    [_] or [/]) is never used: the name of its file is cut at the first
    [.], one part is left to unpack, and each of its entries is reported
    and skipped. *)
Theorem dotted_pollutant_skipped
    root pollutant country_code url (w : World Net) :
  has_char "." pollutant = true ->
  has_char "_" pollutant = false -> has_char "/" pollutant = false ->
  has_char "/" country_code = false ->
  let stored :=
    path_str (file_list_path (path_of root) pollutant country_code) in
  length (file_list_key stored) = 1%nat
  /\ process_row (path_of root) (mkRow url stored) w =
       (Ok tt,
        {| files := files w; net := net w;
           trace := trace w ++
             [Print ("error processing " +:+ url +:+ ": not enough "
                       +:+ "values to unpack (expected 2, got 1)")] |}).
Proof.
  intros Hdot Hus Hp Hc stored.
  destruct (has_char_first _ _ Hdot) as (a & b & Hab & Ha).
  assert (has_char "_" a = false) as Hausc.
  { rewrite Hab, has_char_app in Hus.
    by apply orb_false_elim in Hus as [? _]. }
  assert (file_list_key stored = [a]) as Hkey.
  { unfold file_list_key, stored. rewrite file_list_name by done.
    rewrite Hab, str_app_assoc, str_app_cons.
    rewrite (str_split_app "."), (str_split_no_sep "." a) by done.
    cbn [app List.hd]. by apply str_split_no_sep. }
  split; [by rewrite Hkey|].
  rewrite (process_row_unpack_raises _ _ _
             (ValueError "not enough values to unpack (expected 2, got 1)"));
    [reflexivity|].
  simpl. rewrite Hkey. reflexivity.
Qed.

Lemma raise_for_status_error url (r : Response) :
  (400 <= status_code r < 600)%nat ->
  exists m, raise_for_status url r = Raise (HTTPError m).
Proof.
  intros Hs. unfold raise_for_status.
  assert ((400 <=? status_code r)%nat = true) as -> by (apply Nat.leb_le; lia).
  destruct (decide (status_code r < 500)%nat).
  - assert ((status_code r <? 500)%nat = true) as ->
      by (apply Nat.ltb_lt; lia).
    cbn [andb]. eauto.
  - assert ((status_code r <? 500)%nat = false) as ->
      by (apply Nat.ltb_ge; lia).
    assert ((500 <=? status_code r)%nat = true) as ->
      by (apply Nat.leb_le; lia).
    assert ((status_code r <? 600)%nat = true) as ->
      by (apply Nat.ltb_lt; lia).
    cbn [andb]. eauto.
Qed.

Lemma raise_for_status_ok url (r : Response) :
  (status_code r < 400 \/ 600 <= status_code r)%nat ->
  raise_for_status url r = Ok tt.
Proof.
  intros Hs. unfold raise_for_status.
  destruct Hs as [Hs|Hs].
  - assert ((400 <=? status_code r)%nat = false) as ->
      by (apply Nat.leb_gt; lia).
    assert ((500 <=? status_code r)%nat = false) as ->
      by (apply Nat.leb_gt; lia).
    reflexivity.
  - assert ((status_code r <? 500)%nat = false) as ->
      by (apply Nat.ltb_ge; lia).
    assert ((status_code r <? 600)%nat = false) as ->
      by (apply Nat.ltb_ge; lia).
    by rewrite !andb_false_r.
Qed.

(** X8: when the server answers an entry that is not in the cache with
    an error status (400 to 599), nothing is stored, and the path and
    the URL of the entry are printed with the error. *)
Theorem process_row_error_status
    data_root row path (w : World Net) response n :
  row_target data_root row = Ok path ->
  exists_ path w = false ->
  session_get (row_url row) (net w) = (Ok response, n) ->
  (400 <= status_code response < 600)%nat ->
  exists m,
    raise_for_status (row_url row) response = Raise (HTTPError m)
    /\ process_row data_root row w =
         (Ok tt,
          {| files := files w; net := n;
             trace := trace w ++
               [Fetch;
                Print ("error downloading " +:+ path_str path
                         +:+ " from " +:+ row_url row +:+ ": " +:+ m)] |}).
Proof.
  intros Htarget Hmiss Hget Hstatus.
  destruct (raise_for_status_error (row_url row) response Hstatus)
    as [m Hm].
  exists m. split; [exact Hm|].
  rewrite process_row_outcome, row_body_eq, Htarget.
  rewrite maybe_download_miss by done.
  unfold Download.download_data_file. rewrite Hget, Hm. simpl.
  rewrite Htarget, <- app_assoc. reflexivity.
Qed.

(** X9: an entry that is not in the cache and whose server answers
    without an error status is stored only if the body parses: what is
    stored then is the CSV text of the parsed frame; when the parser
    raises, nothing is stored and the entry is reported. *)
Theorem process_row_stores_parsed
    data_root row path (w : World Net) response n :
  row_target data_root row = Ok path ->
  exists_ path w = false ->
  session_get (row_url row) (net w) = (Ok response, n) ->
  (status_code response < 400 \/ 600 <= status_code response)%nat ->
  match read_csv (content response) with
  | Ok data =>
      process_row data_root row w =
        (Ok tt,
         {| files := <[path_str path := to_csv data]> (files w);
            net := n;
            trace := trace w ++
              [Fetch; Makedirs (path_str (parent path));
               WriteFile (path_str path)] |})
  | Raise e =>
      files (snd (process_row data_root row w)) = files w
      /\ exists msg,
          trace (snd (process_row data_root row w))
          = trace w ++ [Fetch; Print msg]
  end.
Proof.
  intros Htarget Hmiss Hget Hstatus.
  pose proof (raise_for_status_ok (row_url row) response Hstatus) as Hok.
  rewrite process_row_outcome, row_body_eq, Htarget.
  rewrite maybe_download_miss by done.
  unfold Download.download_data_file. rewrite Hget, Hok.
  destruct (read_csv (content response)) as [data|e]; simpl; [done|].
  split; [by destruct e|].
  destruct e; simpl; rewrite <- app_assoc; eauto.
Qed.

End DownloadMore.

(** *** The stages of [main] *)

Section MainFacts.

Import Download Stages.

Context {Frame Net : Type}.
Variable to_csv : Frame -> string.
Variable read_csv : string -> result Frame.
Variable session_get : string -> Net -> result Response * Net.
Variable read_tsv : string -> result Frame.
Variable read_url_list : string -> result Frame.
Variable table_rows :
  string -> result (list (result string * result (list string))).
Variable pollutant_urls : Frame -> result (list string).
Variable frame_of_records : list (list (string * string)) -> Frame.
Variable merge_left : Frame -> Frame -> result Frame.
Variable file_parameters : Frame -> result (list (string * string)).
Variable read_file_lists : Path -> gmap string string -> result (list Row).

#[local] Abbreviation maybe_download := (maybe_download to_csv read_csv).
#[local] Abbreviation get_checked := (get_checked session_get).
#[local] Abbreviation download_metadata :=
  (download_metadata session_get read_tsv).
#[local] Abbreviation pollutant_records :=
  (pollutant_records session_get table_rows).
#[local] Abbreviation download_pollutant_metadata :=
  (download_pollutant_metadata session_get table_rows pollutant_urls
     frame_of_records).
#[local] Abbreviation download_file_list :=
  (download_file_list session_get read_url_list).
#[local] Abbreviation fetch_file_list :=
  (fetch_file_list to_csv read_csv session_get read_url_list).
#[local] Abbreviation fetch_file_lists :=
  (fetch_file_lists to_csv read_csv session_get read_url_list).
#[local] Abbreviation main :=
  (main to_csv read_csv session_get read_tsv read_url_list table_rows
     pollutant_urls frame_of_records merge_left file_parameters
     read_file_lists).

(** A computation that keeps every stored file. *)
#[local] Abbreviation keeps m :=
  (forall w : World Net,
      files w ⊆ files (snd ((m : M (World Net) _) w))).

Lemma keeps_ret {A} (a : A) : keeps (mret a).
Proof. done. Qed.

Lemma keeps_emit ev : keeps (emit ev).
Proof. done. Qed.

Lemma keeps_lift {A} (r : result A) : keeps (lift r).
Proof. done. Qed.

Lemma keeps_raise {A} e : keeps (raise (A:=A) e).
Proof. done. Qed.

Lemma keeps_bind {A B} (m : M (World Net) A) (k : A -> M (World Net) B) :
  keeps m -> (forall a, keeps (k a)) -> keeps (m ≫= k).
Proof.
  intros Hm Hk w. unfold mbind, M_bind, bind. specialize (Hm w).
  destruct (m w) as [[a|e] w1]; simpl in *; [|done].
  etrans; [exact Hm|apply Hk].
Qed.

Lemma keeps_try {A} (m : M (World Net) A) h :
  keeps m -> (forall e, keeps (h e)) -> keeps (try_except m h).
Proof.
  intros Hm Hh w. unfold try_except. specialize (Hm w).
  destruct (m w) as [[a|e] w1]; simpl in *; [done|].
  etrans; [exact Hm|apply Hh].
Qed.

Lemma keeps_maybe_download fname (f : fetch Frame Net) :
  keeps (maybe_download fname f).
Proof. intros w. apply (step_files _ _ _ (maybe_download_step _ _ _ _ _)). Qed.

Lemma keeps_download_rows data_root rows :
  keeps (download_rows to_csv read_csv session_get data_root rows).
Proof.
  induction rows as [|row rows IH]; intros w; [done|].
  rewrite download_rows_step. etrans; [|apply IH].
  apply (step_files _ _ _ (process_row_step _ _ _ _ _ _)).
Qed.

Lemma keeps_fetch_file_lists data_root params :
  keeps (fetch_file_lists data_root params).
Proof.
  induction params as [|[pollutant country_code] params IH]; [done|].
  apply keeps_bind; [|by intros _].
  apply keeps_try.
  - apply keeps_bind; [apply keeps_maybe_download|by intros _].
  - intros e. destruct e; done.
Qed.

(** X10: in the loop over the file lists only an HTTP error is caught:
    it is printed and the loop goes on with the next pair; any other
    exception ends the loop, the remaining pairs untouched. *)
Theorem fetch_file_lists_policy
    data_root pollutant country_code params (w w1 : World Net) e :
  maybe_download (file_list_path data_root pollutant country_code)
    (download_file_list pollutant country_code) w = (Raise e, w1) ->
  fetch_file_lists data_root ((pollutant, country_code) :: params) w =
    match e with
    | HTTPError m =>
        fetch_file_lists data_root params
          {| files := files w1; net := net w1;
             trace := trace w1 ++ [Print m] |}
    | _ => (Raise e, w1)
    end.
Proof.
  intros Hbody. simpl.
  unfold mbind at 1, M_bind at 1, bind at 1, try_except.
  unfold mbind at 1, M_bind at 1, bind at 1. rewrite Hbody.
  destruct e; reflexivity.
Qed.

(** X11: a run of [main] never removes or changes a file that is in the
    cache, however far it gets. *)
Theorem main_keeps_files argv (w : World Net) path text :
  files w !! path = Some text ->
  files (snd (main argv w)) !! path = Some text.
Proof.
  intros Hpath. eapply lookup_weaken; [exact Hpath|].
  clear Hpath. revert w. unfold Stages.main.
  apply keeps_bind; [apply keeps_emit|]. intros _.
  apply keeps_bind; [apply keeps_maybe_download|]. intros meta.
  apply keeps_bind; [apply keeps_emit|]. intros _.
  apply keeps_bind; [apply keeps_maybe_download|]. intros pollutant_meta.
  apply keeps_bind; [apply keeps_lift|]. intros meta'.
  apply keeps_bind; [apply keeps_emit|]. intros _.
  apply keeps_bind; [apply keeps_lift|]. intros params.
  apply keeps_bind; [apply keeps_fetch_file_lists|]. intros _.
  apply keeps_bind; [apply keeps_emit|]. intros _.
  apply keeps_bind; [done|]. intros rows.
  apply keeps_bind; [apply keeps_download_rows|]. intros _.
  apply keeps_bind; [apply keeps_emit|]. intros _.
  apply keeps_ret.
Qed.

(** X12: [main] does not catch a failure of the two metadata stages.
    When the metadata table is not in the cache and its request fails,
    [main] raises that exception after its first message; when a page of
    the pollutant metadata fails, it raises before any file list is
    asked for.  Neither stores anything. *)
Theorem main_aborts_on_metadata_failure argv (w : World Net) e n :
  let data_root := path_of (List.hd "data" argv) in
  let w0 := {| files := files w; net := net w;
               trace := trace w ++ [Print "Metadata..."] |} in
  (exists_ (joinpath data_root (path_of "metadata.csv.xz")) w = false ->
   get_checked metadata_url (net w) = (Raise e, n) ->
   main argv w =
     (Raise e, {| files := files w; net := n;
                  trace := trace w ++ [Print "Metadata..."; Fetch] |}))
  /\ (forall meta w1,
         maybe_download (joinpath data_root (path_of "metadata.csv.xz"))
           download_metadata w0 = (Ok meta, w1) ->
         exists_ (joinpath data_root
                    (path_of "metadata_pollutants.csv.xz")) w1 = false ->
         download_pollutant_metadata meta (net w1) = (Raise e, n) ->
         main argv w =
           (Raise e,
            {| files := files w1; net := n;
               trace := trace w1 ++
                 [Print "Metadata for pollutants..."; Fetch] |})).
Proof.
  intros data_root w0. split.
  - intros Hmiss Hget. unfold Stages.main. fold data_root.
    erewrite bind_Ok by reflexivity. fold w0.
    erewrite bind_Raise; [reflexivity|].
    rewrite maybe_download_miss by exact Hmiss.
    unfold Stages.download_metadata. simpl. rewrite Hget.
    rewrite <- app_assoc. reflexivity.
  - intros meta w1 Hmeta Hmiss Hfetch. unfold Stages.main. fold data_root.
    erewrite bind_Ok by reflexivity. fold w0.
    erewrite bind_Ok by exact Hmeta.
    erewrite bind_Ok by reflexivity.
    erewrite bind_Raise; [reflexivity|].
    rewrite maybe_download_miss by exact Hmiss. simpl.
    rewrite Hfetch, <- app_assoc. reflexivity.
Qed.

Lemma get_td_text_no_newline fragments :
  contains newline (get_td_text fragments) = false.
Proof.
  unfold get_td_text.
  by destruct (contains newline (concat_strings (map strip fragments)))
    eqn:E.
Qed.

Lemma dict_get_set k v d : dict_get k (dict_set k v d) = Some v.
Proof.
  induction d as [|[k' v'] d IH]; simpl; [by rewrite String.eqb_refl|].
  destruct (String.eqb_spec k' k) as [->|Hne]; simpl.
  - by rewrite String.eqb_refl.
  - by destruct (String.eqb_spec k' k).
Qed.

Lemma dict_set_elem k v d k' v' :
  (k', v') ∈ dict_set k v d -> (k' = k /\ v' = v) \/ (k', v') ∈ d.
Proof.
  induction d as [|[k0 v0] d IH]; simpl.
  - intros [=]%list_elem_of_singleton. by left.
  - destruct (String.eqb_spec k0 k) as [->|Hne].
    + intros [[=]|Hin]%elem_of_cons; [by left|right; by right].
    + intros [[=]|Hin]%elem_of_cons; [right; subst; left|].
      destruct (IH Hin) as [?|?]; [by left|right; by right].
Qed.

Lemma page_record_values trs pmeta record :
  page_record trs pmeta = Ok record ->
  (forall k v, (k, v) ∈ pmeta -> contains newline v = false) ->
  forall k v, (k, v) ∈ record -> contains newline v = false.
Proof.
  revert pmeta. induction trs as [|[[th|e] [td|e']] trs IH];
    intros pmeta; simpl; try discriminate.
  - intros [= <-]. done.
  - intros Hrec Hpmeta. apply (IH _ Hrec). intros k v Hin.
    apply dict_set_elem in Hin as [[_ ->]|Hin];
      [apply get_td_text_no_newline|by eapply Hpmeta].
Qed.

(** X13: when the loop over the pollutant pages returns, it has added one
    record for each URL, in order; each record has the URL of its page
    under [AirPollutantCode], whatever the page said, and none of its
    other values has a line feed. *)
Theorem pollutant_records_invariants urls pollutant_meta n records n' :
  pollutant_records urls pollutant_meta n = (Ok records, n') ->
  exists added,
    records = pollutant_meta ++ added
    /\ Forall2
         (fun url record =>
            dict_get "AirPollutantCode" record = Some url
            /\ forall k v, (k, v) ∈ record -> k <> "AirPollutantCode" ->
                           contains newline v = false)
         urls added.
Proof.
  revert pollutant_meta n.
  induction urls as [|url urls IH]; intros acc n; simpl.
  - intros [= <- _]. exists []. by rewrite app_nil_r.
  - destruct (get_checked url n) as [[response|e] n1]; [|done].
    destruct (table_rows (content response)) as [trs|e]; [|done].
    destruct (page_record trs []) as [pmeta|e] eqn:Hpage; [|done].
    intros (added & -> & Hadded)%IH.
    exists (dict_set "AirPollutantCode" url pmeta :: added).
    split; [by rewrite <- app_assoc|].
    constructor; [|exact Hadded]. split; [apply dict_get_set|].
    intros k v Hin Hk.
    apply dict_set_elem in Hin as [[? _]|Hin]; [done|].
    eapply (page_record_values _ _ _ Hpage); [|exact Hin].
    intros ? ? []%elem_of_nil.
Qed.

(** X14: the pollutant metadata is all or nothing: when the request for
    one of the pages always fails, [download_pollutant_metadata] raises
    and gives no frame. *)
Theorem failing_page_fails_all meta urls url n :
  pollutant_urls meta = Ok urls ->
  url ∈ urls ->
  (forall n1, exists e n2, get_checked url n1 = (Raise e, n2)) ->
  exists e n', download_pollutant_metadata meta n = (Raise e, n').
Proof.
  intros Hurls Hin Hfail. unfold Stages.download_pollutant_metadata.
  rewrite Hurls.
  assert (forall acc n0, exists e n',
             pollutant_records urls acc n0 = (Raise e, n')) as Hloop.
  { clear Hurls. induction urls as [|url' urls IH]; intros acc n0.
    - by apply elem_of_nil in Hin.
    - simpl. apply elem_of_cons in Hin as [<-|Hin].
      + destruct (Hfail n0) as (e & n2 & ->). eauto.
      + destruct (get_checked url' n0) as [[response|e] n1]; [|eauto].
        destruct (table_rows (content response)) as [trs|e]; [|eauto].
        destruct (page_record trs []) as [pmeta|e]; [|eauto].
        by apply IH. }
  destruct (Hloop [] n) as (e & n' & ->). eauto.
Qed.

End MainFacts.

(** ** Further properties of [load.py] *)

(** *** Column names *)

Section NameFacts.

Lemma lowercase_not_upper c : is_upper (lowercase c) = false.
Proof. destruct c as [[] [] [] [] [] [] [] []]; reflexivity. Qed.

Lemma lowercase_separator c : is_separator (lowercase c) = is_separator c.
Proof. destruct c as [[] [] [] [] [] [] [] []]; reflexivity. Qed.

Lemma upper_not_separator c : is_upper c = true -> is_separator c = false.
Proof. destruct c as [[] [] [] [] [] [] [] []]; done. Qed.

Lemma lowercase_id c : is_upper c = false -> lowercase c = c.
Proof. unfold lowercase. by intros ->. Qed.

Lemma space_separator c : Ascii.eqb c " " = true -> is_separator c = true.
Proof. by intros ->%Ascii.eqb_eq. Qed.

Lemma underscore_separators_none s :
  no_separator (underscore_separators s) = true.
Proof.
  induction s as [|c s IH]; simpl; [done|]. rewrite IH, andb_true_r.
  by destruct (is_separator c) eqn:E; [|rewrite E].
Qed.

Lemma underscore_capitals_canonical s :
  no_separator s = true -> canonical (underscore_capitals s) = true.
Proof.
  induction s as [|c s IH]; simpl; [done|].
  intros [Hc Hs]%andb_prop. destruct (is_upper c) eqn:Hu; simpl.
  - rewrite lowercase_not_upper, lowercase_separator, (IH Hs).
    by rewrite (upper_not_separator c Hu).
  - by rewrite Hu, Hc, (IH Hs).
Qed.

Lemma canonical_fixed s :
  canonical s = true ->
  replace_spaces s = s /\ underscore_separators s = s
  /\ underscore_capitals s = s.
Proof.
  induction s as [|c s IH]; simpl; [done|].
  intros [[Hu Hsep]%andb_prop Hs]%andb_prop.
  apply negb_true_iff in Hu, Hsep. destruct (IH Hs) as (-> & -> & ->).
  rewrite Hu, Hsep.
  destruct (Ascii.eqb c " ") eqn:E; [|done].
  apply space_separator in E. congruence.
Qed.

Lemma lowercase_ascii c :
  (nat_of_ascii c <? 128)%nat = true ->
  (nat_of_ascii (lowercase c) <? 128)%nat = true.
Proof. destruct c as [[] [] [] [] [] [] [] []]; done. Qed.

Lemma replace_spaces_ascii s :
  ascii_only s = true -> ascii_only (replace_spaces s) = true.
Proof.
  induction s as [|c s IH]; simpl; [done|].
  intros [Hc Hs]%andb_prop. rewrite (IH Hs), andb_true_r.
  by destruct (Ascii.eqb c " ").
Qed.

Lemma underscore_separators_ascii s :
  ascii_only s = true -> ascii_only (underscore_separators s) = true.
Proof.
  induction s as [|c s IH]; simpl; [done|].
  intros [Hc Hs]%andb_prop. rewrite (IH Hs), andb_true_r.
  by destruct (is_separator c).
Qed.

Lemma underscore_capitals_ascii s :
  ascii_only s = true -> ascii_only (underscore_capitals s) = true.
Proof.
  induction s as [|c s IH]; simpl; [done|].
  intros [Hc Hs]%andb_prop. destruct (is_upper c); simpl.
  - by rewrite (lowercase_ascii c Hc), (IH Hs).
  - by rewrite Hc, (IH Hs).
Qed.

(** X15: for a name of ASCII characters, [normalize_name] gives a name
    of ASCII characters without capital letters, spaces, dashes, dots or
    other white space; it leaves such a name as it is, so normalizing
    twice is normalizing once. *)
Theorem normalize_name_canonical n :
  ascii_only n = true ->
  ascii_only (normalize_name n) = true
  /\ canonical (normalize_name n) = true
  /\ (canonical n = true -> normalize_name n = n)
  /\ normalize_name (normalize_name n) = normalize_name n.
Proof.
  intros Hascii.
  assert (forall s, canonical (normalize_name s) = true) as Hcanon.
  { intros s. unfold normalize_name, snakecase.
    pose proof (underscore_separators_none (replace_spaces s)) as Hsep.
    destruct (underscore_separators (replace_spaces s)) as [|c s'];
      [done|].
    simpl in *. apply andb_prop in Hsep as [Hc Hs'].
    rewrite lowercase_not_upper, lowercase_separator, Hc.
    by apply underscore_capitals_canonical. }
  assert (forall s, canonical s = true -> normalize_name s = s) as Hfix.
  { intros s Hs. unfold normalize_name, snakecase.
    destruct (canonical_fixed s Hs) as (-> & -> & Hcap).
    destruct s as [|c s]; [done|]. simpl in *.
    apply andb_prop in Hs as [[Hu _]%andb_prop Hs].
    apply negb_true_iff in Hu. rewrite Hu in Hcap.
    injection Hcap as ->. by rewrite lowercase_id. }
  split; [|split; [apply Hcanon|split; [apply Hfix|apply Hfix, Hcanon]]].
  unfold normalize_name, snakecase.
  pose proof (underscore_separators_ascii _
                (replace_spaces_ascii _ Hascii)) as Hsep.
  destruct (underscore_separators (replace_spaces n)) as [|c s']; [done|].
  simpl in *. apply andb_prop in Hsep as [Hc Hs'].
  by rewrite (lowercase_ascii c Hc), (underscore_capitals_ascii s' Hs').
Qed.

End NameFacts.

(** *** Runs of the loader *)

Section LoadMore.

Import Load Commands.

Variable read_csv : read_mode -> string -> result DataFrame.
Variable pd_to_psql :
  DataFrame -> gmap string Table -> gmap string Table * option exn.

#[local] Abbreviation prepare := (prepare read_csv).
#[local] Abbreviation file_body := (file_body read_csv pd_to_psql).
#[local] Abbreviation load_file := (load_file read_csv pd_to_psql).
#[local] Abbreviation load_files := (load_files read_csv pd_to_psql).
#[local] Abbreviation load_observations :=
  (load_observations read_csv pd_to_psql).
#[local] Abbreviation logged w evs :=
  {| db := db w; log := log w ++ evs |}.

(** X16: when one of the tables [station], [quantity] and [observation]
    is not in the database, [load_observations] raises before it reads
    any file, and leaves the database and the log as they are. *)
Theorem load_observations_missing_table fnames (w : World) :
  db w !! "station" = None \/ db w !! "quantity" = None
  \/ db w !! "observation" = None ->
  exists e, load_observations fnames w = (Raise e, w).
Proof.
  intros Hmissing. rewrite load_observations_unfold.
  destruct (read_sql_query _ "station" w) as [[st|e] w1] eqn:Hst;
    [|eauto].
  destruct (read_sql_query _ "quantity" w) as [[q|e] w2] eqn:Hq;
    [|eauto].
  destruct (reflect_columns "observation" w) as [[cols|e] w3] eqn:Hobs;
    [|eauto].
  unfold read_sql_query, reflect_columns in *.
  destruct Hmissing as [H|[H|H]]; rewrite H in *; discriminate.
Qed.

(** X17: a run that returns normally has worked on the first five of the
    sorted names, each once and in order, and on no other file. *)
Theorem load_observations_normal_return fnames (w : World) :
  is_Ok (fst (load_observations fnames w)) = true ->
  processed (log (snd (load_observations fnames w)))
  = processed (log w) ++ take 5 (sorted fnames).
Proof.
  rewrite load_observations_unfold.
  destruct (read_sql_query _ "station" w) as [[st|e] w1]; [|done].
  destruct (read_sql_query _ "quantity" w) as [[q|e] w2]; [|done].
  destruct (reflect_columns "observation" w) as [[cols|e] w3]; [|done].
  destruct (load_files_processed read_csv pd_to_psql st q cols
              (take 5 (sorted fnames)) w) as (k & evs & Hlog & Hp & Hk).
  intros Hok. rewrite Hlog, processed_app, Hp, (Hk Hok).
  by rewrite firstn_all.
Qed.

Lemma load_metadata_ok fname (w : World) d :
  ~ referenced "station" (db w) ->
  read_csv Stations fname = Ok d ->
  "station_id" ∉ map normalize_name (columns d) ->
  NoDup (map normalize_name (columns d)) ->
  load_metadata read_csv fname w =
    (Ok tt,
     {| db := <["station" :=
                 {| t_columns :=
                      "station_id" :: map normalize_name (columns d);
                    t_rows :=
                      imap (fun i r => VInt (Z.of_nat i) :: r) (rows d);
                    t_pkey := Some "station_id";
                    t_fkeys := [] |}]> (db w);
        log := log w ++
          [ReadCsv fname Stations; ToSql "station";
           Execute "ALTER TABLE station ADD PRIMARY KEY (station_id);";
           LogInfo ("Wrote stations from file " +:+ fname
                      +:+ " into table `station'.")] |}).
Proof.
  intros Hfree Hread Hlabel Hnodup. unfold load_metadata.
  erewrite bind_Ok by (rewrite read_csv_file_eq, Hread; reflexivity).
  cbv zeta. rewrite to_sql_add_primary_key by assumption.
  unfold emit. cbn [db log]. rewrite <- !app_assoc. reflexivity.
Qed.

Lemma load_quantities_ok fname (w : World) d :
  ~ referenced "quantity" (db w) ->
  read_csv Quantities fname = Ok d ->
  "quantity_id" ∉ map normalize_name (columns d) ->
  NoDup (map normalize_name (columns d)) ->
  load_quantities read_csv fname w =
    (Ok tt,
     {| db := <["quantity" :=
                 {| t_columns :=
                      "quantity_id" :: map normalize_name (columns d);
                    t_rows :=
                      imap (fun i r => VInt (Z.of_nat i) :: r) (rows d);
                    t_pkey := Some "quantity_id";
                    t_fkeys := [] |}]> (db w);
        log := log w ++
          [ReadCsv fname Quantities; ToSql "quantity";
           Execute "ALTER TABLE quantity ADD PRIMARY KEY (quantity_id);";
           LogInfo ("Wrote pollutants from file " +:+ fname
                      +:+ " into table `quantity'.")] |}).
Proof.
  intros Hfree Hread Hlabel Hnodup. unfold load_quantities.
  erewrite bind_Ok by (rewrite read_csv_file_eq, Hread; reflexivity).
  cbv zeta. rewrite to_sql_add_primary_key by assumption.
  unfold emit. cbn [db log]. rewrite <- !app_assoc. reflexivity.
Qed.

(** X18: what [load_observations] reads back from [station] after a
    station file was loaded into a database in which no table references
    [station]: for the row at position [i] of the file, the key [i] and
    the station code of that row. *)
Theorem station_round_trip fname (w : World) d :
  ~ referenced "station" (db w) ->
  read_csv Stations fname = Ok d ->
  "station_id" ∉ map normalize_name (columns d) ->
  NoDup (map normalize_name (columns d)) ->
  "air_quality_station" ∈ map normalize_name (columns d) ->
  let w' := snd (load_metadata read_csv fname w) in
  read_sql_query ["station_id"; "air_quality_station"] "station" w' =
    (Ok {| columns := ["station_id"; "air_quality_station"];
           rows :=
             imap (fun i r =>
                     [VInt (Z.of_nat i);
                      cell (map normalize_name (columns d)) r
                        "air_quality_station"])
                  (rows d) |}, w').
Proof.
  intros Hfree Hread Hlabel Hnodup Hcode w'. unfold w'.
  rewrite (load_metadata_ok _ _ _ Hfree Hread Hlabel Hnodup).
  unfold read_sql_query. cbn [snd db]. rewrite lookup_insert_eq.
  cbn [t_columns t_rows].
  destruct (list_find _ ["station_id"; "air_quality_station"])
    as [[i c]|] eqn:Hfind.
  { apply list_find_Some in Hfind as (Hc%list_elem_of_lookup_2 & Hnot & _).
    destruct Hnot. apply elem_of_cons in Hc as [->|Hc]; [left|].
    apply list_elem_of_singleton in Hc as ->. by right. }
  do 2 f_equal. f_equal.
  change (map ?f (imap ?g ?l)) with (f <$> imap g l). rewrite fmap_imap.
  apply imap_ext. intros i r _. simpl. unfold cell. simpl.
  by destruct (index_of "air_quality_station"
                 (map normalize_name (columns d))).
Qed.

(** The frame prepared from a file that reads as UTF-8. *)
Lemma prepare_utf8 st q cols fname (w : World) d0 :
  read_csv (Observations Utf8) fname = Ok d0 ->
  prepare st q cols fname w =
    (match join_dimensions (normalize_column_names d0) st q cols with
     | Raise e => Raise e
     | Ok out =>
         match getitem out "station_id" with
         | Raise e => Raise e
         | Ok _ =>
             match getitem out "quantity_id" with
             | Raise e => Raise e
             | Ok _ => Ok out
             end
         end
     end,
     logged w [ReadCsv fname (Observations Utf8)]).
Proof.
  intros Hread. unfold Load.prepare.
  erewrite bind_Ok by (rewrite read_observations_utf8, Hread; reflexivity).
  cbv zeta. unfold mbind, M_bind, bind, lift.
  destruct (join_dimensions _ st q cols) as [out|e]; [|reflexivity].
  destruct (getitem out "station_id"); [|reflexivity].
  destruct (getitem out "quantity_id"); reflexivity.
Qed.

(** A file whose frame cannot be prepared ends the loop, with nothing
    appended. *)
Lemma load_files_prepare_raises st q cols fname rest (w w1 : World) e :
  prepare st q cols fname w = (Raise e, w1) ->
  (forall m, e <> UniqueViolation m) ->
  load_files st q cols (fname :: rest) w =
    (Raise e,
     logged w1 [LogException ("error occured for file " +:+ fname
                                +:+ ": ")]).
Proof.
  intros Hprep Hne. apply load_files_cons_raise.
  rewrite load_file_outcome. unfold Load.file_body.
  erewrite bind_Raise by exact Hprep.
  destruct e; try reflexivity. by destruct (Hne msg).
Qed.

Lemma filter_all_length {A} (P : A -> Prop) `{!forall x, Decision (P x)}
    (l : list A) :
  length (filter P l) = length l -> Forall P l.
Proof.
  induction l as [|x l IH]; [constructor|].
  rewrite filter_cons. destruct (decide (P x)) as [HP|HP]; simpl.
  - intros [= Hlen]. constructor; [done|by apply IH].
  - pose proof (length_filter P l). lia.
Qed.

(** X19: when [observation] has a column that the join does not give,
    selecting the columns raises one [KeyError]; the loop ends at that
    file and nothing is appended.  When the join gives some column of
    [observation], the text of the error lists the columns it does not
    give, each once, in the order of [observation]. *)
Theorem join_missing_column
    st q cols fname rest (w : World) d0 d1 d2 c :
  read_csv (Observations Utf8) fname = Ok d0 ->
  merge (normalize_column_names d0) st "air_quality_station" = Ok d1 ->
  merge_as
    (merged_dtype (normalize_column_names d0) st "air_pollutant_code")
    (column_dtype FromSql q "air_pollutant_code") d1 q "air_pollutant_code"
  = Ok d2 ->
  c ∈ cols -> c ∉ columns d2 ->
  exists msg,
    load_files st q cols (fname :: rest) w =
      (Raise (KeyError (py_repr msg)),
       {| db := db w;
          log := log w ++
            [ReadCsv fname (Observations Utf8);
             LogException ("error occured for file " +:+ fname
                             +:+ ": ")] |})
    /\ (forall c', c' ∈ cols -> c' ∈ columns d2 ->
          msg
          = py_repr_list (unique (filter (fun c => c ∉ columns d2) cols))
              +:+ " not in index").
Proof.
  intros Hread Hm1 Hm2 Hc Hnot. exists (not_in_index cols (columns d2)).
  split.
  - rewrite (load_files_prepare_raises _ _ _ _ _ _
               (logged w [ReadCsv fname (Observations Utf8)])
               (KeyError (py_repr (not_in_index cols (columns d2)))));
      [|rewrite (prepare_utf8 _ _ _ _ _ _ Hread)|].
    + simpl. rewrite <- ?app_assoc. reflexivity.
    + unfold join_dimensions. rewrite Hm1, Hm2. unfold select_columns.
      destruct (filter (fun c => c ∉ columns d2) cols) as [|c0 l] eqn:Hf;
        [|reflexivity].
      assert (c ∈ filter (fun c => c ∉ columns d2) cols) as Hin
        by (by apply list_elem_of_filter).
      rewrite Hf in Hin. by apply elem_of_nil in Hin.
    + discriminate.
  - intros c' Hc' Hin. unfold not_in_index.
    rewrite bool_decide_eq_false_2; [done|].
    intros Hlen%filter_all_length.
    by apply (proj1 (Forall_forall _ _) Hlen c').
Qed.

(** X20: the two debug messages read the columns [station_id] and
    [quantity_id] of the joined frame: when [observation] has no such
    column the frame is joined without error, and still the loop ends at
    that file with a [KeyError], nothing appended. *)
Theorem missing_id_column_aborts st q cols fname rest (w : World) d0 out :
  read_csv (Observations Utf8) fname = Ok d0 ->
  join_dimensions (normalize_column_names d0) st q cols = Ok out ->
  ("station_id" ∉ columns out) \/ ("quantity_id" ∉ columns out) ->
  exists c,
    c ∈ ["station_id"; "quantity_id"] /\ (c ∉ columns out)
    /\ load_files st q cols (fname :: rest) w =
         (Raise (KeyError ("'" +:+ c +:+ "'")),
          {| db := db w;
             log := log w ++
               [ReadCsv fname (Observations Utf8);
                LogException ("error occured for file " +:+ fname
                                +:+ ": ")] |}).
Proof.
  intros Hread Hjoin Hmissing.
  destruct (decide ("station_id" ∈ columns out)) as [Hs|Hs].
  - destruct Hmissing as [?|Hq]; [done|].
    exists "quantity_id". split; [right; left|]. split; [done|].
    rewrite (load_files_prepare_raises _ _ _ _ _ _
               (logged w [ReadCsv fname (Observations Utf8)])
               (KeyError "'quantity_id'"));
      [|rewrite (prepare_utf8 _ _ _ _ _ _ Hread)|].
    + simpl. rewrite <- ?app_assoc. reflexivity.
    + rewrite Hjoin. unfold getitem.
      rewrite (bool_decide_eq_true_2 _ Hs), (bool_decide_eq_false_2 _ Hq).
      reflexivity.
    + discriminate.
  - exists "station_id". split; [left|]. split; [done|].
    rewrite (load_files_prepare_raises _ _ _ _ _ _
               (logged w [ReadCsv fname (Observations Utf8)])
               (KeyError "'station_id'"));
      [|rewrite (prepare_utf8 _ _ _ _ _ _ Hread)|].
    + simpl. rewrite <- ?app_assoc. reflexivity.
    + rewrite Hjoin. unfold getitem.
      rewrite (bool_decide_eq_false_2 _ Hs). reflexivity.
    + discriminate.
Qed.

(** X21: a rerun over files whose batches the database refuses as
    already present returns normally: every file is given up with one
    warning, and the database stays as [pd_to_psql] left it, here
    unchanged. *)
Theorem load_files_rerun st q cols fnames (w : World) :
  (forall fname, fname ∈ fnames ->
     exists d0 out m,
       read_csv (Observations Utf8) fname = Ok d0
       /\ join_dimensions (normalize_column_names d0) st q cols = Ok out
       /\ "station_id" ∈ columns out /\ "quantity_id" ∈ columns out
       /\ pd_to_psql out (db w) = (db w, Some (UniqueViolation m))) ->
  let w' := snd (load_files st q cols fnames w) in
  fst (load_files st q cols fnames w) = Ok tt
  /\ db w' = db w
  /\ warnings (log w') = (warnings (log w) + length fnames)%nat
  /\ processed (log w') = processed (log w) ++ fnames.
Proof.
  revert w. induction fnames as [|fname rest IH]; intros w Hall.
  - simpl. rewrite app_nil_r. repeat split; lia.
  - destruct (Hall fname) as (d0 & out & m & Hread & Hjoin & Hs & Hq & Hpsql);
      [left|].
    assert (load_file st q cols fname w =
              (Ok tt,
               logged w
                 [ReadCsv fname (Observations Utf8); PdToPsql out;
                  LogWarning ("one or more rows in file " +:+ fname
                                +:+ " are already in the database; "
                                +:+ "skipping the entire file.")]))
      as Hfile.
    { rewrite load_file_outcome.
      erewrite file_body_ok_prepare.
      2:{ rewrite (prepare_utf8 _ _ _ _ _ _ Hread), Hjoin. unfold getitem.
          rewrite !bool_decide_eq_true_2 by done. reflexivity. }
      cbn [db log]. rewrite Hpsql. simpl.
      rewrite <- !app_assoc. reflexivity. }
    rewrite (load_files_cons_ok _ _ _ _ _ _ _ _ _ Hfile).
    destruct (IH (logged w
                    [ReadCsv fname (Observations Utf8); PdToPsql out;
                     LogWarning ("one or more rows in file " +:+ fname
                                   +:+ " are already in the database; "
                                   +:+ "skipping the entire file.")]))
      as (Hok & Hdb & Hwarn & Hproc).
    { intros f Hf. apply Hall. by right. }
    cbv zeta. rewrite Hok, Hdb, Hwarn, Hproc. cbn [db log].
    assert (forall l evs, warnings (l ++ evs)
                          = (warnings l + warnings evs)%nat) as Happ.
    { intros l evs. induction l as [|[] l IHl]; simpl; lia. }
    rewrite Happ, processed_app. cbn. rewrite <- app_assoc.
    split; [done|]. split; [done|]. split; [lia|done].
Qed.

End LoadMore.

(** *** [load_meta_cmd] *)

Section CommandFacts.

Import Load Commands.

Variable read_csv : read_mode -> string -> result DataFrame.
Variable create_table_sql : result string.
Variable execute :
  string -> gmap string Table -> result (gmap string Table).

(** X22: on a database in which no table references [station] or
    [quantity] (as before the first run), [load_meta_cmd] runs the
    script that creates [observation] when [station] and [quantity]
    already hold the two files; when the script cannot be read or the
    database refuses it, the command raises and the two tables stay as
    they were just written.  On a database in which [station] exists and
    is referenced (as after a first run with a script that declares the
    foreign keys), the command raises at its first step and changes
    nothing. *)
Theorem load_meta_cmd_tables stations pollutants (w : World) ds dq :
  read_csv Stations stations = Ok ds ->
  read_csv Quantities pollutants = Ok dq ->
  "station_id" ∉ map normalize_name (columns ds) ->
  "quantity_id" ∉ map normalize_name (columns dq) ->
  NoDup (map normalize_name (columns ds)) ->
  NoDup (map normalize_name (columns dq)) ->
  (~ referenced "station" (db w) -> ~ referenced "quantity" (db w) ->
   let w2 := snd ((load_metadata read_csv stations;;
                   load_quantities read_csv pollutants) w) in
   db w2 =
     <["quantity" :=
         {| t_columns := "quantity_id" :: map normalize_name (columns dq);
            t_rows := imap (fun i r => VInt (Z.of_nat i) :: r) (rows dq);
            t_pkey := Some "quantity_id";
            t_fkeys := [] |}]>
       (<["station" :=
            {| t_columns := "station_id" :: map normalize_name (columns ds);
               t_rows := imap (fun i r => VInt (Z.of_nat i) :: r) (rows ds);
               t_pkey := Some "station_id";
               t_fkeys := [] |}]> (db w))
   /\ load_meta_cmd read_csv create_table_sql execute stations pollutants w =
        match create_table_sql with
        | Raise e => (Raise e, w2)
        | Ok sql =>
            match execute sql (db w2) with
            | Raise e => (Raise e, w2)
            | Ok db3 =>
                (Ok 0%nat,
                 {| db := db3;
                    log := log w2 ++
                      [Execute sql;
                       LogInfo "Created empty table `observation'."] |})
            end
        end)
  /\ (is_Some (db w !! "station") -> referenced "station" (db w) ->
      exists msg,
        load_meta_cmd read_csv create_table_sql execute stations pollutants
          w =
          (Raise (OtherError msg),
           {| db := db w; log := log w ++ [ReadCsv stations Stations] |})).
Proof.
  intros Hrs Hrq Hls Hlq Hns Hnq. split.
  - intros Hfs Hfq w2.
    pose proof (load_metadata_ok read_csv stations w ds Hfs Hrs Hls Hns)
      as H1.
    set (w1 := snd (load_metadata read_csv stations w)).
    assert (~ referenced "quantity" (db w1)) as Hfq1
      by (intros H; apply Hfq;
          exact (adds_no_reference_load_metadata read_csv stations w _ H)).
    pose proof (load_quantities_ok read_csv pollutants w1 dq Hfq1 Hrq Hlq Hnq)
      as H2.
    assert (load_metadata read_csv stations w = (Ok tt, w1)) as Hm
      by (unfold w1; by rewrite H1).
    assert (load_quantities read_csv pollutants w1 = (Ok tt, w2)) as Hq.
    { unfold w2. erewrite bind_Ok by exact Hm. by rewrite H2. }
    split.
    { unfold w2. erewrite bind_Ok by exact Hm. rewrite H2.
      unfold w1. rewrite H1. reflexivity. }
    unfold load_meta_cmd.
    erewrite bind_Ok by exact Hm. erewrite bind_Ok by exact Hq.
    unfold mbind, M_bind, bind, lift, execute_script.
    destruct create_table_sql as [sql|e]; [|reflexivity].
    destruct (execute sql (db w2)) as [db3|e]; [|reflexivity].
    simpl. rewrite <- ?app_assoc. reflexivity.
  - intros Hsome Href. eexists. unfold load_meta_cmd.
    erewrite bind_Raise; [reflexivity|]. unfold load_metadata.
    erewrite bind_Ok by (rewrite read_csv_file_eq, Hrs; reflexivity).
    cbv zeta. erewrite bind_Raise; [reflexivity|].
    by apply to_sql_referenced.
Qed.

End CommandFacts.

(** ** The further properties on concrete runs *)

Section MoreExamples.

Import Download Load Stages Commands.

#[local] Abbreviation st_process_row :=
  (process_row DownloadExample.to_csv DownloadExample.read_csv
     StagesExample.session_get).
#[local] Abbreviation st_download_rows :=
  (download_rows DownloadExample.to_csv DownloadExample.read_csv
     StagesExample.session_get).
#[local] Abbreviation st_fetch_file_lists :=
  (fetch_file_lists DownloadExample.to_csv DownloadExample.read_csv
     StagesExample.session_get StagesExample.read_url_list).
#[local] Abbreviation st_main :=
  (Stages.main DownloadExample.to_csv DownloadExample.read_csv
     StagesExample.session_get StagesExample.read_tsv
     StagesExample.read_url_list StagesExample.table_rows
     StagesExample.pollutant_urls StagesExample.frame_of_records
     StagesExample.merge_left StagesExample.file_parameters
     StagesExample.read_file_lists).
#[local] Abbreviation ex_load_files cols :=
  (load_files LoadExample.read_csv LoadExample.pd_to_psql
     LoadExample.station_dim LoadExample.quantity_dim cols).

(** X2 on a pass of three entries over a cache with a file of another
    kind. *)
Lemma download_rows_keeps_files_witness :
  Download.files
    (snd (st_download_rows DownloadExample.data_root
            [StagesExample.ok_row; StagesExample.missing_row;
             DownloadExample.unreachable_row]
            StagesExample.cached_world))
  !! "data/notes.txt" = Some "keep".
Proof.
  apply (download_rows_keeps_files
           DownloadExample.to_csv DownloadExample.read_csv
           StagesExample.session_get).
  vm_compute. reflexivity.
Defined.

(** X3 on a pass over one entry, listed twice, that is in the cache. *)
Lemma download_rows_cached_witness :
  let w' := snd (st_download_rows DownloadExample.data_root
                   [StagesExample.ok_row; StagesExample.ok_row]
                   StagesExample.cached_world) in
  Download.files w' = Download.files StagesExample.cached_world
  /\ net w' = net StagesExample.cached_world
  /\ fetch_count (trace w') = fetch_count (trace StagesExample.cached_world).
Proof.
  apply (download_rows_cached
           DownloadExample.to_csv DownloadExample.read_csv
           StagesExample.session_get DownloadExample.data_root
           [StagesExample.ok_row; StagesExample.ok_row]
           StagesExample.cached_world).
  intros row path Hin Htarget.
  assert (row = StagesExample.ok_row) as ->.
  { repeat (apply elem_of_cons in Hin as [Hin|Hin]; [exact Hin|]).
    by apply elem_of_nil in Hin. }
  vm_compute in Htarget. injection Htarget as <-.
  vm_compute. reflexivity.
Defined.

(** X5 on an entry of the file list of NO2 in Norway. *)
Lemma row_target_layout_witness :
  row_target DownloadExample.data_root DownloadExample.unreachable_row
  = Ok (path_of "data/raw/NO2/NO/down.csv.xz")
  /\ exists pollutant country_code,
      file_list_key (row_path DownloadExample.unreachable_row)
      = [pollutant; country_code]
      /\ parts (path_of "data/raw/NO2/NO/down.csv.xz")
         = parts DownloadExample.data_root
           ++ "raw" :: filter (fun p => p <> "") [pollutant; country_code]
           ++ ["down.csv.xz"].
Proof.
  assert (row_target DownloadExample.data_root
            DownloadExample.unreachable_row
          = Ok (path_of "data/raw/NO2/NO/down.csv.xz")) as Htarget
    by (vm_compute; reflexivity).
  split; [exact Htarget|].
  destruct (row_target_layout DownloadExample.data_root
              DownloadExample.unreachable_row _ Htarget)
    as (p & c & Hkey & _ & Hparts & _).
  exists p, c. split; [exact Hkey|exact Hparts].
Defined.

(** X6 on the file list of NO2 in Norway. *)
Lemma file_list_key_round_trip_witness :
  let stored :=
    path_str (file_list_path (path_of "data") "NO2" "NO") in
  stored = "data/file_lists/NO2_NO.csv.xz"
  /\ file_list_key stored = ["NO2"; "NO"]
  /\ row_target (path_of "data") (mkRow "http://h/ok.csv" stored)
     = Ok (raw_path (path_of "data") "NO2" "NO" "http://h/ok.csv").
Proof.
  split; [vm_compute; reflexivity|].
  exact (file_list_key_round_trip "data" "NO2" "NO" "http://h/ok.csv"
           eq_refl eq_refl eq_refl eq_refl eq_refl eq_refl).
Defined.

(** X7 on the file list of PM2.5 in Norway. *)
Lemma dotted_pollutant_skipped_witness :
  let stored :=
    path_str (file_list_path (path_of "data") "PM2.5" "NO") in
  stored = "data/file_lists/PM2.5_NO.csv.xz"
  /\ st_process_row (path_of "data") (mkRow "http://h/ok.csv" stored)
       DownloadExample.empty_world
     = (Ok tt,
        {| Download.files := ∅; net := 0%nat;
           trace :=
             [] ++ [Print ("error processing http://h/ok.csv: not enough "
                             +:+ "values to unpack (expected 2, got 1)")] |}).
Proof.
  split; [vm_compute; reflexivity|].
  exact (proj2 (dotted_pollutant_skipped
                  DownloadExample.to_csv DownloadExample.read_csv
                  StagesExample.session_get
                  "data" "PM2.5" "NO" "http://h/ok.csv"
                  DownloadExample.empty_world
                  eq_refl eq_refl eq_refl eq_refl)).
Defined.

(** X8 on an entry whose server answers 404. *)
Lemma process_row_error_status_witness :
  exists m,
    st_process_row DownloadExample.data_root StagesExample.missing_row
      DownloadExample.empty_world
    = (Ok tt,
       {| Download.files := ∅; net := 1%nat;
          trace :=
            [] ++ [Fetch;
                   Print ("error downloading "
                            +:+ "data/raw/NO2/NO/missing.csv.xz"
                            +:+ " from " +:+ "http://h/missing.csv"
                            +:+ ": " +:+ m)] |}).
Proof.
  destruct (process_row_error_status
              DownloadExample.to_csv DownloadExample.read_csv
              StagesExample.session_get DownloadExample.data_root
              StagesExample.missing_row
              (path_of "data/raw/NO2/NO/missing.csv.xz")
              DownloadExample.empty_world
              (mkResponse 404 "Not Found" "") 1%nat
              ltac:(vm_compute; reflexivity) ltac:(vm_compute; reflexivity)
              ltac:(vm_compute; reflexivity)
              ltac:(cbn [status_code]; lia))
    as (m & _ & Hrun).
  exists m. exact Hrun.
Defined.

(** X9 on an entry whose server answers with a body. *)
Lemma process_row_stores_parsed_witness :
  st_process_row DownloadExample.data_root StagesExample.ok_row
    DownloadExample.empty_world
  = (Ok tt,
     {| Download.files := <["data/raw/NO2/NO/ok.csv.xz" := "Concentration"]> ∅;
        net := 1%nat;
        trace :=
          [] ++ [Fetch; Makedirs "data/raw/NO2/NO";
                 WriteFile "data/raw/NO2/NO/ok.csv.xz"] |}).
Proof.
  exact (process_row_stores_parsed
           DownloadExample.to_csv DownloadExample.read_csv
           StagesExample.session_get DownloadExample.data_root
           StagesExample.ok_row
           (path_of "data/raw/NO2/NO/ok.csv.xz")
           DownloadExample.empty_world
           (mkResponse 200 "OK" "Concentration") 1%nat
           ltac:(vm_compute; reflexivity) ltac:(vm_compute; reflexivity)
           ltac:(vm_compute; reflexivity)
           ltac:(left; cbn [status_code]; lia)).
Defined.

(** X10 on two file lists: the request for the first is answered with
    status 500, the second loop goes on; and on a server that cannot be
    reached. *)
Lemma fetch_file_lists_policy_witness :
  st_fetch_file_lists DownloadExample.data_root
    [("PM10", "NO"); ("NO2", "NO")] DownloadExample.empty_world
  = st_fetch_file_lists DownloadExample.data_root [("NO2", "NO")]
      {| Download.files := ∅; net := 1%nat;
         trace :=
           [Fetch] ++
           [Print ("500 Server Error: Internal Server Error for url: "
                     +:+ file_list_url "PM10" "NO")] |}.
Proof.
  apply (fetch_file_lists_policy
           DownloadExample.to_csv DownloadExample.read_csv
           StagesExample.session_get StagesExample.read_url_list
           DownloadExample.data_root "PM10" "NO" [("NO2", "NO")]
           DownloadExample.empty_world
           {| Download.files := ∅; net := 1%nat; trace := [Fetch] |}
           (HTTPError ("500 Server Error: Internal Server Error for url: "
                         +:+ file_list_url "PM10" "NO"))).
  vm_compute. reflexivity.
Defined.

(** X11 on a whole run over a cache with a file of another kind. *)
Lemma main_keeps_files_witness :
  Download.files (snd (st_main ["data"] StagesExample.cached_world))
  !! "data/notes.txt" = Some "keep".
Proof.
  apply (main_keeps_files
           DownloadExample.to_csv DownloadExample.read_csv
           StagesExample.session_get StagesExample.read_tsv
           StagesExample.read_url_list StagesExample.table_rows
           StagesExample.pollutant_urls StagesExample.frame_of_records
           StagesExample.merge_left StagesExample.file_parameters
           StagesExample.read_file_lists).
  vm_compute. reflexivity.
Defined.

(** X12 on a server that cannot be reached. *)
Lemma main_aborts_on_metadata_failure_witness :
  Stages.main DownloadExample.to_csv DownloadExample.read_csv
    DownloadExample.session_get StagesExample.read_tsv
    StagesExample.read_url_list StagesExample.table_rows
    StagesExample.pollutant_urls StagesExample.frame_of_records
    StagesExample.merge_left StagesExample.file_parameters
    StagesExample.read_file_lists ["data"] DownloadExample.empty_world
  = (Raise (OtherError "Connection refused"),
     {| Download.files := ∅; net := 1%nat;
        trace := [] ++ [Print "Metadata..."; Fetch] |}).
Proof.
  apply (proj1 (main_aborts_on_metadata_failure
                  DownloadExample.to_csv DownloadExample.read_csv
                  DownloadExample.session_get StagesExample.read_tsv
                  StagesExample.read_url_list StagesExample.table_rows
                  StagesExample.pollutant_urls
                  StagesExample.frame_of_records
                  StagesExample.merge_left StagesExample.file_parameters
                  StagesExample.read_file_lists
                  ["data"] DownloadExample.empty_world
                  (OtherError "Connection refused") 1%nat));
    vm_compute; reflexivity.
Defined.

(** X13 on the page of one pollutant, one of whose rows claims a code of
    its own. *)
Lemma pollutant_records_invariants_witness :
  exists added,
    [StagesExample.page_8_record] = [] ++ added
    /\ Forall2
         (fun url record =>
            dict_get "AirPollutantCode" record = Some url
            /\ forall k v, (k, v) ∈ record -> k <> "AirPollutantCode" ->
                           contains newline v = false)
         ["http://p/8"] added.
Proof.
  apply (pollutant_records_invariants
           StagesExample.session_get StagesExample.table_rows
           ["http://p/8"] [] 0%nat [StagesExample.page_8_record] 1%nat).
  vm_compute. reflexivity.
Defined.

(** X14 on a metadata table with two pollutants, the page of the second
    answered with status 503. *)
Lemma failing_page_fails_all_witness :
  exists e n',
    download_pollutant_metadata StagesExample.session_get
      StagesExample.table_rows StagesExample.pollutant_urls
      StagesExample.frame_of_records "meta of two" 0%nat
    = (Raise e, n').
Proof.
  apply (failing_page_fails_all
           StagesExample.session_get StagesExample.table_rows
           StagesExample.pollutant_urls StagesExample.frame_of_records
           "meta of two" ["http://p/8"; "http://p/5"] "http://p/5" 0%nat).
  - vm_compute. reflexivity.
  - right. left.
  - intros n1. eexists _, _. vm_compute. reflexivity.
Defined.

(** X15 on the name of a column of a station file and on the name it
    becomes. *)
Lemma normalize_name_canonical_witness :
  normalize_name "AirQualityStation" = "air_quality_station"
  /\ canonical "air_quality_station" = true
  /\ normalize_name "air_quality_station" = "air_quality_station".
Proof.
  split; [vm_compute; reflexivity|].
  destruct (normalize_name_canonical "AirQualityStation" eq_refl)
    as (_ & Hcanon & _ & Hidem).
  split; [exact Hcanon|exact Hidem].
Defined.

(** X16 on a database without [station]. *)
Lemma load_observations_missing_table_witness :
  exists e,
    load_observations LoadExample.read_csv LoadExample.pd_to_psql
      LoadExample.six_files LoadExample.fresh_db
    = (Raise e, LoadExample.fresh_db).
Proof.
  apply (load_observations_missing_table
           LoadExample.read_csv LoadExample.pd_to_psql).
  left. vm_compute. reflexivity.
Defined.

(** X17 on six files that all load. *)
Lemma load_observations_normal_return_witness :
  processed
    (log (snd (load_observations LoadExample.read_csv
                 LoadExample.pd_to_psql LoadExample.six_files
                 LoadExample.loaded_db)))
  = processed (log LoadExample.loaded_db)
    ++ take 5 (sorted LoadExample.six_files).
Proof.
  apply (load_observations_normal_return
           LoadExample.read_csv LoadExample.pd_to_psql).
  vm_compute. reflexivity.
Defined.

(** X18 on a station file with two stations. *)
Lemma station_round_trip_witness :
  let w' := snd (load_metadata LoadExample.read_csv "stations.csv"
                   LoadExample.fresh_db) in
  read_sql_query ["station_id"; "air_quality_station"] "station" w'
  = (Ok LoadExample.station_dim, w').
Proof.
  exact (station_round_trip LoadExample.read_csv "stations.csv"
           LoadExample.fresh_db LoadExample.stations
           ltac:(apply (bool_decide_unpack _); vm_compute; reflexivity)
           eq_refl ltac:(decide_now) ltac:(decide_now) ltac:(decide_now)).
Defined.

(** X19 on a fact table with a column that no file has. *)
Lemma join_missing_column_witness :
  let double := String (ascii_of_nat 34) "" in
  ex_load_files CommandExample.wider_columns ["f1.csv"; "f2.csv"]
    LoadExample.loaded_db
  = (Raise (KeyError (double +:+ "['sampling_point'] not in index"
                        +:+ double)),
     {| db := db LoadExample.loaded_db;
        log := log LoadExample.loaded_db ++
          [ReadCsv "f1.csv" (Observations Utf8);
           LogException ("error occured for file " +:+ "f1.csv"
                           +:+ ": ")] |}).
Proof.
  pose (d0 := LoadExample.observations "f1.csv").
  let r := eval vm_compute in
             (merge (normalize_column_names d0) LoadExample.station_dim
                "air_quality_station") in
  match r with Ok ?d => pose (d1 := d) end.
  let r := eval vm_compute in
             (merge_as
                (merged_dtype (normalize_column_names d0)
                   LoadExample.station_dim "air_pollutant_code")
                (column_dtype FromSql LoadExample.quantity_dim
                   "air_pollutant_code")
                d1 LoadExample.quantity_dim "air_pollutant_code") in
  match r with Ok ?d => pose (d2 := d) end.
  destruct (join_missing_column
              LoadExample.read_csv LoadExample.pd_to_psql
              LoadExample.station_dim LoadExample.quantity_dim
              CommandExample.wider_columns "f1.csv" ["f2.csv"]
              LoadExample.loaded_db d0 d1 d2 "sampling_point")
    as (msg & Hrun & Hmsg);
    [vm_compute; reflexivity..|decide_now|decide_now|].
  rewrite (Hmsg "station_id") in Hrun by decide_now.
  exact Hrun.
Defined.

(** X20 on a fact table without the key of the pollutant. *)
Lemma missing_id_column_aborts_witness :
  exists c,
    c ∈ ["station_id"; "quantity_id"]
    /\ ex_load_files CommandExample.narrower_columns ["f1.csv"; "f2.csv"]
         LoadExample.loaded_db
       = (Raise (KeyError ("'" +:+ c +:+ "'")),
          {| db := db LoadExample.loaded_db;
             log := log LoadExample.loaded_db ++
               [ReadCsv "f1.csv" (Observations Utf8);
                LogException ("error occured for file " +:+ "f1.csv"
                                +:+ ": ")] |}).
Proof.
  pose (d0 := LoadExample.observations "f1.csv").
  let r := eval vm_compute in
             (join_dimensions (normalize_column_names d0)
                LoadExample.station_dim LoadExample.quantity_dim
                CommandExample.narrower_columns) in
  match r with Ok ?d => pose (out := d) end.
  destruct (missing_id_column_aborts
              LoadExample.read_csv LoadExample.pd_to_psql
              LoadExample.station_dim LoadExample.quantity_dim
              CommandExample.narrower_columns "f1.csv" ["f2.csv"]
              LoadExample.loaded_db d0 out)
    as (c & Hin & _ & Hrun);
    [vm_compute; reflexivity..|right; decide_now|].
  exists c. split; [exact Hin|exact Hrun].
Defined.

(** X21 on a second run over a file that was loaded. *)
Lemma load_files_rerun_witness :
  let run := ex_load_files LoadExample.observation_columns ["f1.csv"]
               LoadExample.loaded_once in
  fst run = Ok tt
  /\ db (snd run) = db LoadExample.loaded_once
  /\ warnings (log (snd run))
     = (warnings (log LoadExample.loaded_once) + length ["f1.csv"])%nat
  /\ processed (log (snd run))
     = processed (log LoadExample.loaded_once) ++ ["f1.csv"].
Proof.
  apply (load_files_rerun
           LoadExample.read_csv LoadExample.pd_to_psql
           LoadExample.station_dim LoadExample.quantity_dim
           LoadExample.observation_columns ["f1.csv"]
           LoadExample.loaded_once).
  intros fname ->%list_elem_of_singleton.
  exists (LoadExample.observations "f1.csv"), (LoadExample.joined "f1.csv"),
    "duplicate key value".
  split; [vm_compute; reflexivity|]. split; [vm_compute; reflexivity|].
  split; [decide_now|]. split; [decide_now|]. vm_compute. reflexivity.
Defined.

(** X22 on an empty database, and on the database this first run
    leaves. *)
Lemma load_meta_cmd_tables_witness :
  let w2 := snd ((load_metadata LoadExample.read_csv "stations.csv";;
                  load_quantities LoadExample.read_csv "pollutants.csv")
                   CommandExample.empty_db) in
  (db w2 !! "station" ≫= fun t => Some (t_rows t))
  = Some [[VInt 0; VStr "STA-1"; VInt 3]; [VInt 1; VStr "STA-2"; VInt 40]]
  /\ load_meta_cmd LoadExample.read_csv CommandExample.create_table_sql
       CommandExample.execute "stations.csv" "pollutants.csv"
       CommandExample.empty_db
     = (Ok 0%nat,
        {| db := <["observation" := CommandExample.observation_table]>
                   (db w2);
           log := log w2 ++
             [Execute "CREATE TABLE observation (...);";
              LogInfo "Created empty table `observation'."] |})
  /\ (exists msg,
        load_meta_cmd LoadExample.read_csv CommandExample.create_table_sql
          CommandExample.execute "stations.csv" "pollutants.csv"
          CommandExample.set_up_db
        = (Raise (OtherError msg),
           {| db := db CommandExample.set_up_db;
              log := log CommandExample.set_up_db
                     ++ [ReadCsv "stations.csv" Stations] |})).
Proof.
  intros w2.
  destruct (proj1 (load_meta_cmd_tables
                     LoadExample.read_csv CommandExample.create_table_sql
                     CommandExample.execute "stations.csv" "pollutants.csv"
                     CommandExample.empty_db
                     LoadExample.stations LoadExample.quantities
                     eq_refl eq_refl
                     ltac:(decide_now) ltac:(decide_now)
                     ltac:(decide_now) ltac:(decide_now)))
    as [Hdb Hrun];
    [apply (bool_decide_unpack _); vm_compute; reflexivity..|].
  split; [unfold w2; rewrite Hdb; vm_compute; reflexivity|].
  split; [exact Hrun|].
  apply (proj2 (load_meta_cmd_tables
                  LoadExample.read_csv CommandExample.create_table_sql
                  CommandExample.execute "stations.csv" "pollutants.csv"
                  CommandExample.set_up_db
                  LoadExample.stations LoadExample.quantities
                  eq_refl eq_refl
                  ltac:(decide_now) ltac:(decide_now)
                  ltac:(decide_now) ltac:(decide_now)));
    apply (bool_decide_unpack _); vm_compute; reflexivity.
Defined.

End MoreExamples.
